(** * GSIL search engine ([gsil/engine.py]): result-processing pipeline

    A shallow embedding of the [Engine] class: the text helpers of Python's
    [str] that the engine calls, the three regular expressions it uses, the
    fragment classifier [codes] with its matching modes, the mail resolver
    [_mail], the per-hit loop [process_pages] and the page loop [search].

    Text is modelled as [string], each [ascii] standing for one code point
    below 256.  The collaborators outside the file (GitHub client, HTTP
    transport, HTML parser, IPy, tld, configuration lists, [Process] and
    [clone]) are parameters; every call that reaches them is recorded in an
    event trace.  A collaborator raises only where the engine has a handler
    for it ([sha], [decoded_content], the GitHub client, [requests.get], the
    HTML parser, [get_tld]); elsewhere its calls return. *)

From Stdlib Require Import ZArith Ascii String List Bool Lia.
From Stdlib Require Import DecimalString DecimalNat.
From stdpp Require Import gmap list strings.
Import ListNotations.

Local Open Scope string_scope.
Local Open Scope list_scope.
Local Open Scope nat_scope.

(** ** Python [str] operations used by the engine *)

Module Py.

(** Code point of a character. *)
Definition ord (c : ascii) : nat := nat_of_ascii c.

(** [str.isspace] on one character, for code points below 256. *)
Definition isspace (c : ascii) : bool :=
  let n := ord c in
  ((9 <=? n) && (n <=? 13)) || ((28 <=? n) && (n <=? 32))
  || (n =? 133) || (n =? 160).

(** Line boundaries recognised by [str.splitlines], below 256. *)
Definition is_linebreak (c : ascii) : bool :=
  let n := ord c in
  ((10 <=? n) && (n <=? 13)) || ((28 <=? n) && (n <=? 30)) || (n =? 133).

(** [str.lower] on one character. *)
Definition lower_char (c : ascii) : ascii :=
  let n := ord c in
  if ((65 <=? n) && (n <=? 90))
     || ((192 <=? n) && (n <=? 222) && negb (n =? 215))
  then ascii_of_nat (n + 32) else c.

Fixpoint lower (s : string) : string :=
  match s with
  | EmptyString => EmptyString
  | String c s' => String (lower_char c) (lower s')
  end.

Fixpoint lstrip (s : string) : string :=
  match s with
  | EmptyString => EmptyString
  | String c s' => if isspace c then lstrip s' else s
  end.

(** [rstrip] keeps a character when it is not a space or when something
    survives to its right. *)
Fixpoint rstrip (s : string) : string :=
  match s with
  | EmptyString => EmptyString
  | String c s' =>
      match rstrip s' with
      | EmptyString => if isspace c then EmptyString else String c EmptyString
      | r => String c r
      end
  end.

Definition strip (s : string) : string := rstrip (lstrip s).

(** [s.startswith(p)]. *)
Fixpoint startswith (p s : string) : bool :=
  match p, s with
  | EmptyString, _ => true
  | String a p', String b s' => Ascii.eqb a b && startswith p' s'
  | String _ _, EmptyString => false
  end.

(** [needle in hay]: substring test. *)
Fixpoint contains (needle hay : string) : bool :=
  startswith needle hay ||
  match hay with
  | EmptyString => false
  | String _ hay' => contains needle hay'
  end.

(** [s.replace(old, new)] for a non-empty [old] (both call sites pass a
    literal): left-to-right, non-overlapping.  [skip] counts the characters
    of an occurrence of [old] still to be dropped. *)
Fixpoint replace_from (old new : string) (skip : nat) (s : string) : string :=
  match s with
  | EmptyString => EmptyString
  | String c s' =>
      match skip with
      | S k => replace_from old new k s'
      | O =>
          if startswith old s
          then new +:+ replace_from old new (String.length old - 1) s'
          else String c (replace_from old new 0 s')
      end
  end.

Definition replace (old new s : string) : string := replace_from old new 0 s.

(** [s.splitlines()]: a carriage return followed by a line feed is one
    boundary; no empty last line is produced. *)
Fixpoint splitlines (s : string) : list string :=
  match s with
  | EmptyString => []
  | String c s' =>
      if is_linebreak c then
        EmptyString ::
          match s' with
          | String c' s'' =>
              if (ord c =? 13) && (ord c' =? 10)
              then splitlines s'' else splitlines s'
          | EmptyString => splitlines s'
          end
      else
        match splitlines s' with
        | [] => [String c EmptyString]
        | l :: ls => String c l :: ls
        end
  end.

(** [s.split(sep)] for a one-character separator: always at least one
    field, consecutive separators give empty fields. *)
Fixpoint split (sep : ascii) (s : string) : list string :=
  match s with
  | EmptyString => [EmptyString]
  | String c s' =>
      if Ascii.eqb c sep then EmptyString :: split sep s'
      else
        match split sep s' with
        | [] => [String c EmptyString]
        | l :: ls => String c l :: ls
        end
  end.

(** [sep.join(parts)]. *)
Fixpoint join (sep : string) (parts : list string) : string :=
  match parts with
  | [] => EmptyString
  | [p] => p
  | p :: ps => p +:+ sep +:+ join sep ps
  end.

(** [s[0:n]]. *)
Fixpoint take (n : nat) (s : string) : string :=
  match n, s with
  | S n', String c s' => String c (take n' s')
  | _, _ => EmptyString
  end.

(** [s[n:]]. *)
Fixpoint drop (n : nat) (s : string) : string :=
  match n, s with
  | S n', String _ s' => drop n' s'
  | _, _ => s
  end.

(** The line feed and the double quote as one-character strings. *)
Definition LF : string := String (ascii_of_nat 10) EmptyString.
Definition DQUOTE : string := String (ascii_of_nat 34) EmptyString.

(** Membership of a string in a list of strings ([x in xs]). *)
Definition mem (x : string) (xs : list string) : bool :=
  existsb (String.eqb x) xs.

(** Membership of an integer in a list of integers. *)
Definition memZ (x : Z) (xs : list Z) : bool := existsb (Z.eqb x) xs.

End Py.

(** ** The regular expressions of the engine

    [regex_mail] and [regex_host] are sequences of literal characters and
    greedy [+] repetitions of a character class; [match_here] is the
    backtracking matcher of Python's [re] on such sequences and [findall]
    its left-to-right, non-overlapping scan. *)

Module Re.

Inductive atom : Type :=
| Lit (c : ascii)
| Plus (cls : ascii -> bool).

(** Length of the longest prefix of [s] inside the class. *)
Fixpoint run (cls : ascii -> bool) (s : string) : nat :=
  match s with
  | String c s' => if cls c then S (run cls s') else 0
  | EmptyString => 0
  end.

(** Backtracking of a [+] that can take at most [k] characters of [s]:
    the longest run first, one character less on every failure of [rest],
    never fewer than one. *)
Fixpoint back (rest : string -> option nat) (s : string) (k : nat)
  : option nat :=
  match k with
  | O => None
  | S k' =>
      match rest (Py.drop k s) with
      | Some m => Some (k + m)
      | None => back rest s k'
      end
  end.

(** Length of the match of [p] at the start of [s], if there is one. *)
Fixpoint match_here (p : list atom) : string -> option nat :=
  match p with
  | [] => fun _ => Some 0
  | Lit c :: p' => fun s =>
      match s with
      | String c' s' =>
          if Ascii.eqb c c' then option_map S (match_here p' s') else None
      | EmptyString => None
      end
  | Plus cls :: p' => fun s => back (match_here p') s (run cls s)
  end.

(** [re.findall]: the matches from left to right; after a match the scan
    resumes behind it ([skip] counts the characters of the match still to
    be passed).  The patterns here match no empty string. *)
Fixpoint findall_from (p : list atom) (skip : nat) (s : string) : list string :=
  match s with
  | EmptyString => []
  | String _ s' =>
      match skip with
      | S k => findall_from p k s'
      | O =>
          match match_here p s with
          | Some (S n) => Py.take (S n) s :: findall_from p n s'
          | _ => findall_from p 0 s'
          end
      end
  end.

Definition findall (p : list atom) (s : string) : list string :=
  findall_from p 0 s.

Definition in_range (lo hi : nat) (c : ascii) : bool :=
  (lo <=? Py.ord c) && (Py.ord c <=? hi).

(** [a-zA-Z0-9] *)
Definition alnum (c : ascii) : bool :=
  in_range 97 122 c || in_range 65 90 c || in_range 48 57 c.

Definition digit (c : ascii) : bool := in_range 48 57 c.

(** [[a-zA-Z0-9_.+-]] *)
Definition cls_local (c : ascii) : bool :=
  alnum c || Ascii.eqb c "_" || Ascii.eqb c "." || Ascii.eqb c "+"
  || Ascii.eqb c "-".

(** [[a-zA-Z0-9-]] *)
Definition cls_label (c : ascii) : bool := alnum c || Ascii.eqb c "-".

(** [[a-zA-Z0-9-.]] *)
Definition cls_tail (c : ascii) : bool :=
  alnum c || Ascii.eqb c "-" || Ascii.eqb c ".".

(** [([a-zA-Z0-9_.+-]+@[a-zA-Z0-9-]+\.[a-zA-Z0-9-.]+)] *)
Definition regex_mail : list atom :=
  [Plus cls_local; Lit "@"; Plus cls_label; Lit "."; Plus cls_tail].

(** [@([a-zA-Z0-9-]+\.[a-zA-Z0-9-.]+)]; the group leaves the [@] out. *)
Definition regex_host : list atom :=
  [Lit "@"; Plus cls_label; Lit "."; Plus cls_tail].

(** [re.findall(regex_mail, code)] *)
Definition findall_mail (code : string) : list string :=
  findall regex_mail code.

(** [re.findall(regex_host, mail)]: group 1 of every match. *)
Definition findall_host (mail : string) : list string :=
  map (Py.drop 1) (findall regex_host mail).

(** One alternative of the octet group of [regex_ip]:
    [[0-9]|[1-9][0-9]|1[0-9]{2}|2[0-4][0-9]|25[0-5]]. *)
Definition octet (s : string) : bool :=
  match s with
  | String a EmptyString => digit a
  | String a (String b EmptyString) => in_range 49 57 a && digit b
  | String a (String b (String c EmptyString)) =>
      (Ascii.eqb a "1" && digit b && digit c)
      || (Ascii.eqb a "2" && in_range 48 52 b && digit c)
      || (Ascii.eqb a "2" && Ascii.eqb b "5" && in_range 48 53 c)
  | _ => false
  end.

(** Three octets each followed by a dot, then a fourth octet. *)
Definition dotted_quad (s : string) : bool :=
  match Py.split "." s with
  | [a; b; c; d] => octet a && octet b && octet c && octet d
  | _ => false
  end.

(** [re.match(regex_ip, host) is not None].  The pattern is anchored at
    both ends; [$] also matches before one final line feed. *)
Definition match_ip (host : string) : bool :=
  let q := Py.take (String.length host - 1) host in
  dotted_quad host
  || (String.eqb host (q +:+ Py.LF) && dotted_quad q).

End Re.

(** ** Data model *)

(** The rule object handed to [Engine.search]: [keyword], the optional
    comma-separated [extension] ([None] in Python) and the [mode] tag, which
    the engine compares as a string. *)
Record RuleObject : Type := {
  keyword : string;
  extension : option string;
  mode : string
}.

(** [content.repository] of a search hit. *)
Record Repository : Type := {
  repo_full_name : string;
  repo_html_url : string
}.

(** One search hit ([ContentFile] of the GitHub client).  Reading [sha] or
    [decoded_content] can raise: [None] stands for the exception. *)
Record ContentFile : Type := {
  html_url : string;
  content_sha : option string;
  content_path : string;
  repository : Repository;
  decoded_content : option string
}.

(** The dictionary built per hit at lines 124-131. *)
Record ScanResult : Type := {
  res_url : string;
  res_match_codes : list string;
  res_hash : string;
  res_code : string;
  res_repository : string;
  res_path : string
}.

(** The messages of [logger] that the statements below refer to, each with
    the line of its call.  A message about a hit carries the position
    [current_i] of the hit; the first two also print [processed_count]. *)
Inductive LogMsg : Type :=
| LogSkipRules (current_i processed : nat)    (* line 80 *)
| LogProcessedSkip (current_i processed : nat) (* line 97 *)
| LogExcludedPath (current_i : nat)           (* line 107 *)
| LogContentException                         (* line 114 *)
| LogNoMatch (current_i : nat)                (* line 120 *)
| LogToReview (current_i : nat)               (* line 134 *)
| LogComplete (current_i : nat)               (* line 142 *)
| LogPageTimeout                              (* line 224 *)
| LogPageData (page len : nat)                (* line 231 *)
| LogRuleDone.                                (* line 240 *)

(** Calls that leave the engine, in the order they are made. *)
Inductive Event : Type :=
| EvGetPage (page : nat)                       (* resource.get_page(page) *)
| EvHttpGet (domain : string)                  (* requests.get(domain, timeout=4) *)
| EvClone (git_url sha : string)               (* clone(git_url, self.sha) *)
| EvProcess (result : gmap nat ScanResult) (rule : RuleObject)
                                               (* Process(result, rule).process() *)
| EvLog (m : LogMsg).

(** The mutable fields of an [Engine] instance that the pipeline uses. *)
Record Engine : Type := {
  token : string;
  rule_object : RuleObject;
  code : string;
  full_name : string;
  sha : string;
  url : string;
  path : string;
  result : gmap nat ScanResult;
  exclude_result : gmap nat ScanResult;
  hash_list : list string;
  processed_count : nat;
  next_count : nat
}.

(** Field assignments [self.f = v]. *)
Definition set_rule_object (v : RuleObject) (self : Engine) : Engine :=
  {| token := token self;
     rule_object := v;
     code := code self;
     full_name := full_name self;
     sha := sha self;
     url := url self;
     path := path self;
     result := result self;
     exclude_result := exclude_result self;
     hash_list := hash_list self;
     processed_count := processed_count self;
     next_count := next_count self |}.
Definition set_code (v : string) (self : Engine) : Engine :=
  {| token := token self;
     rule_object := rule_object self;
     code := v;
     full_name := full_name self;
     sha := sha self;
     url := url self;
     path := path self;
     result := result self;
     exclude_result := exclude_result self;
     hash_list := hash_list self;
     processed_count := processed_count self;
     next_count := next_count self |}.
Definition set_full_name (v : string) (self : Engine) : Engine :=
  {| token := token self;
     rule_object := rule_object self;
     code := code self;
     full_name := v;
     sha := sha self;
     url := url self;
     path := path self;
     result := result self;
     exclude_result := exclude_result self;
     hash_list := hash_list self;
     processed_count := processed_count self;
     next_count := next_count self |}.
Definition set_sha (v : string) (self : Engine) : Engine :=
  {| token := token self;
     rule_object := rule_object self;
     code := code self;
     full_name := full_name self;
     sha := v;
     url := url self;
     path := path self;
     result := result self;
     exclude_result := exclude_result self;
     hash_list := hash_list self;
     processed_count := processed_count self;
     next_count := next_count self |}.
Definition set_url (v : string) (self : Engine) : Engine :=
  {| token := token self;
     rule_object := rule_object self;
     code := code self;
     full_name := full_name self;
     sha := sha self;
     url := v;
     path := path self;
     result := result self;
     exclude_result := exclude_result self;
     hash_list := hash_list self;
     processed_count := processed_count self;
     next_count := next_count self |}.
Definition set_path (v : string) (self : Engine) : Engine :=
  {| token := token self;
     rule_object := rule_object self;
     code := code self;
     full_name := full_name self;
     sha := sha self;
     url := url self;
     path := v;
     result := result self;
     exclude_result := exclude_result self;
     hash_list := hash_list self;
     processed_count := processed_count self;
     next_count := next_count self |}.
Definition set_result (v : gmap nat ScanResult) (self : Engine) : Engine :=
  {| token := token self;
     rule_object := rule_object self;
     code := code self;
     full_name := full_name self;
     sha := sha self;
     url := url self;
     path := path self;
     result := v;
     exclude_result := exclude_result self;
     hash_list := hash_list self;
     processed_count := processed_count self;
     next_count := next_count self |}.
Definition set_exclude_result (v : gmap nat ScanResult) (self : Engine) : Engine :=
  {| token := token self;
     rule_object := rule_object self;
     code := code self;
     full_name := full_name self;
     sha := sha self;
     url := url self;
     path := path self;
     result := result self;
     exclude_result := v;
     hash_list := hash_list self;
     processed_count := processed_count self;
     next_count := next_count self |}.
Definition set_hash_list (v : list string) (self : Engine) : Engine :=
  {| token := token self;
     rule_object := rule_object self;
     code := code self;
     full_name := full_name self;
     sha := sha self;
     url := url self;
     path := path self;
     result := result self;
     exclude_result := exclude_result self;
     hash_list := v;
     processed_count := processed_count self;
     next_count := next_count self |}.
Definition set_processed_count (v : nat) (self : Engine) : Engine :=
  {| token := token self;
     rule_object := rule_object self;
     code := code self;
     full_name := full_name self;
     sha := sha self;
     url := url self;
     path := path self;
     result := result self;
     exclude_result := exclude_result self;
     hash_list := hash_list self;
     processed_count := v;
     next_count := next_count self |}.
Definition set_next_count (v : nat) (self : Engine) : Engine :=
  {| token := token self;
     rule_object := rule_object self;
     code := code self;
     full_name := full_name self;
     sha := sha self;
     url := url self;
     path := path self;
     result := result self;
     exclude_result := exclude_result self;
     hash_list := hash_list self;
     processed_count := processed_count self;
     next_count := v |}.

(** [per_page] and [default_pages] (lines 35 and 38). *)
Definition per_page : nat := 50.
Definition default_pages : nat := 4.

(** ** Keyword resolution ([Engine._keywords]) *)

Definition _keywords (rule : RuleObject) : list string :=
  let kw := keyword rule in
  if negb (Py.contains Py.DQUOTE kw) && Py.contains " " kw then
    Py.split " " kw
  else if Py.contains Py.DQUOTE kw then
    [Py.replace Py.DQUOTE EmptyString kw]
  else
    [kw].

(** ** Matching modes of [Engine.codes] *)

(** [codes[i]] for an index the caller has checked to be in range. *)
Definition line_at (codes : list string) (i : Z) : string :=
  nth (Z.to_nat i) codes EmptyString.

(** [s.strip() == ''] *)
Definition blank (s : string) : bool := String.eqb (Py.strip s) EmptyString.

(** *** only-match (lines 260-265) *)

Definition only_match (codes keywords : list string) : list string :=
  fold_left
    (fun match_codes code =>
       fold_left
         (fun match_codes kw =>
            if Py.contains kw code then match_codes ++ [code] else match_codes)
         keywords match_codes)
    codes [].

(** *** normal-match (lines 267-300)

    The accumulator holds [idxs], [match_codes] and the lines handed to
    [logger.debug], each with the index it prints. *)

Record Acc : Type := {
  idxs : list Z;
  match_codes : list string;
  debug : list (Z * string)
}.

Definition emit (record_idx : bool) (codes : list string) (i_idx : Z) (a : Acc)
  : Acc :=
  {| idxs := if record_idx then idxs a ++ [i_idx] else idxs a;
     match_codes := match_codes a ++ [line_at codes i_idx];
     debug := debug a ++ [(i_idx, line_at codes i_idx)] |}.

(** Body of [for i in range(-3, -0)] (lines 274-283). *)
Definition before_step (codes : list string) (idx : Z) (a : Acc) (i : Z) : Acc :=
  let i_idx := (idx + i)%Z in
  if Py.memZ i_idx (idxs a) then a
  else if (i_idx <? 0)%Z then a
  else if blank (line_at codes i_idx) then a
  else emit true codes i_idx a.

(** Body of [for i in range(1, 4)] (lines 290-299). *)
Definition after_step (codes : list string) (idx : Z) (a : Acc) (i : Z) : Acc :=
  let i_idx := (idx + i)%Z in
  if Py.memZ i_idx (idxs a) then a
  else if (i_idx >=? Z.of_nat (List.length codes))%Z then a
  else if blank (line_at codes i_idx) then a
  else emit true codes i_idx a.

(** What one trigger line does (lines 271-299): [idxs] starts empty. *)
Definition window (codes : list string) (idx : Z) (a : Acc) : Acc :=
  let a := {| idxs := []; match_codes := match_codes a; debug := debug a |} in
  let a := fold_left (before_step codes idx) [-3; -2; -1]%Z a in
  let a := if negb (Py.memZ idx (idxs a)) then emit false codes idx a else a in
  fold_left (after_step codes idx) [1; 2; 3]%Z a.

(** [for keyword in keywords: if keyword in code: ...] for the line [idx]. *)
Definition line_step (codes keywords : list string) (idx : Z) (code : string)
    (a : Acc) : Acc :=
  fold_left
    (fun a kw => if Py.contains kw code then window codes idx a else a)
    keywords a.

(** [for idx, code in enumerate(codes)], from position [idx] on. *)
Fixpoint enumerate_from (codes keywords : list string) (idx : Z)
    (rest : list string) (a : Acc) : Acc :=
  match rest with
  | [] => a
  | code :: rest' =>
      enumerate_from codes keywords (idx + 1)
        rest' (line_step codes keywords idx code a)
  end.

Definition normal_match_acc (codes keywords : list string) : Acc :=
  enumerate_from codes keywords 0 codes
    {| idxs := []; match_codes := []; debug := [] |}.

Definition normal_match (codes keywords : list string) : list string :=
  match_codes (normal_match_acc codes keywords).

(** ** Collaborators *)

(** [requests.get(domain, timeout=4).content], or the text of the
    exception it raised. *)
Inductive HttpResult : Type :=
| HttpError (description : string)
| HttpContent (content : string).

(** What [BeautifulSoup(response, "html5lib")] and the access to
    [soup.title.string] give: an exception anywhere in that block, a title
    without a [string] attribute, or the string. *)
Inductive SoupTitle : Type :=
| SoupRaises
| SoupNoString
| SoupString (s : string).

(** Exceptions of the GitHub client that [search] handles. *)
Inductive Exn : Type :=
| GithubException (status data : string)
| SocketTimeout.

(** The paginated search result: [totalCount] and [get_page]. *)
Record Resource : Type := {
  totalCount : Exn + nat;
  get_page : nat -> Exn + list ContentFile
}.

(** The client [self.g]. *)
Record Github : Type := {
  rate_limiting : Exn + (nat * nat);
  rate_limiting_resettime : Exn + nat;
  search_code : string -> Exn + Resource
}.

(** Third component of the tuple [search] returns. *)
Inductive Summary : Type :=
| SumMsg (msg : string)
| SumExn (e : Exn)
| SumCount (n : nat).

(** [search] returns a tuple or lets an exception through. *)
Inductive Outcome : Type :=
| Return (ok : bool) (rule : RuleObject) (summary : Summary)
| Raise (e : Exn).

Section Pipeline.

(** Lists of [gsil.config]; a regular expression of the two exclusion lists
    is given by its [re.search(rule, text) is not None]. *)
Variable public_mail_services : list string.
Variable exclude_repository_rules : list (string -> bool).
Variable exclude_codes_rules : list (string -> bool).

(** [tld.get_tld(host, fix_protocol=True)]; [None] when it raises. *)
Variable get_tld : string -> option string.

(** [IPy.IP(host).iptype()] *)
Variable iptype : string -> string.

(** The HTTP transport; the answer may depend on everything that happened
    before the request. *)
Variable requests_get : list Event -> string -> HttpResult.

(** The HTML parser. *)
Variable soup_title : string -> SoupTitle.

(** *** Mail mode ([Engine._mail], lines 320-381) *)

Record MailAcc : Type := {
  mails : list string;
  fragments : list string;
  trace : list Event
}.

(** Lines 346-360: the probe address and whether the host is an inner IP. *)
Definition mail_domain (host : string) : bool * string :=
  if negb (Re.match_ip host) then
    let top_domain :=
      match get_tld host with
      | Some d => d
      | None => host
      end in
    (false,
     if String.eqb top_domain host then "http://www." +:+ host
     else "http://" +:+ host)
  else
    (String.eqb (iptype host) "PRIVATE", "http://" +:+ host).

(** Lines 361-377: the title and the trace after the probe, if any. *)
Definition mail_title (is_inner_ip : bool) (domain : string) (tr : list Event)
  : string * list Event :=
  if negb is_inner_ip then
    (match requests_get tr domain with
     | HttpError e => "<" +:+ e +:+ ">"
     | HttpContent response =>
         match soup_title response with
         | SoupRaises => "Exception"
         | SoupNoString => "<Unknown>"
         | SoupString s => Py.take 150 (Py.strip s)
         end
     end,
     tr ++ [EvHttpGet domain])
  else ("<Inner IP>", tr).

(** Body of [for mm in mail_multi].  [host[0]] raises on an empty list;
    [findall_host_nonempty] below shows that the list is never empty for an
    address found by [regex_mail]. *)
Definition mail_step (a : MailAcc) (mm : string) : MailAcc :=
  let mail := Py.lower (Py.strip mm) in
  if Py.mem mail (mails a) then a
  else
    let host := Py.strip (hd EmptyString (Re.findall_host mail)) in
    if Py.mem host public_mail_services then a
    else
      let '(is_inner_ip, domain) := mail_domain host in
      let '(title, tr) := mail_title is_inner_ip domain (trace a) in
      {| mails := mails a ++ [mail];
         fragments := fragments a ++ [mail +:+ " " +:+ domain +:+ " " +:+ title];
         trace := tr |}.

Definition mail_loop (code : string) (tr : list Event) : MailAcc :=
  fold_left mail_step (Re.findall_mail code)
    {| mails := []; fragments := []; trace := tr |}.

Definition _mail (self : Engine) (tr : list Event) : list string * list Event :=
  let a := mail_loop (code self) tr in
  (fragments a, trace a).

(** *** [Engine.codes] (lines 244-303) *)

Definition codes (self : Engine) (tr : list Event)
  : list string * Engine * list Event :=
  let self := set_code (Py.replace "<img" EmptyString (code self)) self in
  let codes := Py.splitlines (code self) in
  let keywords := _keywords (rule_object self) in
  if String.eqb (mode (rule_object self)) "mail" then
    let '(m, tr) := _mail self tr in (m, self, tr)
  else if String.eqb (mode (rule_object self)) "only-match" then
    (only_match codes keywords, self, tr)
  else if String.eqb (mode (rule_object self)) "normal-match" then
    (normal_match codes keywords, self, tr)
  else
    (firstn 20 (Py.splitlines (code self)), self, tr).

(** *** Exclusion filters (lines 383-407) *)

Definition _exclude_repository (self : Engine) : bool :=
  let full_path := Py.lower (full_name self) +:+ "/" +:+ Py.lower (path self) in
  existsb (fun err => err full_path) exclude_repository_rules.

Definition _exclude_codes (codes : list string) : bool :=
  existsb (fun ecr => ecr (Py.join Py.LF codes)) exclude_codes_rules.

(** *** [Engine.process_pages] (lines 66-145) *)

(** Lines 85-143: the loop body behind the early-abort test. *)
Definition process_hit (page index : nat) (content : ContentFile)
    (self : Engine) (tr : list Event) : Engine * list Event :=
  let current_i := page * per_page + index in
  let self := set_url (html_url content) self in
  let self :=
    match content_sha content with
    | Some s => set_sha s self
    | None => set_url EmptyString (set_sha EmptyString self)
    end in
  if Py.mem (sha self) (hash_list self) then
    (set_processed_count (processed_count self + 1) self,
     tr ++ [EvLog (LogProcessedSkip current_i (processed_count self))])
  else
    let self := set_path (content_path content) self in
    let self := set_full_name (Py.strip (repo_full_name (repository content))) self in
    if _exclude_repository self then
      (self, tr ++ [EvLog (LogExcludedPath current_i)])
    else
      match decoded_content content with
      | None => (self, tr ++ [EvLog LogContentException])
      | Some text =>
          let self := set_code text self in
          let '(match_codes, self, tr) := codes self tr in
          if List.length match_codes =? 0 then
            (self, tr ++ [EvLog (LogNoMatch current_i)])
          else
            let r := {| res_url := url self;
                        res_match_codes := match_codes;
                        res_hash := sha self;
                        res_code := code self;
                        res_repository := full_name self;
                        res_path := path self |} in
            let '(self, tr) :=
              if _exclude_codes match_codes then
                (set_exclude_result (<[current_i := r]> (exclude_result self)) self,
                 tr ++ [EvLog (LogToReview current_i)])
              else
                (set_result (<[current_i := r]> (result self)) self, tr) in
            (set_next_count (next_count self + 1) self,
             tr ++ [EvClone (repo_html_url (repository content)) (sha self);
                    EvLog (LogComplete current_i)])
      end.

(** [for index, content in enumerate(pages_content)], from [index] on.
    The boolean is the value returned: [false] at the early abort of lines
    79-82, [true] when the page is exhausted. *)
Fixpoint process_pages_from (page index : nat) (pages_content : list ContentFile)
    (self : Engine) (tr : list Event) : bool * Engine * list Event :=
  match pages_content with
  | [] => (true, self, tr)
  | content :: rest =>
      let current_i := page * per_page + index in
      if (next_count self =? 0) && (3 <? processed_count self) then
        (false, self,
         tr ++ [EvLog (LogSkipRules current_i (processed_count self))])
      else
        let '(self, tr) := process_hit page index content self tr in
        process_pages_from page (S index) rest self tr
  end.

Definition process_pages (pages_content : list ContentFile) (page total : nat)
    (self : Engine) (tr : list Event) : bool * Engine * list Event :=
  process_pages_from page 0 pages_content self tr.

(** *** [Engine.search] (lines 158-242) *)

Definition exception_msg (self : Engine) (label status data : string) : string :=
  "GitHub [" +:+ label +:+ "] exception(code: " +:+ status +:+ " msg: " +:+ data
  +:+ " " +:+ token self.

(** Lines 240-242. *)
Definition finish (self : Engine) (tr : list Event)
  : Outcome * Engine * list Event :=
  (Return true (rule_object self) (SumCount (size (result self))),
   self, tr ++ [EvLog LogRuleDone]).

(** How one iteration of [for page in range(pages)] ends: with the next
    page ([continue] or the end of the body), with [break], or with the
    failure tuple of line 229. *)
Inductive PageCtl : Type :=
| Continue
| Break
| ReturnFalse (msg : string).

(** Body of the page loop (lines 218-236). *)
Definition page_iteration (resource : Resource) (total page : nat)
    (self : Engine) (tr : list Event) : PageCtl * Engine * list Event :=
  let self := set_result ∅ self in
  let self := set_exclude_result ∅ self in
  let tr := tr ++ [EvGetPage page] in
  match get_page resource page with
  | inl SocketTimeout => (Continue, self, tr ++ [EvLog LogPageTimeout])
  | inl (GithubException status data) =>
      (ReturnFalse (exception_msg self "get_page" status data), self, tr)
  | inr pages_content =>
      let tr := tr ++ [EvLog (LogPageData page (List.length pages_content))] in
      let '(ok, self, tr) := process_pages pages_content page total self tr in
      if negb ok then (Break, self, tr)
      else (Continue, self, tr ++ [EvProcess (result self) (rule_object self)])
  end.

(** [for page in range(pages)] (lines 217-242), over the pages left. *)
Fixpoint page_loop (resource : Resource) (total : nat) (pages : list nat)
    (self : Engine) (tr : list Event) : Outcome * Engine * list Event :=
  match pages with
  | [] => finish self tr
  | page :: rest =>
      match page_iteration resource total page self tr with
      | (Continue, self, tr) => page_loop resource total rest self tr
      | (Break, self, tr) => finish self tr
      | (ReturnFalse msg, self, tr) =>
          (Return false (rule_object self) (SumMsg msg), self, tr)
      end
  end.

(** Lines 177-181: the query string. *)
Definition search_keyword (rule : RuleObject) : string :=
  let ext_query :=
    match extension rule with
    | Some e =>
        fold_left
          (fun q ext => q +:+ "extension:" +:+ Py.lower (Py.strip ext) +:+ " ")
          (Py.split "," e) EmptyString
    | None => EmptyString
    end in
  keyword rule +:+ " " +:+ ext_query.

(** A [GithubException] of the first [try] block is turned into a failure
    tuple; a [socket.timeout] there is not caught. *)
Definition search_failed (self : Engine) (e : Exn) (tr : list Event)
  : Outcome * Engine * list Event :=
  match e with
  | GithubException status data =>
      (Return false (rule_object self)
         (SumMsg (exception_msg self "search_code" status data)), self, tr)
  | SocketTimeout => (Raise SocketTimeout, self, tr)
  end.

(** [config_hash_list] is what [Config().hash_list()] returns. *)
Definition search (g : Github) (config_hash_list : list string)
    (rule : RuleObject) (self : Engine) (tr : list Event)
  : Outcome * Engine * list Event :=
  let self := set_rule_object rule self in
  let self := set_processed_count 0 self in
  let self := set_next_count 0 self in
  match rate_limiting g with
  | inl e => search_failed self e tr
  | inr _ =>
  match rate_limiting_resettime g with
  | inl e => search_failed self e tr
  | inr _ =>
  match search_code g (search_keyword rule) with
  | inl e => search_failed self e tr
  | inr resource =>
      match totalCount resource with
      | inl SocketTimeout =>
          (Return false (rule_object self) (SumExn SocketTimeout), self, tr)
      | inl (GithubException status data) =>
          (Return false (rule_object self)
             (SumMsg (exception_msg self "search_code" status data)), self, tr)
      | inr total =>
          let self := set_hash_list config_hash_list self in
          let pages := if total <? per_page then 1 else default_pages in
          page_loop resource total (seq 0 pages) self tr
      end
  end end end.

End Pipeline.

(** [str(n)] for a natural number. *)
Definition decimal (n : nat) : string :=
  NilEmpty.string_of_uint (Nat.to_uint n).

(** *** [Engine.verify] (lines 147-156)

    [rate_limiting] is a pair of integers, which the f-string prints as a
    tuple; a [socket.timeout] is not caught. *)
Definition verify (g : Github) : Exn + bool * string :=
  match rate_limiting g with
  | inr (remaining, limit) =>
      inr (true, "TOKEN-PASSED: (" +:+ decimal remaining +:+ ", "
                 +:+ decimal limit +:+ ")")
  | inl (GithubException _ _) => inr (false, "TOKEN-FAILED: FAILED")
  | inl SocketTimeout => inl SocketTimeout
  end.

(** * Vocabulary of the statements *)

(** The keywords of the rule that occur in a line, in keyword order. *)
Definition matching_keywords (keywords : list string) (code : string)
  : list string :=
  filter (fun kw => Py.contains kw code = true) keywords.

(** only-match as the specification words it: the lines in their order,
    each once per keyword that occurs in it. *)
Definition only_match_spec (codes keywords : list string) : list string :=
  flat_map (fun code => map (fun _ => code) (matching_keywords keywords code))
    codes.

(** The accumulator before the first line. *)
Definition empty_acc : Acc := {| idxs := []; match_codes := []; debug := [] |}.

(** The lines one trigger line contributes, read off the three physical
    lines on each side: those in range and not blank, and the trigger line
    itself. *)
Definition window_indices (codes : list string) (idx : Z) : list Z :=
  filter (fun j => (0 <= j)%Z /\ blank (line_at codes j) = false)
    (map (Z.add idx) [-3; -2; -1]%Z)
  ++ [idx]
  ++ filter (fun j => (j < Z.of_nat (List.length codes))%Z
                      /\ blank (line_at codes j) = false)
       (map (Z.add idx) [1; 2; 3]%Z).

(** [before_step] and [after_step] with the test on [idxs] left out. *)
Definition before_step_unguarded (codes : list string) (idx : Z) (a : Acc)
    (i : Z) : Acc :=
  let i_idx := (idx + i)%Z in
  if (i_idx <? 0)%Z then a
  else if blank (line_at codes i_idx) then a
  else emit true codes i_idx a.

Definition after_step_unguarded (codes : list string) (idx : Z) (a : Acc)
    (i : Z) : Acc :=
  let i_idx := (idx + i)%Z in
  if (i_idx >=? Z.of_nat (List.length codes))%Z then a
  else if blank (line_at codes i_idx) then a
  else emit true codes i_idx a.

(** The same window with every test on [idxs] removed. *)
Definition window_unguarded (codes : list string) (idx : Z) (a : Acc) : Acc :=
  let a := {| idxs := []; match_codes := match_codes a; debug := debug a |} in
  let a := fold_left (before_step_unguarded codes idx) [-3; -2; -1]%Z a in
  let a := emit false codes idx a in
  fold_left (after_step_unguarded codes idx) [1; 2; 3]%Z a.

(** An accumulator after the lines [js] were emitted, [rec] of them being
    recorded in [idxs]. *)
Definition acc_extend (codes : list string) (a : Acc) (rec js : list Z) : Acc :=
  {| idxs := idxs a ++ rec;
     match_codes := match_codes a ++ map (line_at codes) js;
     debug := debug a ++ map (fun j => (j, line_at codes j)) js |}.

(** A debug line [(j, line)] lies within three physical lines of a line
    [t] that contains a keyword, is in range, carries line [j] of the text
    and, unless it is the trigger line itself, is not blank. *)
Definition near_trigger (codes keywords : list string) (entry : Z * string)
  : Prop :=
  let '(j, line) := entry in
  exists (t : Z) (code kw : string),
    (0 <= t)%Z
    /\ nth_error codes (Z.to_nat t) = Some code
    /\ In kw keywords /\ Py.contains kw code = true
    /\ (Z.abs (j - t) <= 3)%Z
    /\ (0 <= j < Z.of_nat (List.length codes))%Z
    /\ line = line_at codes j
    /\ (j <> t -> blank line = false).

(** Events made while one hit is evaluated (lines 85-143). *)
Definition inside_hit (e : Event) : bool :=
  match e with
  | EvHttpGet _ | EvClone _ _ => true
  | EvLog (LogProcessedSkip _ _) | EvLog (LogExcludedPath _)
  | EvLog LogContentException | EvLog (LogNoMatch _)
  | EvLog (LogToReview _) | EvLog (LogComplete _) => true
  | _ => false
  end.

(** Page fetches. *)
Definition is_get_page (e : Event) : bool :=
  match e with
  | EvGetPage _ => true
  | _ => false
  end.

(** Flushes to the reporting collaborator. *)
Definition is_process (e : Event) : bool :=
  match e with
  | EvProcess _ _ => true
  | _ => false
  end.

(** A hit that left no result behind. *)
Definition hit_skipped (self self' : Engine) : Prop :=
  next_count self' = next_count self
  /\ result self' = result self
  /\ exclude_result self' = exclude_result self
  /\ (processed_count self' = processed_count self
      \/ processed_count self' = S (processed_count self)).

(** A hit that was recorded under [i] in one of the two maps, with the
    [code] field that [codes] left in the engine. *)
Definition hit_recorded (i : nat) (content : ContentFile)
    (self self' : Engine) : Prop :=
  exists (text : string) (r : ScanResult),
    decoded_content content = Some text
    /\ ((result self' = <[i := r]> (result self)
         /\ exclude_result self' = exclude_result self)
        \/ (exclude_result self' = <[i := r]> (exclude_result self)
            /\ result self' = result self))
    /\ res_code r = Py.replace "<img" EmptyString text
    /\ res_match_codes r <> []
    /\ next_count self' = S (next_count self)
    /\ processed_count self' = processed_count self.

(** An entry [k, r] of a result map that stems from a hit of the page. *)
Definition from_hit (page index : nat) (contents : list ContentFile)
    (k : nat) (r : ScanResult) : Prop :=
  exists (i : nat) (c : ContentFile) (text : string),
    contents !! i = Some c
    /\ k = page * per_page + (index + i)
    /\ decoded_content c = Some text
    /\ res_code r = Py.replace "<img" EmptyString text.

(** The hit is skipped at line 96 with the hash list [hashes]. *)
Definition dedup_skip (hashes : list string) (c : ContentFile) : Prop :=
  exists s, content_sha c = Some s /\ Py.mem s hashes = true.

(** The entries of the confirmed map stem from hits of page [page]. *)
Definition entries_of_page (resource : Resource) (page : nat)
    (m : gmap nat ScanResult) : Prop :=
  forall k r, m !! k = Some r ->
    exists contents i c,
      get_page resource page = inr contents
      /\ contents !! i = Some c
      /\ k = page * per_page + i.

(** [page] is the last page fetched in the events [evs]. *)
Definition last_fetched (evs : list Event) (page : nat) : Prop :=
  exists before after,
    evs = before ++ EvGetPage page :: after
    /\ Forall (fun e => is_get_page e = false) after.

(** A test on characters that does not see the case of a letter. *)
Definition case_blind (f : ascii -> bool) : Prop :=
  forall c, f (Py.lower_char c) = f c.

(** The atoms of a pattern do not see the case of a letter. *)
Definition atom_blind (a : Re.atom) : Prop :=
  match a with
  | Re.Lit c => case_blind (Ascii.eqb c)
  | Re.Plus cls => case_blind cls
  end.

(** Every character of [s] passes the test. *)
Fixpoint every (cls : ascii -> bool) (s : string) : bool :=
  match s with
  | EmptyString => true
  | String c s' => cls c && every cls s'
  end.

(** The strings a pattern describes. *)
Inductive matches : list Re.atom -> string -> Prop :=
| matches_nil : matches [] EmptyString
| matches_lit c p s : matches p s -> matches (Re.Lit c :: p) (String c s)
| matches_plus cls p a s :
    a <> EmptyString -> every cls a = true -> matches p s ->
    matches (Re.Plus cls :: p) (a +:+ s).

(** The shape of an address: local part, [@], first label, dot, rest. *)
Definition mail_shape (m : string) : Prop :=
  exists a b c,
    m = a +:+ "@" +:+ b +:+ "." +:+ c
    /\ every Re.cls_local a = true
    /\ b <> EmptyString /\ every Re.cls_label b = true
    /\ c <> EmptyString /\ every Re.cls_tail c = true.

(** The host of a normalised address, as line 336-337 computes it. *)
Definition host_of (mail : string) : string :=
  Py.strip (hd EmptyString (Re.findall_host mail)).

(** The fragment of an address whose host is an inner IP. *)
Definition inner_fragment (mail : string) : string :=
  mail +:+ " " +:+ ("http://" +:+ host_of mail) +:+ " " +:+ "<Inner IP>".

(** No request of the events goes to a private IP literal. *)
Definition probes_no_private (iptype : string -> string) (evs : list Event)
  : Prop :=
  forall h, Re.match_ip h = true -> iptype h = "PRIVATE" ->
            ~ In (EvHttpGet ("http://" +:+ h)) evs.

(** Calls of [clone]. *)
Definition is_clone (e : Event) : bool :=
  match e with
  | EvClone _ _ => true
  | _ => false
  end.

(** HTTP requests. *)
Definition is_http (e : Event) : bool :=
  match e with
  | EvHttpGet _ => true
  | _ => false
  end.

(** The log line of a dedup-skip (line 97). *)
Definition is_skip_log (e : Event) : bool :=
  match e with
  | EvLog (LogProcessedSkip _ _) => true
  | _ => false
  end.

(** The log line of a hit that goes to the to-review map (line 135). *)
Definition is_review (e : Event) : bool :=
  match e with
  | EvLog (LogToReview _) => true
  | _ => false
  end.

(** [self.sha] and [self.url] after lines 85-93: the sha and the address of
    the hit, or two empty strings when reading the sha raised. *)
Definition hit_sha (c : ContentFile) : string :=
  match content_sha c with
  | Some s => s
  | None => EmptyString
  end.

Definition hit_url (c : ContentFile) : string :=
  match content_sha c with
  | Some _ => html_url c
  | None => EmptyString
  end.

(** The dictionary of lines 124-131 for the hit [c] with decoded text
    [text] and fragments [m]. *)
Definition scan_result (c : ContentFile) (text : string) (m : list string)
  : ScanResult :=
  {| res_url := hit_url c;
     res_match_codes := m;
     res_hash := hit_sha c;
     res_code := Py.replace "<img" EmptyString text;
     res_repository := Py.strip (repo_full_name (repository c));
     res_path := content_path c |}.

(** Where the entries of the maps come from: an entry that was not there
    before is the dictionary of lines 124-131 of a hit of the list, stored
    under the position of the hit; the hit was not in the hash list, and it
    is in the confirmed map exactly when no exclusion rule matched its
    fragments. *)
Definition recorded_from (exclude_codes_rules : list (string -> bool))
    (page index : nat) (contents : list ContentFile)
    (hashes : list string) (review : bool) (k : nat) (r : ScanResult) : Prop :=
  exists (i : nat) (c : ContentFile) (text : string) (m : list string),
    contents !! i = Some c
    /\ k = page * per_page + (index + i)
    /\ decoded_content c = Some text
    /\ m <> []
    /\ r = scan_result c text m
    /\ Py.mem (hit_sha c) hashes = false
    /\ _exclude_codes exclude_codes_rules m = review.

(** The log line of the early abort (line 80). *)
Definition is_abort (e : Event) : bool :=
  match e with
  | EvLog (LogSkipRules _ _) => true
  | _ => false
  end.

(** The fields of the engine that [search] does not set before it reads
    them: two engines that agree on them. *)
Definition same_inputs (a b : Engine) : Prop :=
  token a = token b
  /\ rule_object a = rule_object b
  /\ hash_list a = hash_list b
  /\ processed_count a = processed_count b
  /\ next_count a = next_count b
  /\ result a = result b
  /\ exclude_result a = exclude_result b.

(** The events of a rule whose pages all time out. *)
Definition timeouts (pages : list nat) : list Event :=
  flat_map (fun page => [EvGetPage page; EvLog LogPageTimeout]) pages.

(** The request that lines 346-364 make for the host [h] of an address:
    to the host itself when it is an IP literal that is not private or
    when [get_tld] gives a domain other than the host, to [www.] and the
    host when [get_tld] raises or gives the host back. *)
Definition probe_of (get_tld : string -> option string)
    (iptype : string -> string) (h : string) (e : Event) : Prop :=
  (Re.match_ip h = true /\ iptype h <> "PRIVATE"
   /\ e = EvHttpGet ("http://" +:+ h))
  \/ (Re.match_ip h = false
      /\ (get_tld h = None \/ get_tld h = Some h)
      /\ e = EvHttpGet ("http://www." +:+ h))
  \/ (Re.match_ip h = false
      /\ (exists d, get_tld h = Some d /\ d <> h)
      /\ e = EvHttpGet ("http://" +:+ h)).

(** The value of a string of decimal digits. *)
Definition digit_value (c : ascii) : nat := Py.ord c - 48.

Definition number (s : string) : nat :=
  fold_left (fun n c => 10 * n + digit_value c) (list_ascii_of_string s) 0.

(** The dotted decimal notation of four numbers. *)
Definition dotted (a b c d : nat) : string :=
  decimal a +:+ "." +:+ decimal b +:+ "." +:+ decimal c +:+ "." +:+ decimal d.

(** The digits. *)
Definition digits : list ascii :=
  ["0"; "1"; "2"; "3"; "4"; "5"; "6"; "7"; "8"; "9"]%char.

(** An octet accepted by [regex_ip] is the decimal notation of its value,
    which is at most 255. *)
Definition octet_is_decimal (s : string) : bool :=
  implb (Re.octet s) (String.eqb s (decimal (number s)) && (number s <=? 255)).

(** * Scenarios

    Concrete worlds and pages on which the engine is run below. *)

(** A world without network: [get_tld] raises, every address is public,
    every request fails and no page has a title. *)
Definition ex_get_tld (host : string) : option string := None.
Definition ex_iptype (host : string) : string :=
  if Py.startswith "10." host then "PRIVATE" else "PUBLIC".
Definition ex_requests_get (tr : list Event) (domain : string) : HttpResult :=
  HttpError "timed out".
Definition ex_soup_title (response : string) : SoupTitle := SoupNoString.
Definition ex_public_mail_services : list string := ["qq.com"; "gmail.com"].

Definition ex_rule : RuleObject :=
  {| keyword := "password"; extension := None; mode := "only-match" |}.

(** The engine as [__init__] leaves it; the maps that are still [None]
    there are empty here. *)
Definition ex_engine : Engine :=
  {| token := "token"; rule_object := ex_rule; code := EmptyString;
     full_name := EmptyString; sha := EmptyString; url := EmptyString;
     path := EmptyString; result := ∅; exclude_result := ∅;
     hash_list := []; processed_count := 0; next_count := 0 |}.

Definition ex_hit (sha text : string) : ContentFile :=
  {| html_url := "https://github.com/o/r/blob/" +:+ sha;
     content_sha := Some sha;
     content_path := "src/settings.py";
     repository := {| repo_full_name := "o/r";
                      repo_html_url := "https://github.com/o/r" |};
     decoded_content := Some text |}.

(** The shas already processed in earlier runs. *)
Definition ex_seen : list string := ["s1"; "s2"; "s3"; "s4"].

Definition ex_github (total : nat) (pages : nat -> Exn + list ContentFile)
  : Github :=
  {| rate_limiting := inr (5000, 5000);
     rate_limiting_resettime := inr 0;
     search_code := fun _ =>
       inr {| totalCount := inr total; get_page := pages |} |}.

Definition ex_search (g : Github) : Outcome * Engine * list Event :=
  search ex_public_mail_services [] [] ex_get_tld ex_iptype ex_requests_get
    ex_soup_title g ex_seen ex_rule ex_engine [].

(** Page 0: 46 new hits without the keyword, then four hits seen before.
    Page 1: one new hit with the keyword. *)
Definition ex_pages_late_dups (page : nat) : Exn + list ContentFile :=
  match page with
  | 0 => inr (repeat (ex_hit "n0" "nothing") 46
              ++ map (fun s => ex_hit s "password=0") ex_seen)
  | 1 => inr [ex_hit "n1" "password=1"]
  | _ => inr []
  end.

(** One page of five hits: four seen before, then a new one with the
    keyword. *)
Definition ex_pages_four_dups (page : nat) : Exn + list ContentFile :=
  match page with
  | 0 => inr (map (fun s => ex_hit s "password=0") ex_seen
              ++ [ex_hit "n1" "password=1"])
  | _ => inr []
  end.

(** The engine inside [search], before the first page: hash list read,
    counters at 0. *)
Definition ex_engine_seen : Engine := set_hash_list ex_seen ex_engine.

(** One page with a new hit that carries the keyword. *)
Definition ex_pages_one_hit (page : nat) : Exn + list ContentFile :=
  match page with
  | 0 => inr [ex_hit "n1" "password=1"]
  | _ => inr []
  end.

(** A page with a hit whose text contains [<img]. *)
Definition ex_pages_img (page : nat) : Exn + list ContentFile :=
  match page with
  | 0 => inr [ex_hit "n1" "<img src=x> password=1"]
  | _ => inr []
  end.

(** Page 0 holds a new hit with the keyword, page 1 none; the later pages
    time out. *)
Definition ex_pages_first_only (page : nat) : Exn + list ContentFile :=
  match page with
  | 0 => inr [ex_hit "n1" "password=1"]
  | 1 => inr [ex_hit "n2" "nothing"]
  | _ => inl SocketTimeout
  end.

(** A client whose pages all time out. *)
Definition ex_pages_timeout (page : nat) : Exn + list ContentFile :=
  inl SocketTimeout.

(** An engine as an earlier rule may have left it. *)
Definition ex_engine_used : Engine :=
  set_code "old text"
    (set_next_count 7
       (set_processed_count 9
          (set_hash_list ["zz"]
             (set_rule_object
                {| keyword := "old"; extension := None; mode := "mail" |}
                ex_engine)))).

(** Page 0 holds one new hit with the keyword, pages 1 and 2 are empty and
    page 3 holds two. *)
Definition ex_pages_last_two (page : nat) : Exn + list ContentFile :=
  match page with
  | 0 => inr [ex_hit "n1" "password=1"]
  | 3 => inr [ex_hit "n2" "password=2"; ex_hit "n3" "password=3"]
  | _ => inr []
  end.

(** * The embedding on concrete inputs *)

Example splitlines_example :
  Py.splitlines ("a" +:+ Py.LF +:+ Py.LF +:+ "b"
                 +:+ String (ascii_of_nat 13) Py.LF +:+ "c" +:+ Py.LF)
  = ["a"; EmptyString; "b"; "c"].
Proof. reflexivity. Qed.

Example replace_example :
  Py.replace "<img" EmptyString "x<img<<imgimg y<im" = "x<img y<im".
Proof. reflexivity. Qed.

Example split_example : Py.split " " "a  b " = ["a"; EmptyString; "b"; EmptyString].
Proof. reflexivity. Qed.

Example strip_example : Py.strip "  a b  " = "a b".
Proof. reflexivity. Qed.

Example keywords_example :
  _keywords {| keyword := "db password"; extension := None; mode := "mail" |}
  = ["db"; "password"]
  /\ _keywords {| keyword := Py.DQUOTE +:+ "db password" +:+ Py.DQUOTE;
                  extension := None; mode := "mail" |}
     = ["db password"].
Proof. split; reflexivity. Qed.

Example findall_mail_example :
  Re.findall_mail "to Admin@QQ.com, root@10.0.0.1; x@y a@b.c@d.e"
  = ["Admin@QQ.com"; "root@10.0.0.1"; "a@b.c"].
Proof. reflexivity. Qed.

Example findall_host_example : Re.findall_host "admin@qq.com" = ["qq.com"].
Proof. reflexivity. Qed.

Example match_ip_example :
  map Re.match_ip ["10.0.0.1"; "255.255.255.255"; "256.1.1.1"; "1.2.3";
                   "01.2.3.4"; "1.2.3.4."; "www.1.2.3.4"]
  = [true; true; false; false; false; false; false].
Proof. reflexivity. Qed.

(** The query string of section 8 of the specification. *)
Example search_keyword_example :
  search_keyword {| keyword := "secret"; extension := Some "yml, json";
                    mode := "normal-match" |}
  = "secret extension:yml extension:json ".
Proof. reflexivity. Qed.

Example normal_match_example :
  normal_match ["a"; "b"; "c"; "d"; "x password"; " "; "e"; "f"; "g"]
    ["password"]
  = ["b"; "c"; "d"; "x password"; "e"; "f"].
Proof. reflexivity. Qed.

(** * Properties of the classifier *)

(** ** only-match *)

Lemma only_match_keywords (code : string) (keywords acc : list string) :
  fold_left
    (fun match_codes kw =>
       if Py.contains kw code then match_codes ++ [code] else match_codes)
    keywords acc
  = acc ++ map (fun _ => code) (matching_keywords keywords code).
Proof.
  revert acc.
  induction keywords as [|kw kws IH]; intros acc; simpl.
  - now rewrite app_nil_r.
  - rewrite IH. unfold matching_keywords. rewrite filter_cons.
    destruct (Py.contains kw code) eqn:E.
    + rewrite decide_True by reflexivity. simpl. now rewrite <- app_assoc.
    + rewrite decide_False by discriminate. reflexivity.
Qed.

Lemma only_match_lines (codes keywords acc : list string) :
  fold_left
    (fun match_codes code =>
       fold_left
         (fun match_codes kw =>
            if Py.contains kw code then match_codes ++ [code] else match_codes)
         keywords match_codes)
    codes acc
  = acc ++ only_match_spec codes keywords.
Proof.
  revert acc.
  induction codes as [|code rest IH]; intros acc; simpl.
  - now rewrite app_nil_r.
  - rewrite IH, only_match_keywords. now rewrite <- app_assoc.
Qed.

Lemma only_match_refines (codes keywords : list string) :
  only_match codes keywords = only_match_spec codes keywords.
Proof. unfold only_match. now rewrite only_match_lines. Qed.

Section CodesModes.

Variable public_mail_services : list string.
Variable get_tld : string -> option string.
Variable iptype : string -> string.
Variable requests_get : list Event -> string -> HttpResult.
Variable soup_title : string -> SoupTitle.

Local Abbreviation run_codes :=
  (codes public_mail_services get_tld iptype requests_get soup_title).

(** In normal-match mode [codes] is [normal_match] on the lines of the
    text without [<img]. *)
Lemma codes_normal_match (self : Engine) (tr : list Event) (kw : string)
    (ext : option string) :
  let rule := {| keyword := kw; extension := ext; mode := "normal-match" |} in
  let text := Py.replace "<img" EmptyString (code self) in
  run_codes (set_rule_object rule self) tr
  = (normal_match (Py.splitlines text) (_keywords rule),
     set_code text (set_rule_object rule self), tr).
Proof. reflexivity. Qed.

(** In mail mode [codes] is the mail loop on the text without [<img]. *)
Lemma codes_mail (self : Engine) (tr : list Event) (kw : string)
    (ext : option string) :
  let rule := {| keyword := kw; extension := ext; mode := "mail" |} in
  let text := Py.replace "<img" EmptyString (code self) in
  let a := mail_loop public_mail_services get_tld iptype requests_get
             soup_title text tr in
  run_codes (set_rule_object rule self) tr
  = (fragments a, set_code text (set_rule_object rule self), trace a).
Proof. reflexivity. Qed.

(** C9.  In only-match mode [codes] returns the lines of the text (after
    the removal of [<img]) that contain a resolved keyword, in their order,
    one entry per keyword of the rule found in the line, and leaves the
    trace alone; a single line is repeated as many times as keywords occur
    in it; the keyword [password] on the one line [db_password=123] gives
    exactly that line. *)
Theorem only_match_fragments :
  (forall (self : Engine) (tr : list Event) (kw : string) (ext : option string),
      let rule := {| keyword := kw; extension := ext; mode := "only-match" |} in
      let text := Py.replace "<img" EmptyString (code self) in
      run_codes (set_rule_object rule self) tr
      = (only_match_spec (Py.splitlines text) (_keywords rule),
         set_code text (set_rule_object rule self), tr))
  /\ (forall (code : string) (keywords : list string),
         only_match [code] keywords
         = repeat code (List.length (matching_keywords keywords code)))
  /\ (forall (self : Engine) (tr : list Event) (ext : option string),
         let rule := {| keyword := "password"; extension := ext;
                        mode := "only-match" |} in
         fst (fst (run_codes
                     (set_code "db_password=123" (set_rule_object rule self)) tr))
         = ["db_password=123"]).
Proof.
  split; [|split].
  - intros self tr kw ext rule text. unfold codes. simpl.
    now rewrite only_match_refines.
  - intros code keywords. rewrite only_match_refines.
    unfold only_match_spec. simpl. rewrite app_nil_r.
    induction (matching_keywords keywords code) as [|k ks IH]; simpl;
      [reflexivity | now rewrite IH].
  - intros self tr ext rule. reflexivity.
Qed.

End CodesModes.

(** ** normal-match *)

Lemma memZ_false (x : Z) (xs : list Z) :
  Forall (fun y => y <> x) xs -> Py.memZ x xs = false.
Proof.
  induction 1 as [|y ys Hy _ IH]; simpl; [reflexivity|].
  rewrite IH, orb_false_r. apply Z.eqb_neq. congruence.
Qed.

Lemma before_step_bound codes idx a i b :
  Forall (fun y => (y < idx + b)%Z) (idxs a) -> (b <= i)%Z ->
  before_step codes idx a i = before_step_unguarded codes idx a i
  /\ Forall (fun y => (y < idx + (i + 1))%Z) (idxs (before_step codes idx a i)).
Proof.
  intros Hb Hi. unfold before_step, before_step_unguarded.
  assert (Hlt : Forall (fun y => (y < idx + (i + 1))%Z) (idxs a)).
  { eapply Forall_impl; [exact Hb|]. simpl. intros; lia. }
  rewrite memZ_false.
  2:{ eapply Forall_impl; [exact Hb|]. simpl. intros; lia. }
  split; [reflexivity|].
  destruct (idx + i <? 0)%Z; [exact Hlt|].
  destruct (blank _); [exact Hlt|].
  simpl. apply Forall_app. split; [exact Hlt|].
  constructor; [lia|constructor].
Qed.

Lemma after_step_bound codes idx a i b :
  Forall (fun y => (y < idx + b)%Z) (idxs a) -> (b <= i)%Z ->
  after_step codes idx a i = after_step_unguarded codes idx a i
  /\ Forall (fun y => (y < idx + (i + 1))%Z) (idxs (after_step codes idx a i)).
Proof.
  intros Hb Hi. unfold after_step, after_step_unguarded.
  assert (Hlt : Forall (fun y => (y < idx + (i + 1))%Z) (idxs a)).
  { eapply Forall_impl; [exact Hb|]. simpl. intros; lia. }
  rewrite memZ_false.
  2:{ eapply Forall_impl; [exact Hb|]. simpl. intros; lia. }
  split; [reflexivity|].
  destruct (_ >=? _)%Z; [exact Hlt|].
  destruct (blank _); [exact Hlt|].
  simpl. apply Forall_app. split; [exact Hlt|].
  constructor; [lia|constructor].
Qed.

(** Inside one window no test on [idxs] ever succeeds: [idxs] is emptied
    for every trigger line and the offsets of one window are distinct. *)
Lemma window_guards_dead (codes : list string) (idx : Z) (a : Acc) :
  window codes idx a = window_unguarded codes idx a.
Proof.
  unfold window, window_unguarded. cbn [fold_left].
  set (a0 := {| idxs := []; match_codes := match_codes a; debug := debug a |}).
  assert (H0 : Forall (fun y => (y < idx + -3)%Z) (idxs a0)) by constructor.
  destruct (before_step_bound codes idx a0 (-3) (-3) H0 ltac:(lia)) as [E1 H1].
  rewrite E1 in *. set (a1 := before_step_unguarded codes idx a0 (-3)) in *.
  destruct (before_step_bound codes idx a1 (-2) (-2) H1 ltac:(lia)) as [E2 H2].
  rewrite E2 in *. set (a2 := before_step_unguarded codes idx a1 (-2)) in *.
  destruct (before_step_bound codes idx a2 (-1) (-1) H2 ltac:(lia)) as [E3 H3].
  rewrite E3 in *. set (a3 := before_step_unguarded codes idx a2 (-1)) in *.
  rewrite memZ_false.
  2:{ eapply Forall_impl; [exact H3|]. simpl. intros; lia. }
  cbn [negb].
  set (a4 := emit false codes idx a3).
  assert (H4 : Forall (fun y => (y < idx + 1)%Z) (idxs a4)).
  { eapply Forall_impl; [exact H3|]. simpl. intros; lia. }
  destruct (after_step_bound codes idx a4 1 1 H4 ltac:(lia)) as [E5 H5].
  rewrite E5 in *. set (a5 := after_step_unguarded codes idx a4 1) in *.
  destruct (after_step_bound codes idx a5 2 2 H5 ltac:(lia)) as [E6 H6].
  rewrite E6 in *. set (a6 := after_step_unguarded codes idx a5 2) in *.
  destruct (after_step_bound codes idx a6 3 3 H6 ltac:(lia)) as [E7 _].
  rewrite E7. reflexivity.
Qed.

Lemma acc_extend_nil codes a : acc_extend codes a [] [] = a.
Proof. destruct a. unfold acc_extend. simpl. now rewrite !app_nil_r. Qed.

Lemma acc_extend_emit codes a b j rec js :
  acc_extend codes (emit b codes j a) rec js
  = acc_extend codes a ((if b then [j] else []) ++ rec) (j :: js).
Proof.
  unfold acc_extend, emit. simpl.
  destruct b; simpl; rewrite <- ?app_assoc; simpl; try reflexivity.
Qed.

Lemma acc_extend_extend codes a r1 j1 r2 j2 :
  acc_extend codes (acc_extend codes a r1 j1) r2 j2
  = acc_extend codes a (r1 ++ r2) (j1 ++ j2).
Proof.
  unfold acc_extend. simpl. now rewrite !map_app, !app_assoc.
Qed.

Lemma before_fold codes idx (offsets : list Z) (a : Acc) :
  let js := filter (fun j => (0 <= j)%Z /\ blank (line_at codes j) = false)
              (map (Z.add idx) offsets) in
  fold_left (before_step_unguarded codes idx) offsets a
  = acc_extend codes a js js.
Proof.
  revert a. induction offsets as [|i rest IH]; intros a; simpl.
  - now rewrite acc_extend_nil.
  - rewrite IH. unfold before_step_unguarded. rewrite filter_cons.
    destruct (idx + i <? 0)%Z eqn:E1.
    { apply Z.ltb_lt in E1. rewrite decide_False by lia. reflexivity. }
    apply Z.ltb_ge in E1.
    destruct (blank (line_at codes (idx + i))) eqn:E2.
    { rewrite decide_False by (intros [_ H]; discriminate). reflexivity. }
    rewrite decide_True by (split; [lia|reflexivity]).
    now rewrite acc_extend_emit.
Qed.

Lemma after_fold codes idx (offsets : list Z) (a : Acc) :
  let js := filter (fun j => (j < Z.of_nat (List.length codes))%Z
                             /\ blank (line_at codes j) = false)
              (map (Z.add idx) offsets) in
  fold_left (after_step_unguarded codes idx) offsets a
  = acc_extend codes a js js.
Proof.
  revert a. induction offsets as [|i rest IH]; intros a; simpl.
  - now rewrite acc_extend_nil.
  - rewrite IH. unfold after_step_unguarded. rewrite filter_cons.
    destruct (idx + i >=? Z.of_nat (List.length codes))%Z eqn:E1.
    { apply Z.geb_le in E1. rewrite decide_False by lia. reflexivity. }
    rewrite Z.geb_leb in E1. apply Z.leb_gt in E1.
    destruct (blank (line_at codes (idx + i))) eqn:E2.
    { rewrite decide_False by (intros [_ H]; discriminate). reflexivity. }
    rewrite decide_True by (split; [lia|reflexivity]).
    now rewrite acc_extend_emit.
Qed.

(** What a window adds to [match_codes] and to the debug lines. *)
Lemma window_spec (codes : list string) (idx : Z) (a : Acc) :
  match_codes (window codes idx a)
  = match_codes a ++ map (line_at codes) (window_indices codes idx)
  /\ debug (window codes idx a)
     = debug a ++ map (fun j => (j, line_at codes j)) (window_indices codes idx).
Proof.
  rewrite window_guards_dead. unfold window_unguarded.
  rewrite before_fold, after_fold, acc_extend_emit, acc_extend_extend.
  unfold acc_extend, window_indices. simpl idxs. simpl match_codes.
  simpl debug. split; reflexivity.
Qed.

Lemma window_indices_near (codes : list string) (idx j : Z) :
  In j (window_indices codes idx) ->
  (Z.abs (j - idx) <= 3)%Z
  /\ ((0 <= idx < Z.of_nat (List.length codes))%Z ->
      (0 <= j < Z.of_nat (List.length codes))%Z)
  /\ (j <> idx -> blank (line_at codes j) = false).
Proof.
  unfold window_indices. intros H.
  apply list_elem_of_In in H.
  rewrite !elem_of_app, !list_elem_of_filter in H. simpl in H.
  rewrite !elem_of_cons, !elem_of_nil in H.
  destruct H as [[[H0 Hb] H]|[[H|[]]|[[H0 Hb] H]]].
  - repeat split; try lia; auto.
  - subst j. repeat split; try lia; congruence.
  - repeat split; try lia; auto.
Qed.

Lemma window_near codes keywords idx code kw a :
  (0 <= idx)%Z -> nth_error codes (Z.to_nat idx) = Some code ->
  In kw keywords -> Py.contains kw code = true ->
  Forall (near_trigger codes keywords) (debug a) ->
  Forall (near_trigger codes keywords) (debug (window codes idx a)).
Proof.
  intros Hidx Hnth Hkw Hc Ha.
  destruct (window_spec codes idx a) as [_ ->].
  apply Forall_app. split; [exact Ha|].
  apply List.Forall_forall. intros [j line] Hin.
  apply in_map_iff in Hin. destruct Hin as [j' [Heq Hin]].
  inversion Heq; subst j' line; clear Heq.
  assert (Hlen : (0 <= idx < Z.of_nat (List.length codes))%Z).
  { split; [lia|].
    assert (Z.to_nat idx < List.length codes)
      by (apply nth_error_Some; congruence).
    lia. }
  destruct (window_indices_near codes idx j Hin) as (Habs & Hrange & Hblank).
  exists idx, code, kw. repeat split; auto; lia.
Qed.

Lemma line_step_near codes keywords ks idx code a :
  (0 <= idx)%Z -> nth_error codes (Z.to_nat idx) = Some code ->
  (forall kw, In kw ks -> In kw keywords) ->
  Forall (near_trigger codes keywords) (debug a) ->
  Forall (near_trigger codes keywords) (debug (line_step codes ks idx code a)).
Proof.
  intros Hidx Hnth. unfold line_step. revert a.
  induction ks as [|kw rest IH]; intros a Hsub Ha; simpl; [exact Ha|].
  apply IH; [intros; apply Hsub; now right|].
  destruct (Py.contains kw code) eqn:E; [|exact Ha].
  eapply window_near; eauto. apply Hsub. now left.
Qed.

Lemma enumerate_from_near codes keywords (pre rest : list string) a :
  codes = pre ++ rest ->
  Forall (near_trigger codes keywords) (debug a) ->
  Forall (near_trigger codes keywords)
    (debug (enumerate_from codes keywords (Z.of_nat (List.length pre)) rest a)).
Proof.
  revert pre a. induction rest as [|code rest IH]; intros pre a Hc Ha; simpl.
  - exact Ha.
  - replace (Z.of_nat (List.length pre) + 1)%Z
      with (Z.of_nat (List.length (pre ++ [code])))
      by (rewrite length_app; simpl; lia).
    apply IH; [now rewrite <- app_assoc|].
    apply line_step_near; [lia | | auto | exact Ha].
    rewrite Nat2Z.id, Hc, nth_error_app2 by lia.
    now rewrite Nat.sub_diag.
Qed.

Lemma normal_match_near (codes keywords : list string) :
  Forall (near_trigger codes keywords) (debug (normal_match_acc codes keywords)).
Proof.
  unfold normal_match_acc.
  apply (enumerate_from_near codes keywords [] codes); [reflexivity|constructor].
Qed.

(** The fragments of normal-match are the lines of the debug output. *)
Lemma enumerate_from_lines codes keywords idx rest a :
  match_codes a = map snd (debug a) ->
  match_codes (enumerate_from codes keywords idx rest a)
  = map snd (debug (enumerate_from codes keywords idx rest a)).
Proof.
  revert idx a. induction rest as [|code rest IH]; intros idx a Ha; simpl;
    [exact Ha|].
  apply IH. unfold line_step. clear IH. revert a Ha.
  induction keywords as [|kw kws IHk]; intros a Ha; simpl; [exact Ha|].
  apply IHk. destruct (Py.contains kw code); [|exact Ha].
  destruct (window_spec codes idx a) as [-> ->].
  rewrite map_app, Ha, map_map. simpl. reflexivity.
Qed.

Lemma normal_match_lines (codes keywords : list string) :
  normal_match codes keywords
  = map snd (debug (normal_match_acc codes keywords)).
Proof.
  unfold normal_match, normal_match_acc.
  now apply enumerate_from_lines.
Qed.

(** C1.  Two adjacent lines that both contain the keyword: in normal-match
    mode the second trigger line emits line 0 and line 1 again, because
    [idxs] is emptied for every trigger line and never receives the trigger
    line itself.  The indices printed for the one hit are 0, 1, 0, 1, so an
    index is emitted more than once. *)
Theorem normal_match_reemits_index :
  let rule := {| keyword := "password"; extension := None;
                 mode := "normal-match" |} in
  let text := "password=1" +:+ Py.LF +:+ "password=2" in
  (forall pms get_tld iptype requests_get soup_title self tr,
      fst (fst (codes pms get_tld iptype requests_get soup_title
                  (set_code text (set_rule_object rule self)) tr))
      = ["password=1"; "password=2"; "password=1"; "password=2"])
  /\ map fst (debug (normal_match_acc (Py.splitlines text) (_keywords rule)))
     = [0; 1; 0; 1]%Z
  /\ ~ NoDup (map fst (debug (normal_match_acc (Py.splitlines text)
                                (_keywords rule)))).
Proof.
  intros rule text. split; [|split].
  - intros. reflexivity.
  - reflexivity.
  - change (~ NoDup [0; 1; 0; 1]%Z). intros H.
    apply NoDup_cons_1_1 in H. apply H. set_solver.
Qed.

(** C2 as stated fails: no window, whether or not its trigger line has
    blank neighbours, contains a line more than three physical lines away
    from the trigger. *)
Lemma window_never_beyond_three_lines :
  ~ (exists (codes : list string) (idx j : Z) (line : string),
        blank (line_at codes (idx - 1)) = true
        /\ blank (line_at codes (idx + 1)) = true
        /\ In (j, line) (debug (window codes idx empty_acc))
        /\ blank line = false
        /\ (3 < Z.abs (j - idx))%Z).
Proof.
  intros (codes & idx & j & line & _ & _ & Hin & _ & Hfar).
  destruct (window_spec codes idx empty_acc) as [_ Hd].
  rewrite Hd in Hin. simpl in Hin.
  apply in_map_iff in Hin. destruct Hin as [j' [Heq Hin]].
  inversion Heq; subst j'.
  destruct (window_indices_near codes idx j Hin) as [Hnear _]. lia.
Qed.

(** C2, amended.  Every line printed for a hit in normal-match mode lies
    within three physical lines of a line that contains a keyword, is a
    line of the text, and is not blank unless it is the trigger line; it is
    one of the fragments.  A window is exactly the non-blank lines among the
    three physical lines before the trigger, the trigger, and the non-blank
    lines among the three physical lines after it: a blank line is left out
    and nothing further away takes its place. *)
Theorem normal_match_window_is_physical
    (codes keywords : list string) (entry : Z * string) :
  In entry (debug (normal_match_acc codes keywords)) ->
  near_trigger codes keywords entry
  /\ In (snd entry) (normal_match codes keywords)
  /\ (forall (idx : Z) (a : Acc),
         match_codes (window codes idx a)
         = match_codes a ++ map (line_at codes) (window_indices codes idx)
         /\ debug (window codes idx a)
            = debug a
              ++ map (fun j => (j, line_at codes j)) (window_indices codes idx)).
Proof.
  intros Hin. split; [|split].
  - pose proof (normal_match_near codes keywords) as H.
    rewrite List.Forall_forall in H. now apply H.
  - rewrite normal_match_lines. now apply in_map.
  - intros idx a. apply window_spec.
Qed.

Lemma normal_match_window_is_physical_witness :
  let codes := ["a"; " "; " "; " "; "password"; " "; " "; " "; "b"] in
  normal_match codes ["password"] = ["password"]
  /\ near_trigger codes ["password"] (4%Z, "password").
Proof.
  intros codes. split; [reflexivity|].
  destruct (normal_match_window_is_physical codes ["password"]
              (4%Z, "password")) as [H _]; [|exact H].
  vm_compute. left. reflexivity.
Defined.

(** * Properties of the per-hit loop and of the page loop *)

(** Reduction of field reads on field assignments, and nothing else. *)
Ltac fields :=
  cbn [token rule_object code full_name sha url path result exclude_result
       hash_list processed_count next_count
       set_rule_object set_code set_full_name set_sha set_url set_path
       set_result set_exclude_result set_hash_list set_processed_count
       set_next_count res_url res_match_codes res_hash res_code
       res_repository res_path fst snd] in *.

Section PipelineProperties.

Variable public_mail_services : list string.
Variable exclude_repository_rules : list (string -> bool).
Variable exclude_codes_rules : list (string -> bool).
Variable get_tld : string -> option string.
Variable iptype : string -> string.
Variable requests_get : list Event -> string -> HttpResult.
Variable soup_title : string -> SoupTitle.

Local Abbreviation run_mail_step :=
  (mail_step public_mail_services get_tld iptype requests_get soup_title).
Local Abbreviation run_mail_loop :=
  (mail_loop public_mail_services get_tld iptype requests_get soup_title).
Local Abbreviation run_codes :=
  (codes public_mail_services get_tld iptype requests_get soup_title).
Local Abbreviation run_hit :=
  (process_hit public_mail_services exclude_repository_rules
     exclude_codes_rules get_tld iptype requests_get soup_title).
Local Abbreviation run_pages_from :=
  (process_pages_from public_mail_services exclude_repository_rules
     exclude_codes_rules get_tld iptype requests_get soup_title).
Local Abbreviation run_pages :=
  (process_pages public_mail_services exclude_repository_rules
     exclude_codes_rules get_tld iptype requests_get soup_title).
Local Abbreviation run_page_iteration :=
  (page_iteration public_mail_services exclude_repository_rules
     exclude_codes_rules get_tld iptype requests_get soup_title).
Local Abbreviation run_page_loop :=
  (page_loop public_mail_services exclude_repository_rules
     exclude_codes_rules get_tld iptype requests_get soup_title).

(** The mail resolver only adds HTTP probes to the trace. *)
Lemma mail_step_trace (a : MailAcc) (mm : string) :
  exists evs, trace (run_mail_step a mm) = trace a ++ evs
              /\ Forall (fun e => inside_hit e = true) evs.
Proof.
  unfold mail_step.
  destruct (Py.mem _ (mails a)); [exists []; now rewrite app_nil_r|].
  destruct (Py.mem _ public_mail_services); [exists []; now rewrite app_nil_r|].
  destruct (mail_domain _ _ _) as [inner domain].
  unfold mail_title. destruct inner; simpl.
  - exists []. now rewrite app_nil_r.
  - eexists. split; [reflexivity|]. repeat constructor.
Qed.

Lemma mail_fold_trace (l : list string) (a : MailAcc) :
  exists evs, trace (fold_left run_mail_step l a) = trace a ++ evs
              /\ Forall (fun e => inside_hit e = true) evs.
Proof.
  revert a. induction l as [|mm l IH]; intros a; simpl.
  - exists []. now rewrite app_nil_r.
  - destruct (IH (run_mail_step a mm)) as (e2 & -> & H2).
    destruct (mail_step_trace a mm) as (e1 & -> & H1).
    exists (e1 ++ e2). rewrite app_assoc. split; [reflexivity|].
    apply Forall_app. now split.
Qed.

(** [codes] changes no field but [code] and only adds to the trace. *)
Lemma codes_frame (self : Engine) (tr : list Event) :
  exists (m : list string) (evs : list Event),
    run_codes self tr
    = (m, set_code (Py.replace "<img" EmptyString (code self)) self, tr ++ evs)
    /\ Forall (fun e => inside_hit e = true) evs.
Proof.
  unfold codes.
  destruct (String.eqb _ "mail").
  - unfold _mail, mail_loop. cbv zeta.
    match goal with |- context [fold_left ?f ?l ?a] =>
      destruct (mail_fold_trace l a) as (evs & Hevs & Hall) end.
    cbn [trace] in Hevs. rewrite Hevs. eauto.
  - destruct (String.eqb _ "only-match");
      [|destruct (String.eqb _ "normal-match")];
      eexists; exists []; rewrite app_nil_r; split; (reflexivity || constructor).
Qed.

Lemma process_hit_cases (page index : nat) (content : ContentFile)
    (self self' : Engine) (tr tr' : list Event) :
  run_hit page index content self tr = (self', tr') ->
  hash_list self' = hash_list self
  /\ rule_object self' = rule_object self
  /\ (exists evs, tr' = tr ++ evs /\ Forall (fun e => inside_hit e = true) evs)
  /\ (hit_skipped self self'
      \/ hit_recorded (page * per_page + index) content self self').
Proof.
  unfold process_hit.
  set (s1 := match content_sha content with
             | Some s => _ | None => _ end).
  assert (Hs1 : hash_list s1 = hash_list self /\ rule_object s1 = rule_object self
                /\ next_count s1 = next_count self
                /\ processed_count s1 = processed_count self
                /\ result s1 = result self
                /\ exclude_result s1 = exclude_result self).
  { subst s1. destruct (content_sha content); fields; auto 10. }
  destruct Hs1 as (H1 & H2 & H3 & H4 & H5 & H6).
  clearbody s1.
  destruct (Py.mem (sha s1) (hash_list s1)).
  { intros [= <- <-]. fields. split; [auto|split; [auto|split]].
    - eexists. split; [reflexivity|]. repeat constructor.
    - left. repeat split; auto. fields. right. lia. }
  destruct (_exclude_repository _ _).
  { intros [= <- <-]. fields. split; [auto|split; [auto|split]].
    - eexists. split; [reflexivity|]. repeat constructor.
    - left. repeat split; auto. }
  destruct (decoded_content content) as [text|] eqn:Htext.
  2:{ intros [= <- <-]. split; [auto|split; [auto|split]].
      - eexists. split; [reflexivity|]. repeat constructor.
      - left. repeat split; auto. }
  match goal with |- context [run_codes ?s ?t] =>
    destruct (codes_frame s t) as (m & evs & -> & Hevs) end.
  destruct m as [|m0 ms]; cbn [List.length Nat.eqb].
  { intros [= <- <-]. fields. split; [auto|split; [auto|split]].
    - eexists. rewrite <- app_assoc. split; [reflexivity|].
      apply Forall_app. split; [exact Hevs|repeat constructor].
    - left. repeat split; auto. }
  destruct (_exclude_codes _ _); intros [= <- <-]; fields;
    (split; [auto|split; [auto|split]]);
    try (eexists; rewrite <- ?app_assoc; split; [reflexivity|];
         apply Forall_app; split; [exact Hevs|repeat constructor]);
    right; exists text; eexists; (split; [exact Htext|]); fields;
    rewrite <- ?H5, <- ?H6.
  - split; [right; split; reflexivity|].
    fields. repeat split; try lia; discriminate.
  - split; [left; split; reflexivity|].
    fields. repeat split; try lia; discriminate.
Qed.

(** A hit whose sha is in the hash list is skipped at line 96. *)
Lemma process_hit_dedup (page index : nat) (content : ContentFile)
    (self : Engine) (tr : list Event) (s : string) :
  content_sha content = Some s ->
  Py.mem s (hash_list self) = true ->
  run_hit page index content self tr
  = (set_processed_count (processed_count self + 1)
       (set_sha s (set_url (html_url content) self)),
     tr ++ [EvLog (LogProcessedSkip (page * per_page + index)
                     (processed_count self))]).
Proof.
  intros Hsha Hmem. unfold process_hit. rewrite Hsha. fields.
  rewrite Hmem. reflexivity.
Qed.

Lemma from_hit_cons page index c contents k r :
  from_hit page (S index) contents k r -> from_hit page index (c :: contents) k r.
Proof.
  intros (i & c' & text & H1 & H2 & H3 & H4).
  exists (S i), c', text. repeat split; auto. lia.
Qed.

Lemma process_pages_from_frame (page : nat) (contents : list ContentFile) :
  forall (index : nat) (self : Engine) (tr : list Event)
         (ok : bool) (self' : Engine) (tr' : list Event),
    run_pages_from page index contents self tr = (ok, self', tr') ->
    hash_list self' = hash_list self
    /\ rule_object self' = rule_object self
    /\ next_count self <= next_count self'
    /\ (ok = false -> next_count self' = 0)
    /\ (next_count self' = 0 ->
        result self' = result self /\ exclude_result self' = exclude_result self)
    /\ (exists evs, tr' = tr ++ evs
                    /\ Forall (fun e => is_get_page e = false
                                        /\ is_process e = false) evs)
    /\ (forall k r, result self' !! k = Some r ->
                    result self !! k = Some r \/ from_hit page index contents k r)
    /\ (forall k r, exclude_result self' !! k = Some r ->
                    exclude_result self !! k = Some r
                    \/ from_hit page index contents k r)
    /\ (forall k, k < page * per_page + index
                  \/ page * per_page + index + List.length contents <= k ->
                  result self' !! k = result self !! k
                  /\ exclude_result self' !! k = exclude_result self !! k).
Proof.
  induction contents as [|c rest IH]; intros index self tr ok self' tr' Hrun.
  - simpl in Hrun. injection Hrun as <- <- <-.
    repeat split; auto; try discriminate.
    exists []. rewrite app_nil_r. split; [reflexivity|constructor].
  - simpl in Hrun.
    destruct ((next_count self =? 0) && (3 <? processed_count self)) eqn:Hc.
    { injection Hrun as <- <- <-.
      apply andb_true_iff in Hc. destruct Hc as [Hn _].
      apply Nat.eqb_eq in Hn.
      repeat split; auto.
      eexists. split; [reflexivity|]. repeat constructor. }
    destruct (run_hit page index c self tr) as [self1 tr1] eqn:Hhit.
    apply process_hit_cases in Hhit.
    destruct Hhit as (Hh & Hr & (evs1 & -> & Hevs1) & Hcase).
    apply IH in Hrun.
    destruct Hrun as (Hh' & Hr' & Hn' & Hok & Hzero & (evs2 & -> & Hevs2)
                      & Hres & Hexc & Hout).
    assert (Hmono : next_count self <= next_count self1).
    { destruct Hcase as [(H & _)|(t & r & _ & _ & _ & _ & H & _)]; lia. }
    split; [congruence|]. split; [congruence|]. split; [lia|].
    split; [exact Hok|]. split.
    { intros Hz. destruct (Hzero Hz) as [E1 E2].
      destruct Hcase as [(_ & H1 & H2 & _)|(t & r & _ & _ & _ & _ & H & _)];
        [split; congruence|lia]. }
    split.
    { exists (evs1 ++ evs2). rewrite app_assoc. split; [reflexivity|].
      apply Forall_app. split; [|exact Hevs2].
      eapply Forall_impl; [exact Hevs1|]. intros e He.
      destruct e as [| | | |[]]; simpl in *; auto; discriminate. }
    assert (Hkey : forall k, k <> page * per_page + index ->
                     result self1 !! k = result self !! k
                     /\ exclude_result self1 !! k = exclude_result self !! k).
    { intros k Hk.
      destruct Hcase as [(_ & H1 & H2 & _)|(t & r & _ & H & _)].
      - rewrite H1, H2. auto.
      - destruct H as [[-> ->]|[-> ->]];
          rewrite lookup_insert_ne by congruence; auto. }
    assert (Hhere : forall r,
               (result self1 !! (page * per_page + index) = Some r ->
                result self !! (page * per_page + index) = Some r
                \/ from_hit page index (c :: rest) (page * per_page + index) r)
               /\ (exclude_result self1 !! (page * per_page + index) = Some r ->
                   exclude_result self !! (page * per_page + index) = Some r
                   \/ from_hit page index (c :: rest)
                        (page * per_page + index) r)).
    { intros r0.
      destruct Hcase as [(_ & H1 & H2 & _)|(t & r & Ht & H & Hcode & _)].
      - rewrite H1, H2. auto.
      - assert (Hfrom : from_hit page index (c :: rest)
                          (page * per_page + index) r).
        { exists 0, c, t. repeat split; auto. }
        destruct H as [[-> ->]|[-> ->]]; rewrite lookup_insert_eq; split;
          auto; intros [= <-]; auto. }
    split; [|split].
    + intros k r Hk. destruct (Hres k r Hk) as [H|H].
      * destruct (decide (k = page * per_page + index)) as [->|Hne].
        -- now apply Hhere.
        -- left. now rewrite <- (proj1 (Hkey k Hne)).
      * right. now apply from_hit_cons.
    + intros k r Hk. destruct (Hexc k r Hk) as [H|H].
      * destruct (decide (k = page * per_page + index)) as [->|Hne].
        -- now apply Hhere.
        -- left. now rewrite <- (proj2 (Hkey k Hne)).
      * right. now apply from_hit_cons.
    + intros k Hk. simpl in Hk.
      destruct (Hout k ltac:(lia)) as [E1 E2].
      destruct (Hkey k ltac:(lia)) as [E3 E4].
      split; congruence.
Qed.

Lemma process_hit_other_keys (page index : nat) (content : ContentFile)
    (self self' : Engine) (tr tr' : list Event) (k : nat) :
  run_hit page index content self tr = (self', tr') ->
  k <> page * per_page + index ->
  result self' !! k = result self !! k
  /\ exclude_result self' !! k = exclude_result self !! k.
Proof.
  intros Hhit Hk. apply process_hit_cases in Hhit.
  destruct Hhit as (_ & _ & _ & [(_ & H1 & H2 & _)|(t & r & _ & H & _)]).
  - rewrite H1, H2. auto.
  - destruct H as [[-> ->]|[-> ->]];
      rewrite lookup_insert_ne by congruence; auto.
Qed.

Lemma dedup_key_untouched (page : nat) (contents : list ContentFile) :
  forall (index : nat) (self : Engine) (tr : list Event)
         (ok : bool) (self' : Engine) (tr' : list Event)
         (i : nat) (c : ContentFile) (s : string),
    run_pages_from page index contents self tr = (ok, self', tr') ->
    contents !! i = Some c ->
    content_sha c = Some s ->
    Py.mem s (hash_list self) = true ->
    result self' !! (page * per_page + (index + i))
    = result self !! (page * per_page + (index + i))
    /\ exclude_result self' !! (page * per_page + (index + i))
       = exclude_result self !! (page * per_page + (index + i)).
Proof.
  induction contents as [|c0 rest IH];
    intros index self tr ok self' tr' i c s Hrun Hi Hsha Hmem;
    [discriminate|].
  simpl in Hrun.
  destruct ((next_count self =? 0) && (3 <? processed_count self)).
  { injection Hrun as <- <- <-. auto. }
  destruct i as [|i]; simpl in Hi.
  - injection Hi as ->.
    rewrite (process_hit_dedup _ _ _ _ _ _ Hsha Hmem) in Hrun.
    apply process_pages_from_frame in Hrun.
    destruct Hrun as (_ & _ & _ & _ & _ & _ & _ & _ & Hout).
    destruct (Hout (page * per_page + (index + 0))) as [E1 E2]; [lia|].
    fields. auto.
  - destruct (run_hit page index c0 self tr) as [self1 tr1] eqn:Hhit.
    destruct (process_hit_other_keys _ _ _ _ _ _ _
                (page * per_page + (index + S i)) Hhit) as [E1 E2]; [lia|].
    apply process_hit_cases in Hhit. destruct Hhit as (Hh & _).
    rewrite <- Hh in Hmem.
    destruct (IH _ _ _ _ _ _ _ _ _ Hrun Hi Hsha Hmem) as [E3 E4].
    replace (S index + i) with (index + S i) in * by lia.
    split; congruence.
Qed.

(** C5.  A hit whose sha is in the hash list (in particular a non-empty
    one) is skipped at line 96: [url] and [sha] were assigned at lines 85
    and 89, [processed_count] grows by exactly one, the log line of line 97
    is the only event, and [next_count] and both result maps are as before.
    After the whole page the position of the hit is
    unchanged in both maps, and after the page iteration of [search], which
    starts from empty maps, it is in neither. *)
Theorem dedup_hit_is_skipped
    (page index total : nat) (content : ContentFile) (s : string)
    (self : Engine) (tr : list Event) :
  content_sha content = Some s ->
  Py.mem s (hash_list self) = true ->
  run_hit page index content self tr
  = (set_processed_count (processed_count self + 1)
       (set_sha s (set_url (html_url content) self)),
     tr ++ [EvLog (LogProcessedSkip (page * per_page + index)
                     (processed_count self))])
  /\ (forall contents ok self' tr',
         contents !! index = Some content ->
         run_pages contents page total self tr = (ok, self', tr') ->
         result self' !! (page * per_page + index)
         = result self !! (page * per_page + index)
         /\ exclude_result self' !! (page * per_page + index)
            = exclude_result self !! (page * per_page + index))
  /\ (forall resource contents ctl self' tr',
         get_page resource page = inr contents ->
         contents !! index = Some content ->
         run_page_iteration resource total page self tr = (ctl, self', tr') ->
         result self' !! (page * per_page + index) = None
         /\ exclude_result self' !! (page * per_page + index) = None).
Proof.
  intros Hsha Hmem. split; [|split].
  - now apply process_hit_dedup.
  - intros contents ok self' tr' Hi Hrun. unfold process_pages in Hrun.
    apply (dedup_key_untouched _ _ _ _ _ _ _ _ _ _ _ Hrun Hi Hsha Hmem).
  - intros resource contents ctl self' tr' Hget Hi Hrun.
    unfold page_iteration in Hrun. rewrite Hget in Hrun.
    unfold process_pages in Hrun.
    match type of Hrun with context [run_pages_from ?p ?i ?c ?s0 ?t] =>
      destruct (run_pages_from p i c s0 t) as [[ok s2] t2] eqn:Hp end.
    assert (Hk : result s2 !! (page * per_page + (0 + index)) = None
                 /\ exclude_result s2 !! (page * per_page + (0 + index)) = None).
    { destruct (dedup_key_untouched _ _ _ _ _ _ _ _ _ _ _ Hp Hi Hsha)
        as [E1 E2]; [fields; exact Hmem|].
      rewrite E1, E2. fields. now rewrite !lookup_empty. }
    simpl in Hk.
    destruct ok; simpl in Hrun; injection Hrun as <- <- <-; exact Hk.
Qed.

(** [replace] leaves a text without occurrence of [old] as it is. *)
Lemma replace_no_occurrence (old new s : string) :
  Py.contains old s = false -> Py.replace old new s = s.
Proof.
  unfold Py.replace. induction s as [|c s IH]; intros H; [reflexivity|].
  cbn [Py.contains] in H. apply orb_false_iff in H. destruct H as [H1 H2].
  cbn [Py.replace_from]. rewrite H1, (IH H2). reflexivity.
Qed.

(** C6, amended.  Every ScanResult that a page iteration leaves in the
    confirmed or in the to-review map belongs to a hit of that page, under
    the position of the hit, and its [code] field is the decoded text of
    the hit with every [<img] removed; it is the decoded text itself when
    that text contains no [<img]. *)
Theorem result_code_is_stripped_text
    (resource : Resource) (total page : nat) (self self' : Engine)
    (tr tr' : list Event) (ctl : PageCtl) (k : nat) (r : ScanResult) :
  run_page_iteration resource total page self tr = (ctl, self', tr') ->
  result self' !! k = Some r \/ exclude_result self' !! k = Some r ->
  exists (contents : list ContentFile) (i : nat) (c : ContentFile)
         (text : string),
    get_page resource page = inr contents
    /\ contents !! i = Some c
    /\ k = page * per_page + i
    /\ decoded_content c = Some text
    /\ res_code r = Py.replace "<img" EmptyString text
    /\ (Py.contains "<img" text = false -> res_code r = text).
Proof.
  intros Hrun Hk. unfold page_iteration in Hrun.
  destruct (get_page resource page) as [[status data|]|contents] eqn:Hget.
  - injection Hrun as <- <- <-. fields.
    rewrite !lookup_empty in Hk. destruct Hk; discriminate.
  - injection Hrun as <- <- <-. fields.
    rewrite !lookup_empty in Hk. destruct Hk; discriminate.
  - unfold process_pages in Hrun.
    match type of Hrun with context [run_pages_from ?p ?i ?c ?s0 ?t] =>
      destruct (run_pages_from p i c s0 t) as [[ok s2] t2] eqn:Hp end.
    apply process_pages_from_frame in Hp.
    destruct Hp as (_ & _ & _ & _ & _ & _ & Hres & Hexc & _).
    assert (Hs : self' = s2) by (destruct ok; simpl in Hrun; congruence).
    subst s2.
    assert (Hfrom : from_hit page 0 contents k r).
    { destruct Hk as [Hk|Hk].
      - destruct (Hres k r Hk) as [H|H]; [|exact H].
        fields. rewrite lookup_empty in H. discriminate.
      - destruct (Hexc k r Hk) as [H|H]; [|exact H].
        fields. rewrite lookup_empty in H. discriminate. }
    destruct Hfrom as (i & c & text & H1 & H2 & H3 & H4).
    exists contents, i, c, text. repeat split; auto.
    intros Hno. rewrite H4. now apply replace_no_occurrence.
Qed.

(** ** The early abort (lines 79-82 and 232-234) *)

(** The test of line 79 succeeds: nothing of the hit is looked at. *)
Lemma abort_before_hit (page index : nat) (content : ContentFile)
    (rest : list ContentFile) (self : Engine) (tr : list Event) :
  next_count self = 0 -> 3 < processed_count self ->
  run_pages_from page index (content :: rest) self tr
  = (false, self,
     tr ++ [EvLog (LogSkipRules (page * per_page + index)
                     (processed_count self))]).
Proof.
  intros Hn Hp. simpl. rewrite Hn.
  apply Nat.ltb_lt in Hp. rewrite Hp. reflexivity.
Qed.

(** Once the test of line 79 holds, the page loop evaluates no hit any
    more, whatever pages are left. *)
Lemma abort_stops_rule (resource : Resource) (total : nat) (pages : list nat) :
  forall (self : Engine) (tr : list Event),
    next_count self = 0 -> 3 < processed_count self ->
    exists (out : Outcome) (self' : Engine) (evs : list Event),
      run_page_loop resource total pages self tr = (out, self', tr ++ evs)
      /\ Forall (fun e => inside_hit e = false) evs
      /\ next_count self' = 0
      /\ processed_count self' = processed_count self.
Proof.
  induction pages as [|page rest IH]; intros self tr Hn Hp.
  - simpl. unfold finish. do 3 eexists. split; [reflexivity|].
    repeat split; auto; repeat constructor.
  - simpl. unfold page_iteration.
    destruct (get_page resource page) as [[status data|]|contents].
    + do 3 eexists. split; [reflexivity|]. fields.
      repeat split; auto; repeat constructor.
    + match goal with |- context [run_page_loop _ _ _ ?s ?t] =>
        destruct (IH s t) as (out & self' & evs & -> & Hevs & Hn' & Hp');
        [fields; exact Hn|fields; exact Hp|] end.
      fields. exists out, self'. eexists (_ :: _ :: evs).
      split; [rewrite <- !app_assoc; reflexivity|].
      repeat split; auto; repeat constructor; try exact Hevs.
    + unfold process_pages. destruct contents as [|c cs].
      * cbn [process_pages_from negb].
        match goal with |- context [run_page_loop _ _ _ ?s ?t] =>
          destruct (IH s t) as (out & self' & evs & -> & Hevs & Hn' & Hp');
          [fields; exact Hn|fields; exact Hp|] end.
        fields. exists out, self'. eexists (_ :: _ :: _ :: evs).
        split; [rewrite <- !app_assoc; reflexivity|].
        repeat split; auto; repeat constructor; try exact Hevs.
      * rewrite abort_before_hit by (fields; assumption).
        cbn [negb]. unfold finish. do 2 eexists.
        eexists [_; _; _; _].
        split; [rewrite <- !app_assoc; reflexivity|]. fields.
        repeat split; auto; repeat constructor.
Qed.

(** A run of dedup-skips that brings [processed_count] above 3 while
    [next_count] is 0: the hit behind the run is not looked at.  The loop
    returns [false], and what it returns does not depend on that hit or on
    the hits after it. *)
Lemma dedup_run_aborts (page : nat) (ds : list ContentFile) :
  forall (index : nat) (self : Engine) (tr : list Event),
    next_count self = 0 ->
    Forall (dedup_skip (hash_list self)) ds ->
    3 < processed_count self + List.length ds ->
    (forall c1 rest1 c2 rest2,
        run_pages_from page index (ds ++ c1 :: rest1) self tr
        = run_pages_from page index (ds ++ c2 :: rest2) self tr)
    /\ (forall c rest, exists self' evs,
           run_pages_from page index (ds ++ c :: rest) self tr
           = (false, self', tr ++ evs)
           /\ Forall (fun e => exists i n,
                         (e = EvLog (LogProcessedSkip i n)
                          /\ i < page * per_page + index + List.length ds)
                         \/ (e = EvLog (LogSkipRules i n)
                             /\ i <= page * per_page + index + List.length ds))
                evs
           /\ next_count self' = 0
           /\ processed_count self' = Nat.max (processed_count self) 4
           /\ result self' = result self
           /\ exclude_result self' = exclude_result self).
Proof.
  induction ds as [|d ds IH]; intros index self tr Hn Hds Hp.
  - simpl in Hp. split.
    + intros. simpl app. now rewrite !abort_before_hit by lia.
    + intros c rest. simpl app. rewrite abort_before_hit by lia.
      do 2 eexists. split; [reflexivity|]. repeat split; auto; [|lia].
      repeat constructor. do 2 eexists. right. split; [reflexivity|lia].
  - inversion Hds as [|? ? (s & Hsha & Hmem) Hds']; subst.
    destruct (3 <? processed_count self) eqn:Hc.
    + apply Nat.ltb_lt in Hc. split.
      * intros. simpl app. now rewrite !abort_before_hit by lia.
      * intros c rest. simpl app. rewrite abort_before_hit by lia.
        do 2 eexists. split; [reflexivity|]. repeat split; auto; [|lia].
        repeat constructor. do 2 eexists. right. split; [reflexivity|lia].
    + assert (Hstep : forall rest,
                 run_pages_from page index (d :: rest) self tr
                 = run_pages_from page (S index) rest
                     (set_processed_count (processed_count self + 1)
                        (set_sha s (set_url (html_url d) self)))
                     (tr ++ [EvLog (LogProcessedSkip (page * per_page + index)
                                      (processed_count self))])).
      { intros rest. cbn [process_pages_from]. rewrite Hc, andb_false_r.
        now rewrite (process_hit_dedup _ _ _ _ _ _ Hsha Hmem). }
      apply Nat.ltb_ge in Hc.
      match type of Hstep with forall _, _ = run_pages_from _ _ _ ?s1 ?t1 =>
        destruct (IH (S index) s1 t1) as [Hind Hrun];
        [fields; exact Hn | fields; exact Hds'
         | fields; simpl in Hp; lia |] end.
      split.
      * intros. simpl app. rewrite !Hstep. apply Hind.
      * intros c rest. simpl app. rewrite Hstep.
        destruct (Hrun c rest) as (self' & evs & -> & Hevs & H1 & H2 & H3 & H4).
        fields. do 2 eexists. rewrite <- app_assoc.
        split; [reflexivity|]. repeat split; auto; [|lia].
        constructor.
        -- do 2 eexists. left. split; [reflexivity|simpl; lia].
        -- eapply Forall_impl; [exact Hevs|].
           intros e (i & n & [[He Hi]|[He Hi]]); exists i, n; [left|right];
             (split; [exact He|simpl; lia]).
Qed.

(** C3, amended.  The test of line 79 is made before every hit, the first
    hit of a page included.  When [next_count] is 0 and [processed_count]
    exceeds 3 at that point, [process_pages] returns [false] without
    looking at the hit, and the page loop evaluates no further hit of the
    rule, whatever pages are left.  A [false] from [process_pages] ends the
    page loop: the pages behind it are not fetched.  For a page whose first
    four hits are dedup-skips while [next_count] is 0, the loop returns
    [false], the outcome does not depend on the fifth hit or on the hits
    behind it, only skip lines for positions before the fifth hit are
    logged, and [processed_count] ends at 4 (or where it already was above
    4). *)
Theorem early_abort_policy :
  (forall (self : Engine) (tr : list Event),
      next_count self = 0 -> 3 < processed_count self ->
      (forall page index content rest,
          run_pages_from page index (content :: rest) self tr
          = (false, self,
             tr ++ [EvLog (LogSkipRules (page * per_page + index)
                             (processed_count self))]))
      /\ (forall resource total pages,
             exists out self' evs,
               run_page_loop resource total pages self tr
               = (out, self', tr ++ evs)
               /\ Forall (fun e => inside_hit e = false) evs
               /\ next_count self' = 0
               /\ processed_count self' = processed_count self))
  /\ (forall (resource : Resource) (total page : nat) (rest : list nat)
             (self self1 : Engine) (tr tr1 : list Event)
             (contents : list ContentFile),
         get_page resource page = inr contents ->
         run_pages contents page total
           (set_exclude_result ∅ (set_result ∅ self))
           ((tr ++ [EvGetPage page])
            ++ [EvLog (LogPageData page (List.length contents))])
         = (false, self1, tr1) ->
         run_page_loop resource total (page :: rest) self tr = finish self1 tr1)
  /\ (forall (page total : nat) (self : Engine) (tr : list Event)
             (c1 c2 c3 c4 c5 : ContentFile) (rest : list ContentFile),
         next_count self = 0 ->
         Forall (dedup_skip (hash_list self)) [c1; c2; c3; c4] ->
         (forall c5' rest',
             run_pages (c1 :: c2 :: c3 :: c4 :: c5 :: rest) page total self tr
             = run_pages (c1 :: c2 :: c3 :: c4 :: c5' :: rest') page total
                 self tr)
         /\ (exists self' evs,
                run_pages (c1 :: c2 :: c3 :: c4 :: c5 :: rest) page total self tr
                = (false, self', tr ++ evs)
                /\ Forall (fun e => exists i n,
                              (e = EvLog (LogProcessedSkip i n)
                               /\ i < page * per_page + 4)
                              \/ (e = EvLog (LogSkipRules i n)
                                  /\ i <= page * per_page + 4)) evs
                /\ next_count self' = 0
                /\ processed_count self' = Nat.max (processed_count self) 4
                /\ result self' = result self
                /\ exclude_result self' = exclude_result self)).
Proof.
  split; [|split].
  - intros self tr Hn Hp. split.
    + intros. now apply abort_before_hit.
    + intros. now apply abort_stops_rule.
  - intros resource total page rest self self1 tr tr1 contents Hget Hrun.
    cbn [page_loop]. unfold page_iteration. now rewrite Hget, Hrun.
  - intros page total self tr c1 c2 c3 c4 c5 rest Hn Hds.
    destruct (dedup_run_aborts page [c1; c2; c3; c4] 0 self tr Hn Hds)
      as [Hind Hrun]; [simpl; lia|].
    split.
    + intros c5' rest'. apply (Hind c5 rest c5' rest').
    + destruct (Hrun c5 rest) as (self' & evs & Heq & Hevs & H).
      exists self', evs. split; [exact Heq|]. split; [|exact H].
      eapply Forall_impl; [exact Hevs|].
      intros e (i & n & He). exists i, n. simpl in He.
      replace (page * per_page + 0 + 4) with (page * per_page + 4) in He by lia.
      exact He.
Qed.

(** ** Flushing (line 236) *)

Lemma page_loop_trace (resource : Resource) (total : nat) (pages : list nat) :
  forall (self : Engine) (tr : list Event),
    exists out self' evs,
      run_page_loop resource total pages self tr = (out, self', tr ++ evs).
Proof.
  induction pages as [|page rest IH]; intros self tr.
  - simpl. unfold finish. eauto.
  - simpl. unfold page_iteration.
    destruct (get_page resource page) as [[status data|]|contents].
    + eauto.
    + match goal with |- context [run_page_loop _ _ _ ?s ?t] =>
        destruct (IH s t) as (out & self' & evs & ->) end.
      exists out, self'. eexists. rewrite <- !app_assoc. reflexivity.
    + match goal with |- context [run_pages ?c ?p ?n ?s ?t] =>
        destruct (run_pages c p n s t) as [[ok s1] t1] eqn:Hp end.
      unfold process_pages in Hp. apply process_pages_from_frame in Hp.
      destruct Hp as (_ & _ & _ & _ & _ & (evs1 & -> & _) & _).
      destruct ok; cbn [negb].
      * match goal with |- context [run_page_loop _ _ _ ?s ?t] =>
          destruct (IH s t) as (out & self' & evs & ->) end.
        exists out, self'. eexists. rewrite <- !app_assoc. reflexivity.
      * unfold finish. do 3 eexists. rewrite <- !app_assoc. reflexivity.
Qed.

(** C4, amended.  For a fetched page on which [process_pages] returns
    [true], the confirmed map of the page is handed to [Process] right
    after the events of the page's hits and before anything of a later page
    or the end of the rule.  On the page where the early abort fires no
    [Process] call is made and the loop ends; both maps of that page are
    empty at that point. *)
Theorem flush_after_completed_page
    (resource : Resource) (total page : nat) (rest : list nat)
    (self : Engine) (tr : list Event) (contents : list ContentFile) :
  get_page resource page = inr contents ->
  let tr0 := tr ++ [EvGetPage page;
                    EvLog (LogPageData page (List.length contents))] in
  exists (ok : bool) (self1 : Engine) (evs : list Event),
    run_pages contents page total
      (set_exclude_result ∅ (set_result ∅ self)) tr0
    = (ok, self1, tr0 ++ evs)
    /\ Forall (fun e => is_get_page e = false /\ is_process e = false) evs
    /\ (ok = true ->
        exists out self' later,
          run_page_loop resource total (page :: rest) self tr
          = (out, self',
             tr0 ++ evs ++ [EvProcess (result self1) (rule_object self1)]
             ++ later)
          /\ run_page_loop resource total rest self1
               (tr0 ++ evs ++ [EvProcess (result self1) (rule_object self1)])
             = (out, self',
                tr0 ++ evs ++ [EvProcess (result self1) (rule_object self1)]
                ++ later))
    /\ (ok = false ->
        run_page_loop resource total (page :: rest) self tr
        = finish self1 (tr0 ++ evs)
        /\ result self1 = ∅ /\ exclude_result self1 = ∅
        /\ next_count self1 = 0).
Proof.
  intros Hget tr0.
  destruct (run_pages contents page total
              (set_exclude_result ∅ (set_result ∅ self)) tr0)
    as [[ok self1] tr1] eqn:Hp.
  pose proof Hp as Hframe. unfold process_pages in Hframe.
  apply process_pages_from_frame in Hframe.
  destruct Hframe as (_ & _ & _ & Hok & Hzero & (evs & -> & Hevs) & _).
  exists ok, self1, evs. split; [reflexivity|]. split; [exact Hevs|].
  assert (Htr : (tr ++ [EvGetPage page])
                ++ [EvLog (LogPageData page (List.length contents))] = tr0).
  { unfold tr0. now rewrite <- app_assoc. }
  split.
  - intros ->.
    destruct (page_loop_trace resource total rest self1
                ((tr0 ++ evs) ++ [EvProcess (result self1) (rule_object self1)]))
      as (out & self' & later & Hloop).
    exists out, self', later.
    cbn [page_loop]. unfold page_iteration. rewrite Hget, Htr, Hp.
    cbn [negb]. rewrite <- !app_assoc in *. rewrite Hloop. auto.
  - intros ->. cbn [page_loop]. unfold page_iteration.
    rewrite Hget, Htr, Hp. cbn [negb]. split; [reflexivity|].
    pose proof (Hok eq_refl) as Hn. destruct (Hzero Hn) as [E1 E2].
    fields. auto.
Qed.

(** ** The summary (line 242) *)

Lemma last_fetched_app (evs1 evs2 : list Event) (page : nat) :
  last_fetched evs2 page -> last_fetched (evs1 ++ evs2) page.
Proof.
  intros (before & after & -> & H).
  exists (evs1 ++ before), after. now rewrite <- app_assoc.
Qed.

Lemma page_loop_summary (resource : Resource) (total : nat) (pages : list nat) :
  forall (self : Engine) (tr : list Event) (rule : RuleObject) (n : nat)
         (self' : Engine) (tr' : list Event),
    run_page_loop resource total pages self tr
    = (Return true rule (SumCount n), self', tr') ->
    n = size (result self')
    /\ ((pages = [] /\ self' = self /\ tr' = tr ++ [EvLog LogRuleDone])
        \/ (exists evs page,
               tr' = tr ++ evs /\ last_fetched evs page
               /\ entries_of_page resource page (result self'))).
Proof.
  induction pages as [|page rest IH]; intros self tr rule n self' tr' Hrun.
  - simpl in Hrun. unfold finish in Hrun. injection Hrun as <- <- <- <-. auto.
  - simpl in Hrun. unfold page_iteration in Hrun.
    destruct (get_page resource page) as [[status data|]|contents] eqn:Hget.
    + discriminate.
    + apply IH in Hrun. destruct Hrun as [Hn Hrun]. split; [exact Hn|].
      right. destruct Hrun as [(-> & -> & ->)|(evs & p & -> & Hlast & Hent)].
      * exists [EvGetPage page; EvLog LogPageTimeout; EvLog LogRuleDone], page.
        rewrite <- !app_assoc. split; [reflexivity|]. split.
        -- exists [], [EvLog LogPageTimeout; EvLog LogRuleDone].
           split; [reflexivity|repeat constructor].
        -- intros k r Hk. fields. rewrite lookup_empty in Hk. discriminate.
      * exists ([EvGetPage page; EvLog LogPageTimeout] ++ evs), p.
        rewrite <- !app_assoc. split; [reflexivity|]. split; [|exact Hent].
        now apply last_fetched_app.
    + match type of Hrun with context [run_pages ?c ?p ?t ?s0 ?t0] =>
        destruct (run_pages c p t s0 t0) as [[ok s1] t1] eqn:Hp end.
      unfold process_pages in Hp. apply process_pages_from_frame in Hp.
      destruct Hp as (_ & _ & _ & _ & _ & (evs1 & -> & Hevs1) & Hres & _).
      assert (Hent : entries_of_page resource page (result s1)).
      { intros k r Hk. destruct (Hres k r Hk) as [H|H].
        - fields. rewrite lookup_empty in H. discriminate.
        - destruct H as (i & c & text & H1 & H2 & _).
          exists contents, i, c. auto. }
      assert (Hno : Forall (fun e => is_get_page e = false) evs1).
      { eapply Forall_impl; [exact Hevs1|]. now intros e [H _]. }
      destruct ok; cbn [negb] in Hrun.
      * apply IH in Hrun. destruct Hrun as [Hn Hrun]. split; [exact Hn|].
        right. destruct Hrun as [(-> & -> & ->)|(evs & p & -> & Hlast & Hent')].
        -- eexists (EvGetPage page :: EvLog _ :: evs1 ++ [_; _]), page.
           split; [rewrite <- !app_assoc; reflexivity|]. split; [|exact Hent].
           eexists [], _. split; [reflexivity|].
           constructor; [reflexivity|]. apply Forall_app.
           split; [exact Hno|repeat constructor].
        -- eexists (EvGetPage page :: EvLog _ :: evs1 ++ _ :: evs), p.
           split; [rewrite <- !app_assoc; reflexivity|]. split; [|exact Hent'].
           change (EvGetPage page :: EvLog (LogPageData page (List.length contents))
                     :: evs1 ++ EvProcess (result s1) (rule_object s1) :: evs)
             with ([EvGetPage page; EvLog (LogPageData page (List.length contents))]
                     ++ (evs1 ++ EvProcess (result s1) (rule_object s1) :: evs)).
           apply last_fetched_app.
           change (evs1 ++ EvProcess (result s1) (rule_object s1) :: evs)
             with (evs1 ++ [EvProcess (result s1) (rule_object s1)] ++ evs).
           rewrite app_assoc. now apply last_fetched_app.
      * unfold finish in Hrun. injection Hrun as <- <- <- <-.
        split; [reflexivity|]. right.
        eexists (EvGetPage page :: EvLog _ :: evs1 ++ [_]), page.
        split; [rewrite <- !app_assoc; reflexivity|]. split; [|exact Hent].
        eexists [], _. split; [reflexivity|].
        constructor; [reflexivity|]. apply Forall_app.
        split; [exact Hno|repeat constructor].
Qed.

End PipelineProperties.

(** * Properties of the regular expressions *)

(** A property of characters that holds for all 256 of them. *)
Ltac all_chars c :=
  destruct c as [[] [] [] [] [] [] [] []]; vm_compute; try reflexivity;
  try discriminate; auto.

Lemma cls_local_blind : case_blind Re.cls_local.
Proof. intros c. all_chars c. Qed.

Lemma cls_label_blind : case_blind Re.cls_label.
Proof. intros c. all_chars c. Qed.

Lemma cls_tail_blind : case_blind Re.cls_tail.
Proof. intros c. all_chars c. Qed.

Lemma at_blind : case_blind (Ascii.eqb "@").
Proof. intros c. all_chars c. Qed.

Lemma dot_blind : case_blind (Ascii.eqb ".").
Proof. intros c. all_chars c. Qed.

Lemma isspace_blind : case_blind Py.isspace.
Proof. intros c. all_chars c. Qed.

Lemma lower_char_idem (c : ascii) :
  Py.lower_char (Py.lower_char c) = Py.lower_char c.
Proof. all_chars c. Qed.

Lemma blind_eq (f : ascii -> bool) (c c' : ascii) :
  case_blind f -> Py.lower_char c = Py.lower_char c' -> f c = f c'.
Proof. intros Hf H. now rewrite <- (Hf c), H, Hf. Qed.

Lemma regex_mail_blind : Forall atom_blind Re.regex_mail.
Proof.
  repeat constructor; simpl;
    auto using cls_local_blind, cls_label_blind, cls_tail_blind,
               at_blind, dot_blind.
Qed.

Lemma lower_drop (k : nat) (s : string) :
  Py.lower (Py.drop k s) = Py.drop k (Py.lower s).
Proof.
  revert s. induction k as [|k IH]; intros [|c s]; simpl; auto.
Qed.

Lemma lower_take (k : nat) (s : string) :
  Py.lower (Py.take k s) = Py.take k (Py.lower s).
Proof.
  revert s. induction k as [|k IH]; intros [|c s]; simpl; auto.
  now rewrite IH.
Qed.

Lemma run_blind (cls : ascii -> bool) :
  case_blind cls ->
  forall s s', Py.lower s = Py.lower s' -> Re.run cls s = Re.run cls s'.
Proof.
  intros Hcls. induction s as [|c s IH]; intros [|c' s'] H; simpl in *;
    try discriminate; auto.
  injection H as Hc Hs. rewrite (blind_eq cls c c' Hcls Hc).
  destruct (cls c'); auto.
Qed.

Lemma back_blind (rest : string -> option nat) :
  (forall s s', Py.lower s = Py.lower s' -> rest s = rest s') ->
  forall k s s', Py.lower s = Py.lower s' ->
                 Re.back rest s k = Re.back rest s' k.
Proof.
  intros Hrest. induction k as [|k IH]; intros s s' H; cbn [Re.back]; auto.
  rewrite (Hrest (Py.drop (S k) s) (Py.drop (S k) s'))
    by (rewrite !lower_drop; now rewrite H).
  destruct (rest _); auto.
Qed.

(** Whether and how far a pattern matches does not depend on the case of
    the letters of the subject. *)
Lemma match_here_blind (p : list Re.atom) :
  Forall atom_blind p ->
  forall s s', Py.lower s = Py.lower s' ->
               Re.match_here p s = Re.match_here p s'.
Proof.
  induction p as [|a p IH]; intros Hp s s' H; [reflexivity|].
  inversion Hp as [|? ? Ha Hp']; subst.
  destruct a as [c|cls]; cbn [Re.match_here].
  - destruct s as [|x s], s' as [|x' s']; simpl in H; try discriminate; auto.
    injection H as Hc Hs. simpl in Ha.
    rewrite (blind_eq _ x x' Ha Hc), (IH Hp' s s' Hs). reflexivity.
  - simpl in Ha. rewrite (run_blind cls Ha s s' H).
    apply back_blind; auto.
Qed.

Lemma findall_from_blind (p : list Re.atom) :
  Forall atom_blind p ->
  forall s s' skip,
    Py.lower s = Py.lower s' ->
    map Py.lower (Re.findall_from p skip s)
    = map Py.lower (Re.findall_from p skip s').
Proof.
  intros Hp. induction s as [|c s IH]; intros [|c' s'] skip H;
    simpl in H; try discriminate; [reflexivity|].
  assert (Hs : Py.lower s = Py.lower s') by (now injection H).
  cbn [Re.findall_from]. destruct skip as [|k]; [|now apply IH].
  rewrite (match_here_blind p Hp (String c s) (String c' s')) by exact H.
  destruct (Re.match_here p (String c' s')) as [[|n]|]; auto.
  cbn [map]. rewrite !lower_take. f_equal; [|now apply IH].
  change (String (Py.lower_char c) (Py.lower s))
    with (Py.lower (String c s)) in H.
  now rewrite H.
Qed.

Lemma lstrip_lower (s : string) :
  Py.lower (Py.lstrip s) = Py.lstrip (Py.lower s).
Proof.
  induction s as [|c s IH]; simpl; auto.
  rewrite isspace_blind. destruct (Py.isspace c); auto.
Qed.

Lemma lower_empty (s : string) : Py.lower s = EmptyString -> s = EmptyString.
Proof. destruct s; simpl; [auto|discriminate]. Qed.

Lemma rstrip_lower (s : string) :
  Py.lower (Py.rstrip s) = Py.rstrip (Py.lower s).
Proof.
  induction s as [|c s IH]; simpl; auto.
  rewrite <- IH, isspace_blind.
  destruct (Py.rstrip s) as [|c0 r]; simpl; [destruct (Py.isspace c)|]; auto.
Qed.

Lemma strip_lower (s : string) :
  Py.lower (Py.strip s) = Py.strip (Py.lower s).
Proof. unfold Py.strip. now rewrite rstrip_lower, lstrip_lower. Qed.

(** The addresses found in two texts that differ only in the case of their
    letters are the same once lower-cased and trimmed. *)
Lemma findall_mail_blind (code code' : string) :
  Py.lower code = Py.lower code' ->
  map (fun mm => Py.lower (Py.strip mm)) (Re.findall_mail code)
  = map (fun mm => Py.lower (Py.strip mm)) (Re.findall_mail code').
Proof.
  intros H.
  assert (E : forall l, map (fun mm => Py.lower (Py.strip mm)) l
                        = map Py.strip (map Py.lower l)).
  { intros l. rewrite map_map. apply map_ext. intros. apply strip_lower. }
  rewrite !E. unfold Re.findall_mail, Re.findall.
  now rewrite (findall_from_blind Re.regex_mail regex_mail_blind code code' 0 H).
Qed.

(** ** What a match looks like *)

Lemma take_add (k m : nat) (s : string) :
  Py.take (k + m) s = Py.take k s +:+ Py.take m (Py.drop k s).
Proof.
  revert s. induction k as [|k IH]; intros s.
  - destruct s, m; reflexivity.
  - destruct s as [|c s]; simpl; [now destruct m|]. now rewrite IH.
Qed.

Lemma take_run (cls : ascii -> bool) (k : nat) (s : string) :
  k <= Re.run cls s -> every cls (Py.take k s) = true.
Proof.
  revert s. induction k as [|k IH]; intros [|c s] H; simpl in *; auto.
  destruct (cls c); simpl in *; [apply IH|]; lia.
Qed.

Lemma back_sound (cls : ascii -> bool) (p : list Re.atom)
    (rest : string -> option nat) (s : string) :
  (forall s' m, rest s' = Some m -> matches p (Py.take m s')) ->
  forall k n, k <= Re.run cls s -> Re.back rest s k = Some n ->
              matches (Re.Plus cls :: p) (Py.take n s).
Proof.
  intros Hrest. induction k as [|k IH]; intros n Hk H; [discriminate|].
  cbn [Re.back] in H.
  destruct (rest (Py.drop (S k) s)) as [m|] eqn:Hm.
  - injection H as <-.
    replace (Py.take _ s)
      with (Py.take (S k) s +:+ Py.take m (Py.drop (S k) s))
      by (symmetry; apply (take_add (S k))).
    constructor.
    + destruct s as [|c s]; simpl in *; [lia|discriminate].
    + now apply take_run.
    + now apply Hrest.
  - apply IH; [lia|exact H].
Qed.

(** A match of [p] found by the matcher is a string that [p] describes. *)
Lemma match_here_sound (p : list Re.atom) :
  forall s n, Re.match_here p s = Some n -> matches p (Py.take n s).
Proof.
  induction p as [|a p IH]; intros s n H.
  - injection H as <-. destruct s; constructor.
  - destruct a as [c|cls]; cbn [Re.match_here] in H.
    + destruct s as [|c' s]; [discriminate|].
      destruct (Ascii.eqb c c') eqn:E; [|discriminate].
      apply Ascii.eqb_eq in E. subst c'.
      destruct (Re.match_here p s) as [m|] eqn:Hm; [|discriminate].
      injection H as <-. simpl. constructor. now apply IH.
    + eapply back_sound; eauto.
Qed.

Lemma findall_from_matches (p : list Re.atom) (mm : string) :
  forall s skip, In mm (Re.findall_from p skip s) -> matches p mm.
Proof.
  induction s as [|c s IH]; intros skip H; [contradiction|].
  cbn [Re.findall_from] in H. destruct skip as [|k]; [|eauto].
  destruct (Re.match_here p (String c s)) as [[|n]|] eqn:Hm; eauto.
  destruct H as [<-|H]; [|eauto]. now apply match_here_sound.
Qed.

Lemma append_cons (c : ascii) (s t : string) :
  String c s +:+ t = String c (s +:+ t).
Proof. reflexivity. Qed.

Lemma append_nil_l (t : string) : EmptyString +:+ t = t.
Proof. reflexivity. Qed.

Lemma append_empty_r (s : string) : s +:+ EmptyString = s.
Proof.
  induction s as [|c s IH]; [reflexivity|]. now rewrite append_cons, IH.
Qed.

Lemma append_assoc (a b c : string) : (a +:+ b) +:+ c = a +:+ (b +:+ c).
Proof.
  induction a as [|x a IH]; [reflexivity|]. now rewrite !append_cons, IH.
Qed.

Lemma findall_mail_shape (code mm : string) :
  In mm (Re.findall_mail code) -> mail_shape mm.
Proof.
  intros H. apply findall_from_matches in H.
  unfold Re.regex_mail in H.
  inversion H as [| |? ? a s1 Ha Hea H1]; subst.
  inversion H1 as [|? ? s2 H2|]; subst.
  inversion H2 as [| |? ? b s3 Hb Heb H3]; subst.
  inversion H3 as [|? ? s4 H4|]; subst.
  inversion H4 as [| |? ? c s5 Hc Hec H5]; subst.
  inversion H5; subst.
  exists a, b, c. rewrite append_empty_r. repeat split; auto.
Qed.

Lemma every_app (cls : ascii -> bool) (a b : string) :
  every cls (a +:+ b) = every cls a && every cls b.
Proof.
  induction a as [|x a IH]; [reflexivity|].
  rewrite append_cons. simpl. now rewrite IH, andb_assoc.
Qed.

Lemma every_impl (cls cls' : ascii -> bool) (s : string) :
  (forall c, cls c = true -> cls' c = true) ->
  every cls s = true -> every cls' s = true.
Proof.
  intros Hc. induction s as [|x s IH]; simpl; [auto|].
  intros H. apply andb_true_iff in H. destruct H as [H1 H2].
  now rewrite (Hc x H1), IH.
Qed.

Lemma every_lower (cls : ascii -> bool) (s : string) :
  case_blind cls -> every cls (Py.lower s) = every cls s.
Proof.
  intros Hc. induction s as [|x s IH]; simpl; [auto|]. now rewrite Hc, IH.
Qed.

Lemma lower_app (a b : string) :
  Py.lower (a +:+ b) = Py.lower a +:+ Py.lower b.
Proof.
  induction a as [|x a IH]; [reflexivity|].
  rewrite append_cons. simpl. now rewrite IH.
Qed.

(** Trimming does nothing to a string without white space. *)
Lemma rstrip_no_space (s : string) :
  every (fun c => negb (Py.isspace c)) s = true -> Py.rstrip s = s.
Proof.
  induction s as [|x s IH]; simpl; [auto|]. intros H.
  apply andb_true_iff in H. destruct H as [H1 H2]. rewrite (IH H2).
  destruct s; [|reflexivity]. now destruct (Py.isspace x).
Qed.

Lemma strip_no_space (s : string) :
  every (fun c => negb (Py.isspace c)) s = true -> Py.strip s = s.
Proof.
  intros H. unfold Py.strip.
  assert (Hl : Py.lstrip s = s).
  { destruct s as [|x s]; simpl in *; [reflexivity|].
    apply andb_true_iff in H. destruct H as [H _].
    now destruct (Py.isspace x). }
  rewrite Hl. now apply rstrip_no_space.
Qed.

Lemma cls_local_no_space (c : ascii) :
  Re.cls_local c = true -> negb (Py.isspace c) = true.
Proof. all_chars c. Qed.

Lemma cls_label_local (c : ascii) :
  Re.cls_label c = true -> Re.cls_local c = true.
Proof. all_chars c. Qed.

Lemma cls_tail_local (c : ascii) :
  Re.cls_tail c = true -> Re.cls_local c = true.
Proof. all_chars c. Qed.

Lemma cls_local_not_at (c : ascii) :
  Re.cls_local c = true -> Ascii.eqb "@" c = false.
Proof. all_chars c. Qed.

Lemma mail_shape_no_space (m : string) :
  mail_shape m -> every (fun c => negb (Py.isspace c)) m = true.
Proof.
  intros (a & b & c & -> & Ha & _ & Hb & _ & Hc).
  rewrite !every_app.
  rewrite (every_impl _ _ a cls_local_no_space Ha).
  rewrite (every_impl _ _ b cls_local_no_space
             (every_impl _ _ b cls_label_local Hb)).
  rewrite (every_impl _ _ c cls_local_no_space
             (every_impl _ _ c cls_tail_local Hc)).
  reflexivity.
Qed.

Lemma lower_not_empty (s : string) :
  s <> EmptyString -> Py.lower s <> EmptyString.
Proof. destruct s; [congruence|discriminate]. Qed.

(** The address the loop works with has the shape of an address too. *)
Lemma mail_shape_normalised (mm : string) :
  mail_shape mm -> mail_shape (Py.lower (Py.strip mm)).
Proof.
  intros H. rewrite (strip_no_space mm (mail_shape_no_space mm H)).
  destruct H as (a & b & c & -> & Ha & Hb0 & Hb & Hc0 & Hc).
  exists (Py.lower a), (Py.lower b), (Py.lower c).
  rewrite !lower_app.
  rewrite !every_lower
    by auto using cls_local_blind, cls_label_blind, cls_tail_blind.
  repeat split; auto using lower_not_empty.
Qed.

Lemma run_every (cls : ascii -> bool) (a : string) :
  every cls a = true -> Re.run cls a = String.length a.
Proof.
  induction a as [|x a IH]; simpl; [auto|]. intros H.
  apply andb_true_iff in H. destruct H as [-> H]. now rewrite IH.
Qed.

Lemma run_every_app (cls : ascii -> bool) (a : string) (x : ascii) (r : string) :
  every cls a = true -> cls x = false ->
  Re.run cls (a +:+ String x r) = String.length a.
Proof.
  intros Ha Hx. induction a as [|y a IH].
  - simpl. now rewrite Hx.
  - rewrite append_cons. simpl in *.
    apply andb_true_iff in Ha. destruct Ha as [-> Ha]. now rewrite IH.
Qed.

Lemma drop_length_app (a r : string) :
  Py.drop (String.length a) (a +:+ r) = r.
Proof.
  induction a as [|y a IH]; [now destruct r|].
  rewrite append_cons. simpl. exact IH.
Qed.

(** The host pattern matches behind the local part of an address. *)
Lemma host_matches (b c : string) :
  b <> EmptyString -> every Re.cls_label b = true ->
  c <> EmptyString -> every Re.cls_tail c = true ->
  Re.match_here Re.regex_host (String "@" (b +:+ String "." c))
  = Some (S (String.length b + S (String.length c + 0))).
Proof.
  intros Hb0 Hb Hc0 Hc. unfold Re.regex_host. cbn [Re.match_here].
  rewrite Ascii.eqb_refl.
  rewrite (run_every_app Re.cls_label b "." c Hb eq_refl).
  destruct b as [|b0 b]; [congruence|].
  cbn [String.length Re.back].
  change (S (String.length b)) with (String.length (String b0 b)).
  rewrite drop_length_app. rewrite Ascii.eqb_refl.
  rewrite (run_every Re.cls_tail c Hc).
  destruct c as [|c0 c]; [congruence|].
  cbn [String.length Re.back option_map]. reflexivity.
Qed.

Lemma findall_host_found (a r : string) (n : nat) :
  every Re.cls_local a = true ->
  Re.match_here Re.regex_host (String "@" r) = Some (S n) ->
  Re.findall Re.regex_host (a +:+ String "@" r) <> [].
Proof.
  intros Ha Hm. unfold Re.findall. induction a as [|x a IH].
  - rewrite append_nil_l. cbn [Re.findall_from]. rewrite Hm. discriminate.
  - rewrite append_cons. simpl in Ha.
    apply andb_true_iff in Ha. destruct Ha as [Hx Ha].
    cbn [Re.findall_from].
    replace (Re.match_here Re.regex_host (String x (a +:+ String "@" r)))
      with (@None nat).
    + now apply IH.
    + unfold Re.regex_host. cbn [Re.match_here].
      now rewrite (cls_local_not_at x Hx).
Qed.

(** [host[0]] at line 337 never fails: the host pattern finds a host in
    every address that [regex_mail] found, lower-cased and trimmed. *)
Lemma findall_host_nonempty (code mm : string) :
  In mm (Re.findall_mail code) ->
  Re.findall_host (Py.lower (Py.strip mm)) <> [].
Proof.
  intros H. apply findall_mail_shape, mail_shape_normalised in H.
  destruct H as (a & b & c & -> & Ha & Hb0 & Hb & Hc0 & Hc).
  unfold Re.findall_host. intros E. apply map_eq_nil in E. revert E.
  eapply findall_host_found; [exact Ha|].
  now apply host_matches.
Qed.

(** ** Dotted quads *)

Lemma octet_w (s : string) : Re.octet (String "w" s) = false.
Proof. destruct s as [|b [|c [|d s]]]; reflexivity. Qed.

Lemma dotted_quad_w (s : string) : Re.dotted_quad (String "w" s) = false.
Proof.
  unfold Re.dotted_quad. cbn [Py.split].
  change (Ascii.eqb "w" ".") with false. cbv iota.
  destruct (Py.split "." s) as [|l [|b [|c [|d [|e ls]]]]]; try reflexivity.
  now rewrite octet_w.
Qed.

(** A host that starts with [w] is no IP literal. *)
Lemma match_ip_w (s : string) : Re.match_ip (String "w" s) = false.
Proof.
  unfold Re.match_ip. cbv zeta. rewrite dotted_quad_w. cbn [orb].
  replace (String.length (String "w" s) - 1) with (String.length s)
    by (simpl; lia).
  destruct s as [|c s].
  - reflexivity.
  - cbn [String.length Py.take]. rewrite dotted_quad_w. apply andb_false_r.
Qed.

Lemma mem_In (x : string) (xs : list string) :
  Py.mem x xs = true <-> In x xs.
Proof.
  unfold Py.mem. rewrite existsb_exists. split.
  - intros (y & Hy & E). apply String.eqb_eq in E. now subst.
  - intros H. exists x. split; [exact H|apply String.eqb_refl].
Qed.

(** ** The host of an address *)

Lemma take_length (s : string) : Py.take (String.length s) s = s.
Proof. induction s as [|c s IH]; [reflexivity|]. simpl. now rewrite IH. Qed.

Lemma length_app_string (a b : string) :
  String.length (a +:+ b) = String.length a + String.length b.
Proof.
  induction a as [|x a IH]; [reflexivity|]. rewrite append_cons. simpl.
  now rewrite IH.
Qed.

(** The first match of [regex_host] in an address starts at its [@]. *)
Lemma findall_host_first (a r : string) (n : nat) :
  every Re.cls_local a = true ->
  Re.match_here Re.regex_host (String "@" r) = Some (S n) ->
  hd EmptyString (Re.findall Re.regex_host (a +:+ String "@" r))
  = Py.take (S n) (String "@" r).
Proof.
  intros Ha Hm. unfold Re.findall. induction a as [|x a IH].
  - rewrite append_nil_l. cbn [Re.findall_from]. rewrite Hm. reflexivity.
  - rewrite append_cons. simpl in Ha.
    apply andb_true_iff in Ha. destruct Ha as [Hx Ha].
    cbn [Re.findall_from].
    replace (Re.match_here Re.regex_host (String x (a +:+ String "@" r)))
      with (@None nat).
    + now apply IH.
    + unfold Re.regex_host. cbn [Re.match_here].
      now rewrite (cls_local_not_at x Hx).
Qed.

Lemma host_of_shape (a b c : string) :
  every Re.cls_local a = true ->
  b <> EmptyString -> every Re.cls_label b = true ->
  c <> EmptyString -> every Re.cls_tail c = true ->
  host_of (a +:+ "@" +:+ b +:+ "." +:+ c) = b +:+ "." +:+ c.
Proof.
  intros Ha Hb0 Hb Hc0 Hc. unfold host_of, Re.findall_host.
  pose proof (host_matches b c Hb0 Hb Hc0 Hc) as Hm.
  pose proof (findall_host_first a _ _ Ha Hm) as Hfirst.
  pose proof (findall_host_found a _ _ Ha Hm) as Hne.
  change (a +:+ "@" +:+ b +:+ "." +:+ c)
    with (a +:+ String "@" (b +:+ String "." c)).
  destruct (Re.findall Re.regex_host (a +:+ String "@" (b +:+ String "." c)))
    as [|x l]; [congruence|].
  cbn [hd map] in *. subst x. cbn [Py.take Py.drop].
  replace (String.length b + S (String.length c + 0))
    with (String.length (b +:+ String "." c))
    by (rewrite length_app_string; simpl; lia).
  rewrite take_length.
  apply strip_no_space.
  change (b +:+ String "." c) with (b +:+ "." +:+ c).
  rewrite !every_app.
  rewrite (every_impl _ _ b cls_local_no_space
             (every_impl _ _ b cls_label_local Hb)).
  rewrite (every_impl _ _ c cls_local_no_space
             (every_impl _ _ c cls_tail_local Hc)).
  reflexivity.
Qed.

Lemma lower_idem (s : string) : Py.lower (Py.lower s) = Py.lower s.
Proof.
  induction s as [|c s IH]; [reflexivity|].
  simpl. now rewrite lower_char_idem, IH.
Qed.

(** The host of a recorded address is in lower case. *)
Lemma mail_host_lower (code mm : string) :
  In mm (Re.findall_mail code) ->
  Py.lower (host_of (Py.lower (Py.strip mm)))
  = host_of (Py.lower (Py.strip mm)).
Proof.
  intros H. apply findall_mail_shape in H.
  rewrite (strip_no_space mm (mail_shape_no_space mm H)).
  destruct H as (a & b & c & -> & Ha & Hb0 & Hb & Hc0 & Hc).
  rewrite !lower_app.
  change (Py.lower "@") with "@". change (Py.lower ".") with ".".
  rewrite host_of_shape;
    rewrite ?every_lower
      by auto using cls_local_blind, cls_label_blind, cls_tail_blind;
    auto using lower_not_empty.
  rewrite !lower_app, !lower_idem. reflexivity.
Qed.

Lemma Forall2_In_l {A B : Type} (P : A -> B -> Prop) (l : list A)
    (k : list B) (x : A) :
  Forall2 P l k -> In x l -> exists y, P x y.
Proof.
  induction 1 as [|a b l k Hab _ IH]; intros Hin; [destruct Hin|].
  destruct Hin as [<-|Hin]; eauto.
Qed.

Section MailProperties.

Variable public_mail_services : list string.
Variable get_tld : string -> option string.
Variable iptype : string -> string.
Variable requests_get : list Event -> string -> HttpResult.
Variable soup_title : string -> SoupTitle.

Local Abbreviation run_mail_step :=
  (mail_step public_mail_services get_tld iptype requests_get soup_title).
Local Abbreviation run_mail_loop :=
  (mail_loop public_mail_services get_tld iptype requests_get soup_title).

(** The loop body looks at the address only after lower-casing it. *)
Lemma mail_fold_blind (l l' : list string) (a : MailAcc) :
  map (fun mm => Py.lower (Py.strip mm)) l
  = map (fun mm => Py.lower (Py.strip mm)) l' ->
  fold_left run_mail_step l a = fold_left run_mail_step l' a.
Proof.
  revert l' a. induction l as [|mm l IH]; intros [|mm' l'] a H;
    simpl in H; try discriminate; [reflexivity|].
  injection H as Hm Hl. cbn [fold_left].
  replace (run_mail_step a mm') with (run_mail_step a mm)
    by (unfold mail_step; now rewrite Hm).
  now apply IH.
Qed.

(** A probe address never names a private IP literal. *)
Lemma mail_domain_public (host domain h : string) :
  mail_domain get_tld iptype host = (false, domain) ->
  Re.match_ip h = true -> iptype h = "PRIVATE" ->
  domain <> "http://" +:+ h.
Proof.
  unfold mail_domain. intros Hd Hip Hpriv Heq.
  destruct (Re.match_ip host) eqn:Hhost; cbn [negb] in Hd.
  - injection Hd as Hinner Hdom. subst domain.
    apply (inj (append "http://")) in Heq. subst h.
    rewrite Hpriv in Hinner. discriminate.
  - injection Hd as Hdom. subst domain.
    destruct (String.eqb _ host).
    + change ("http://www." +:+ host) with ("http://" +:+ String "w" ("ww." +:+ host))
        in Heq.
      apply (inj (append "http://")) in Heq. subst h.
      rewrite match_ip_w in Hip. discriminate.
    + apply (inj (append "http://")) in Heq. subst h. congruence.
Qed.

(** What one round of the loop does. *)
Lemma mail_step_cases (a : MailAcc) (mm : string) :
  let mail := Py.lower (Py.strip mm) in
  let a' := run_mail_step a mm in
  (a' = a /\ (In mail (mails a)
              \/ Py.mem (host_of mail) public_mail_services = true))
  \/ (~ In mail (mails a)
      /\ Py.mem (host_of mail) public_mail_services = false
      /\ mails a' = mails a ++ [mail]
      /\ exists domain title,
           fragments a' = fragments a
                          ++ [mail +:+ " " +:+ domain +:+ " " +:+ title]
           /\ ((Re.match_ip (host_of mail) = true
                /\ iptype (host_of mail) = "PRIVATE"
                /\ domain = "http://" +:+ host_of mail
                /\ title = "<Inner IP>"
                /\ trace a' = trace a)
               \/ (mail_domain get_tld iptype (host_of mail) = (false, domain)
                   /\ trace a' = trace a ++ [EvHttpGet domain]))).
Proof.
  intros mail a'. subst a'. unfold mail_step. fold mail. fold (host_of mail).
  destruct (Py.mem mail (mails a)) eqn:Hm.
  { left. split; [reflexivity|]. left. now apply mem_In. }
  assert (Hnot : ~ In mail (mails a)).
  { intros H. apply mem_In in H. congruence. }
  destruct (Py.mem (host_of mail) public_mail_services) eqn:Hp.
  { left. auto. }
  right. split; [exact Hnot|]. split; [reflexivity|].
  destruct (mail_domain get_tld iptype (host_of mail)) as [inner domain] eqn:Hd.
  unfold mail_title. destruct inner; cbn [negb].
  - cbn [mails fragments trace]. split; [reflexivity|].
    exists domain, "<Inner IP>". split; [reflexivity|]. left.
    unfold mail_domain in Hd.
    destruct (Re.match_ip (host_of mail)); cbn [negb] in Hd; [|discriminate].
    injection Hd as Hi Hdom. apply String.eqb_eq in Hi. auto.
  - cbn [mails fragments trace]. split; [reflexivity|].
    eexists domain, _. split; [reflexivity|]. right. auto.
Qed.

(** An address once recorded stays recorded. *)
Lemma mail_fold_mails (l : list string) (m : string) :
  forall a : MailAcc,
    In m (mails a) -> In m (mails (fold_left run_mail_step l a)).
Proof.
  induction l as [|x l IH]; intros a Hin; [exact Hin|].
  cbn [fold_left]. apply IH.
  destruct (mail_step_cases a x) as [[-> _]|(_ & _ & -> & _)];
    [exact Hin|]. apply in_or_app. now left.
Qed.

Lemma mail_fold_inner (tr : list Event) (l : list string) :
  forall a : MailAcc,
    (forall m, In m (mails a) ->
               Re.match_ip (host_of m) = true ->
               iptype (host_of m) = "PRIVATE" ->
               In (inner_fragment m) (fragments a)) ->
    (exists evs, trace a = tr ++ evs /\ probes_no_private iptype evs) ->
    let a' := fold_left run_mail_step l a in
    (forall m, In m (mails a') ->
               Re.match_ip (host_of m) = true ->
               iptype (host_of m) = "PRIVATE" ->
               In (inner_fragment m) (fragments a'))
    /\ (exists evs, trace a' = tr ++ evs /\ probes_no_private iptype evs)
    /\ (forall mm, In mm l ->
                   Py.mem (host_of (Py.lower (Py.strip mm)))
                     public_mail_services = false ->
                   In (Py.lower (Py.strip mm)) (mails a')).
Proof.
  induction l as [|mm l IH]; intros a Hfrag Htr; cbn [fold_left].
  - split; [exact Hfrag|]. split; [exact Htr|]. intros mm [].
  - destruct (mail_step_cases a mm) as [[Eq Hwhy]|(Hnew & Hpub & Hm & Hrest)].
    + rewrite Eq. destruct (IH a Hfrag Htr) as (H1 & H2 & H3).
      split; [exact H1|]. split; [exact H2|].
      intros mm' [<-|Hin] Hp; [|now apply H3].
      destruct Hwhy as [Hin|Hpub]; [|congruence].
      now apply mail_fold_mails.
    + destruct Hrest as (domain & title & Hf & Hcase).
      set (a1 := run_mail_step a mm) in *.
      destruct (IH a1) as (H1 & H2 & H3).
      * intros m Hin Hip Hpriv. rewrite Hm in Hin. rewrite Hf.
        apply in_app_or in Hin. destruct Hin as [Hin|[<-|[]]].
        -- apply in_or_app. left. now apply Hfrag.
        -- apply in_or_app. right. left.
           destruct Hcase as [(_ & _ & -> & -> & _)|(Hd & _)];
             [reflexivity|].
           unfold mail_domain in Hd. rewrite Hip in Hd. cbn [negb] in Hd.
           rewrite Hpriv in Hd. discriminate.
      * destruct Htr as (evs & Htr & Hno).
        destruct Hcase as [(_ & _ & _ & _ & ->)|(Hd & ->)].
        -- exists evs. auto.
        -- exists (evs ++ [EvHttpGet domain]). rewrite Htr, <- app_assoc.
           split; [reflexivity|]. intros h Hip Hpriv Hin.
           apply in_app_or in Hin. destruct Hin as [Hin|[Hin|[]]].
           ++ exact (Hno h Hip Hpriv Hin).
           ++ injection Hin as Hin.
              exact (mail_domain_public _ _ h Hd Hip Hpriv Hin).
      * split; [exact H1|]. split; [exact H2|].
        intros mm' [<-|Hin] Hp; [|now apply H3].
        assert (Hin1 : In (Py.lower (Py.strip mm)) (mails a1))
          by (rewrite Hm; apply in_or_app; right; now left).
        now apply mail_fold_mails.
Qed.

(** C7.  An address found in the text whose host is a dotted-quad IP
    literal that [IPy] classifies as private: the resolver finds its host
    (line 337 cannot fail), makes no request to [http://<host>] during the
    whole run, and, the host passing the public-mail filter of line 339,
    emits the fragment [<address> http://<host> <Inner IP>]. *)
Theorem private_ip_is_not_probed
    (code : string) (tr : list Event) (mm : string) :
  In mm (Re.findall_mail code) ->
  let mail := Py.lower (Py.strip mm) in
  Re.match_ip (host_of mail) = true ->
  iptype (host_of mail) = "PRIVATE" ->
  let a := run_mail_loop code tr in
  Re.findall_host mail <> []
  /\ (exists evs, trace a = tr ++ evs
                  /\ ~ In (EvHttpGet ("http://" +:+ host_of mail)) evs)
  /\ (Py.mem (host_of mail) public_mail_services = false ->
      In (mail +:+ " " +:+ ("http://" +:+ host_of mail) +:+ " " +:+ "<Inner IP>")
        (fragments a)).
Proof.
  intros Hin mail Hip Hpriv a.
  split; [now apply findall_host_nonempty with (code := code)|].
  destruct (mail_fold_inner tr (Re.findall_mail code)
              {| mails := []; fragments := []; trace := tr |})
    as (Hfrag & (evs & Htr & Hno) & Hmails).
  - intros m [].
  - exists []. rewrite app_nil_r. split; [reflexivity|]. intros h _ _ [].
  - split.
    + exists evs. split; [exact Htr|]. now apply Hno.
    + intros Hpub. apply Hfrag; auto. apply Hmails; auto.
Qed.

Lemma mail_fold_public (code : string) (l : list string) :
  forall a : MailAcc,
    (forall mm, In mm l -> In mm (Re.findall_mail code)) ->
    let good mail frag :=
      (exists domain title, frag = mail +:+ " " +:+ domain +:+ " " +:+ title)
      /\ (exists mm, In mm (Re.findall_mail code)
                     /\ mail = Py.lower (Py.strip mm))
      /\ Py.mem (host_of mail) public_mail_services = false in
    Forall2 good (mails a) (fragments a) ->
    Forall2 good (mails (fold_left run_mail_step l a))
      (fragments (fold_left run_mail_step l a)).
Proof.
  induction l as [|mm l IH]; intros a Hsub good Ha; [exact Ha|].
  cbn [fold_left]. apply IH; [intros; apply Hsub; now right|].
  destruct (mail_step_cases a mm) as [[-> _]|(_ & Hpub & -> & d & t & -> & _)];
    [exact Ha|].
  apply Forall2_app; [exact Ha|]. constructor; [|constructor].
  split; [eauto|]. split; [|exact Hpub].
  exists mm. split; [apply Hsub; now left|reflexivity].
Qed.

(** C8, amended.  The test of line 339 compares the host of the
    lower-cased address with the entries of the public-mail-service list
    as they are configured, by string equality.  The fragments of the
    mail resolver are in step with the recorded addresses: each fragment
    starts with its address, which is an address found in the text,
    lower-cased and trimmed, and whose host is not an entry of the list.
    The case of the letters of the text (code points below 256) does not
    matter: two texts that are equal once lower-cased give the same
    addresses, fragments and requests.  When every entry of the list is in
    lower case, the comparison does not see case at all: no recorded
    address has a host that equals an entry up to the case of its
    letters.  An entry that is not in lower case equals the host of no
    address found, so it filters nothing. *)
Theorem public_mail_hosts_not_emitted
    (code code' : string) (tr : list Event) :
  let a := run_mail_loop code tr in
  Forall2
    (fun mail frag =>
       (exists domain title, frag = mail +:+ " " +:+ domain +:+ " " +:+ title)
       /\ (exists mm, In mm (Re.findall_mail code)
                      /\ mail = Py.lower (Py.strip mm))
       /\ Py.mem (host_of mail) public_mail_services = false)
    (mails a) (fragments a)
  /\ (Py.lower code = Py.lower code' -> run_mail_loop code' tr = a)
  /\ (Forall (fun entry => Py.lower entry = entry) public_mail_services ->
      forall mail entry,
        In mail (mails a) -> In entry public_mail_services ->
        Py.lower (host_of mail) <> Py.lower entry)
  /\ (forall mm entry,
        In mm (Re.findall_mail code) -> Py.lower entry <> entry ->
        host_of (Py.lower (Py.strip mm)) <> entry).
Proof.
  intros a.
  assert (H2 : Forall2
    (fun mail frag =>
       (exists domain title, frag = mail +:+ " " +:+ domain +:+ " " +:+ title)
       /\ (exists mm, In mm (Re.findall_mail code)
                      /\ mail = Py.lower (Py.strip mm))
       /\ Py.mem (host_of mail) public_mail_services = false)
    (mails a) (fragments a))
    by (apply (mail_fold_public code); [auto|constructor]).
  assert (Hm : forall mail, In mail (mails a) ->
             Py.lower (host_of mail) = host_of mail
             /\ Py.mem (host_of mail) public_mail_services = false).
  { intros mail Hin.
    destruct (Forall2_In_l _ _ _ _ H2 Hin) as (frag & _ & (mm & Hmm & ->) & Hp).
    split; [now apply mail_host_lower with (code := code)|exact Hp]. }
  split; [exact H2|]. split; [|split].
  - intros H. unfold a, mail_loop. symmetry.
    apply mail_fold_blind. now apply findall_mail_blind.
  - intros Hl mail entry Hin He Heq.
    destruct (Hm mail Hin) as [Hlow Hp].
    rewrite List.Forall_forall in Hl. rewrite (Hl entry He), Hlow in Heq.
    subst entry. apply mem_In in He. congruence.
  - intros mm entry Hin Hup Heq.
    pose proof (mail_host_lower code mm Hin) as Hlow. congruence.
Qed.

End MailProperties.

(** C8 as stated fails: the list holds [QQ.com], the text holds an address
    at that very host, and the address is emitted: its host is compared
    in lower case with the entry as configured. *)
Lemma public_host_with_upper_case_entry_is_emitted :
  let services := ["QQ.com"] in
  let a := mail_loop services (fun _ => None) (fun _ => "PUBLIC")
             (fun _ _ => HttpError "timed out") (fun _ => SoupNoString)
             "bob@QQ.com" [] in
  In "QQ.com" services
  /\ Re.findall_mail "bob@QQ.com" = ["bob@QQ.com"]
  /\ Re.findall_host "bob@QQ.com" = ["QQ.com"]
  /\ mails a = ["bob@qq.com"]
  /\ Py.lower (host_of "bob@qq.com") = Py.lower "QQ.com"
  /\ fragments a = ["bob@qq.com http://www.qq.com <timed out>"].
Proof. vm_compute. auto 10. Qed.

(** The text of a hit in three spellings, with [gmail.com] on the list of
    public mail services. *)
Lemma public_mail_hosts_not_emitted_witness :
  let loop := mail_loop ["qq.com"; "gmail.com"] (fun _ => None)
                (fun _ => "PUBLIC") (fun _ _ => HttpError "timed out")
                (fun _ => SoupNoString) in
  Py.lower "Mail Bob@GMail.COM" = Py.lower "mail bob@gmail.com"
  /\ loop "mail bob@gmail.com" [] = loop "Mail Bob@GMail.COM" []
  /\ fragments (loop "Mail Bob@GMail.COM" []) = [].
Proof.
  intros loop. split; [reflexivity|]. split; [|reflexivity].
  destruct (public_mail_hosts_not_emitted ["qq.com"; "gmail.com"]
              (fun _ => None) (fun _ => "PUBLIC")
              (fun _ _ => HttpError "timed out") (fun _ => SoupNoString)
              "Mail Bob@GMail.COM" "mail bob@gmail.com" []) as (_ & H & _).
  exact (H eq_refl).
Defined.

(** The list itself is compared as configured: an entry that is not in
    lower case never equals a host, which the loop has lower-cased. *)
Example public_list_is_compared_as_configured :
  fragments (mail_loop ["QQ.com"] (fun _ => None) (fun _ => "PUBLIC")
               (fun _ _ => HttpError "timed out") (fun _ => SoupNoString)
               "bob@QQ.com" [])
  = ["bob@qq.com http://www.qq.com <timed out>"].
Proof. reflexivity. Qed.

Lemma private_ip_is_not_probed_witness :
  let code := "deploy root@10.0.0.8 and ops@8.8.8.8" in
  let a := mail_loop ["qq.com"] (fun _ => None)
             (fun h => if Py.startswith "10." h then "PRIVATE" else "PUBLIC")
             (fun _ _ => HttpError "timed out") (fun _ => SoupNoString)
             code [] in
  In "root@10.0.0.8" (Re.findall_mail code)
  /\ host_of "root@10.0.0.8" = "10.0.0.8"
  /\ trace a = [EvHttpGet "http://8.8.8.8"]
  /\ In "root@10.0.0.8 http://10.0.0.8 <Inner IP>" (fragments a).
Proof.
  intros code a.
  split; [vm_compute; auto|]. split; [reflexivity|]. split; [reflexivity|].
  destruct (private_ip_is_not_probed ["qq.com"] (fun _ => None)
              (fun h => if Py.startswith "10." h then "PRIVATE" else "PUBLIC")
              (fun _ _ => HttpError "timed out") (fun _ => SoupNoString)
              code [] "root@10.0.0.8") as (_ & _ & H).
  - vm_compute. auto.
  - reflexivity.
  - reflexivity.
  - apply H. reflexivity.
Defined.

(** * Concrete runs *)

(** C3 as stated fails: after page 0 the counters stand at
    [next_count = 0], [processed_count = 4]; page 0 is flushed, page 1 is
    fetched, and the abort fires at position 50, the first hit of page 1,
    before any hit of that page was processed. *)
Lemma abort_fires_on_first_hit_of_page :
  let run := ex_search (ex_github 200 ex_pages_late_dups) in
  fst (fst run) = Return true ex_rule (SumCount 0)
  /\ drop 52 (snd run)
     = [EvProcess ∅ ex_rule; EvGetPage 1; EvLog (LogPageData 1 1);
        EvLog (LogSkipRules 50 4); EvLog LogRuleDone]
  /\ filter (fun e => inside_hit e = true) (drop 52 (snd run)) = [].
Proof. vm_compute. auto. Qed.

(** C4 as stated fails: page 0 is fetched and its hits are handed to
    [process_pages], the abort fires at the fifth hit, and the rule ends
    without any call of [Process]. *)
Lemma abort_page_is_not_flushed :
  let run := ex_search (ex_github 5 ex_pages_four_dups) in
  fst (fst run) = Return true ex_rule (SumCount 0)
  /\ snd run
     = [EvGetPage 0; EvLog (LogPageData 0 5);
        EvLog (LogProcessedSkip 0 0); EvLog (LogProcessedSkip 1 1);
        EvLog (LogProcessedSkip 2 2); EvLog (LogProcessedSkip 3 3);
        EvLog (LogSkipRules 4 4); EvLog LogRuleDone]
  /\ filter (fun e => is_process e = true) (snd run) = [].
Proof. vm_compute. auto. Qed.

(** C6 as stated fails: the text of the hit contains [<img]; the [code]
    field of its ScanResult is the text without it. *)
Lemma result_code_differs_from_text :
  let content := ex_hit "n1" "<img src=x> password=1" in
  let run := process_hit ex_public_mail_services [] [] ex_get_tld ex_iptype
               ex_requests_get ex_soup_title 0 0 content ex_engine [] in
  decoded_content content = Some "<img src=x> password=1"
  /\ res_code <$> result (fst run) !! 0 = Some " src=x> password=1"
  /\ res_code <$> result (fst run) !! 0 <> decoded_content content.
Proof. vm_compute. repeat split; auto. discriminate. Qed.

Lemma early_abort_policy_witness :
  (let self := set_processed_count 4 ex_engine_seen in
   process_pages ex_public_mail_services [] [] ex_get_tld ex_iptype
     ex_requests_get ex_soup_title [ex_hit "n1" "password=1"] 1 200 self []
   = (false, self, [EvLog (LogSkipRules 50 4)]))
  /\ (let resource := {| totalCount := inr 5;
                         get_page := ex_pages_four_dups |} in
      fst (fst (page_loop ex_public_mail_services [] [] ex_get_tld ex_iptype
                  ex_requests_get ex_soup_title resource 5 [0; 1; 2; 3]
                  ex_engine_seen []))
      = Return true ex_rule (SumCount 0))
  /\ fst (fst (process_pages ex_public_mail_services [] [] ex_get_tld ex_iptype
                 ex_requests_get ex_soup_title
                 (map (fun s => ex_hit s "password=0") ex_seen
                  ++ [ex_hit "n1" "password=1"]) 0 5 ex_engine_seen []))
     = false.
Proof.
  split; [|split].
  - apply (proj1 (proj1 (early_abort_policy ex_public_mail_services [] []
                           ex_get_tld ex_iptype ex_requests_get ex_soup_title)
                    (set_processed_count 4 ex_engine_seen) []
                    eq_refl ltac:(vm_compute; lia))
             1 0 (ex_hit "n1" "password=1") []).
  - intros resource.
    set (run := process_pages ex_public_mail_services [] [] ex_get_tld
                  ex_iptype ex_requests_get ex_soup_title
                  (map (fun s => ex_hit s "password=0") ex_seen
                   ++ [ex_hit "n1" "password=1"]) 0 5
                  (set_exclude_result ∅ (set_result ∅ ex_engine_seen))
                  (([] ++ [EvGetPage 0]) ++ [EvLog (LogPageData 0 5)])).
    rewrite (proj1 (proj2 (early_abort_policy ex_public_mail_services [] []
                             ex_get_tld ex_iptype ex_requests_get
                             ex_soup_title))
               resource 5 0 [1; 2; 3] ex_engine_seen (snd (fst run)) []
               (snd run)
               (map (fun s => ex_hit s "password=0") ex_seen
                ++ [ex_hit "n1" "password=1"])
               eq_refl ltac:(vm_compute; reflexivity)).
    vm_compute. reflexivity.
  - destruct (proj2 (proj2 (early_abort_policy ex_public_mail_services [] []
                       ex_get_tld ex_iptype ex_requests_get ex_soup_title))
                0 5 ex_engine_seen []
                (ex_hit "s1" "password=0") (ex_hit "s2" "password=0")
                (ex_hit "s3" "password=0") (ex_hit "s4" "password=0")
                (ex_hit "n1" "password=1") [] eq_refl
                ltac:(repeat constructor; eexists; split; reflexivity))
      as [_ (self' & evs & Heq & _)].
    simpl app. simpl map. rewrite Heq. reflexivity.
Defined.

Lemma flush_after_completed_page_witness :
  let resource := {| totalCount := inr 1; get_page := ex_pages_one_hit |} in
  let tr0 := [EvGetPage 0; EvLog (LogPageData 0 1)] in
  get_page resource 0 = inr [ex_hit "n1" "password=1"]
  /\ exists ok self1 evs,
       process_pages ex_public_mail_services [] [] ex_get_tld ex_iptype
         ex_requests_get ex_soup_title [ex_hit "n1" "password=1"] 0 1
         (set_exclude_result ∅ (set_result ∅ ex_engine_seen)) tr0
       = (ok, self1, tr0 ++ evs)
       /\ Forall (fun e => is_get_page e = false /\ is_process e = false) evs.
Proof.
  intros resource tr0. split; [reflexivity|].
  destruct (flush_after_completed_page ex_public_mail_services [] []
              ex_get_tld ex_iptype ex_requests_get ex_soup_title
              resource 1 0 [] ex_engine_seen [] [ex_hit "n1" "password=1"]
              eq_refl)
    as (ok & self1 & evs & Hrun & Hevs & _).
  exists ok, self1, evs. split; [exact Hrun|exact Hevs].
Defined.

Lemma dedup_hit_is_skipped_witness :
  let content := ex_hit "s3" "password=0" in
  content_sha content = Some "s3"
  /\ Py.mem "s3" (hash_list ex_engine_seen) = true
  /\ process_hit ex_public_mail_services [] [] ex_get_tld ex_iptype
       ex_requests_get ex_soup_title 0 2 content ex_engine_seen []
     = (set_processed_count 1
          (set_sha "s3"
             (set_url "https://github.com/o/r/blob/s3" ex_engine_seen)),
        [EvLog (LogProcessedSkip 2 0)]).
Proof.
  intros content. split; [reflexivity|]. split; [reflexivity|].
  destruct (dedup_hit_is_skipped ex_public_mail_services [] [] ex_get_tld
              ex_iptype ex_requests_get ex_soup_title 0 2 5
              content "s3" ex_engine_seen [] eq_refl eq_refl) as [H _].
  exact H.
Defined.

Lemma result_code_is_stripped_text_witness :
  let resource := {| totalCount := inr 1; get_page := ex_pages_img |} in
  let run := page_iteration ex_public_mail_services [] [] ex_get_tld ex_iptype
               ex_requests_get ex_soup_title resource 1 0 ex_engine_seen [] in
  exists r contents i c text,
    result (snd (fst run)) !! 0 = Some r
    /\ get_page resource 0 = inr contents
    /\ contents !! i = Some c
    /\ 0 = 0 * per_page + i
    /\ decoded_content c = Some text
    /\ res_code r = Py.replace "<img" EmptyString text.
Proof.
  intros resource run.
  assert (Hr : exists r, result (snd (fst run)) !! 0 = Some r)
    by (eexists; vm_compute; reflexivity).
  destruct Hr as [r Hr].
  destruct (result_code_is_stripped_text ex_public_mail_services [] []
              ex_get_tld ex_iptype ex_requests_get ex_soup_title
              resource 1 0 ex_engine_seen (snd (fst run)) [] (snd run)
              (fst (fst run)) 0 r)
    as (contents & i & c & text & H1 & H2 & H3 & H4 & H5 & _).
  - vm_compute. reflexivity.
  - left. exact Hr.
  - exists r, contents, i, c, text. auto 10.
Defined.

(** * Further properties of the text helpers *)

Lemma split_not_nil (sep : ascii) (s : string) : Py.split sep s <> [].
Proof.
  destruct s as [|c s]; simpl; [discriminate|].
  destruct (Ascii.eqb c sep); [discriminate|].
  destruct (Py.split sep s); discriminate.
Qed.

Lemma join_cons_char (sep : string) (c : ascii) (l : string) (ls : list string) :
  Py.join sep (String c l :: ls) = String c (Py.join sep (l :: ls)).
Proof. destruct ls; reflexivity. Qed.

Lemma join_cons_cons (sep p q : string) (qs : list string) :
  Py.join sep (p :: q :: qs) = p +:+ sep +:+ Py.join sep (q :: qs).
Proof. reflexivity. Qed.

(** [sep.join(s.split(sep)) == s] *)
Lemma join_split (sep : ascii) (s : string) :
  Py.join (String sep EmptyString) (Py.split sep s) = s.
Proof.
  induction s as [|c s IH]; [reflexivity|].
  cbn [Py.split]. destruct (Ascii.eqb c sep) eqn:E.
  - apply Ascii.eqb_eq in E. subst c.
    destruct (Py.split sep s) as [|l ls] eqn:Hs;
      [now apply split_not_nil in Hs|].
    rewrite join_cons_cons, IH. reflexivity.
  - destruct (Py.split sep s) as [|l ls] eqn:Hs;
      [now apply split_not_nil in Hs|].
    rewrite join_cons_char, IH. reflexivity.
Qed.

(** Whether the character [c] occurs in [s]. *)
Lemma contains_char_cons (c x : ascii) (s : string) :
  Py.contains (String c EmptyString) (String x s)
  = Ascii.eqb c x || Py.contains (String c EmptyString) s.
Proof. cbn [Py.contains Py.startswith]. now rewrite andb_true_r. Qed.

Lemma contains_char_nil (c : ascii) :
  Py.contains (String c EmptyString) EmptyString = false.
Proof. reflexivity. Qed.

(** The fields of a split do not contain the separator, and contain no
    character that the string does not contain. *)
Lemma split_fields (sep q : ascii) (s : string) :
  Forall (fun f => Py.contains (String sep EmptyString) f = false
                   /\ (Py.contains (String q EmptyString) s = false ->
                       Py.contains (String q EmptyString) f = false))
    (Py.split sep s).
Proof.
  induction s as [|c s IH]; [repeat constructor|].
  cbn [Py.split]. destruct (Ascii.eqb c sep) eqn:E.
  - constructor; [split; reflexivity|].
    eapply Forall_impl; [exact IH|]. intros f [H1 H2]. split; [exact H1|].
    rewrite contains_char_cons. intros H. apply orb_false_iff in H. tauto.
  - destruct (Py.split sep s) as [|l ls] eqn:Hs;
      [now apply split_not_nil in Hs|].
    inversion IH as [|? ? [H1 H2] Hrest]; subst.
    constructor.
    + rewrite !contains_char_cons. split.
      * rewrite H1, orb_false_r. rewrite Ascii.eqb_sym. exact E.
      * intros H. apply orb_false_iff in H. destruct H as [Hq Hs'].
        now rewrite Hq, H2.
    + eapply Forall_impl; [exact Hrest|]. intros f [H3 H4]. split; [exact H3|].
      rewrite contains_char_cons. intros H. apply orb_false_iff in H. tauto.
Qed.

(** Replacing a character by nothing leaves no occurrence of it. *)
Lemma replace_char_gone (c : ascii) (s : string) :
  Py.contains (String c EmptyString)
    (Py.replace (String c EmptyString) EmptyString s) = false.
Proof.
  unfold Py.replace. induction s as [|x s IH]; [reflexivity|].
  cbn [Py.replace_from Py.startswith String.length Nat.sub].
  rewrite andb_true_r. destruct (Ascii.eqb c x) eqn:E.
  - exact IH.
  - rewrite contains_char_cons, E, IH. reflexivity.
Qed.

Lemma contains_char_true_iff (c : ascii) (s : string) :
  Py.contains (String c EmptyString) s = true
  <-> exists a b, s = a +:+ String c b.
Proof.
  induction s as [|x s IH].
  - split; [discriminate|]. intros ([|] & b & H); discriminate.
  - rewrite contains_char_cons, orb_true_iff, IH. split.
    + intros [E|(a & b & ->)].
      * apply Ascii.eqb_eq in E. subst x. now exists EmptyString, s.
      * now exists (String x a), b.
    + intros ([|y a] & b & H); injection H as -> ->.
      * left. apply Ascii.eqb_refl.
      * right. eauto.
Qed.

(** X1.  The resolved keywords are never an empty list and none of them
    contains a double quote; joined with spaces they give back the keyword
    of the rule without its quotes; a resolved keyword contains a space only
    if the keyword of the rule was quoted. *)
Theorem keywords_resolved (rule : RuleObject) :
  _keywords rule <> []
  /\ Forall (fun kw => Py.contains Py.DQUOTE kw = false) (_keywords rule)
  /\ Py.join " " (_keywords rule)
     = Py.replace Py.DQUOTE EmptyString (keyword rule)
  /\ Forall (fun kw => Py.contains " " kw = true ->
                       Py.contains Py.DQUOTE (keyword rule) = true)
       (_keywords rule).
Proof.
  unfold _keywords, Py.DQUOTE.
  destruct (Py.contains _ (keyword rule)) eqn:Hq; cbn [negb andb].
  - repeat split; try discriminate; repeat constructor.
    apply replace_char_gone.
  - destruct (Py.contains " " (keyword rule)) eqn:Hs.
    + split; [apply split_not_nil|]. split; [|split].
      * eapply Forall_impl; [apply (split_fields " " (ascii_of_nat 34))|].
        intros f [_ H]. now apply H.
      * rewrite (join_split " "). symmetry.
        now apply replace_no_occurrence.
      * eapply Forall_impl; [apply (split_fields " " " ")|].
        intros f [H _]. change (String " " EmptyString) with " " in H.
        rewrite H. discriminate.
    + repeat split; try discriminate; repeat constructor; auto.
      * symmetry. now apply replace_no_occurrence.
      * rewrite Hs. discriminate.
Qed.

(** No line of [splitlines] contains a line boundary. *)
Lemma splitlines_no_break (s : string) :
  Forall (fun l => every (fun c => negb (Py.is_linebreak c)) l = true)
    (Py.splitlines s).
Proof.
  assert (H : forall n s, String.length s <= n ->
            Forall (fun l => every (fun c => negb (Py.is_linebreak c)) l = true)
              (Py.splitlines s)).
  { induction n as [|n IH]; intros [|c t] Hn; simpl in Hn;
      try (constructor; fail); [lia|].
    cbn [Py.splitlines]. destruct (Py.is_linebreak c) eqn:Hc.
    - constructor; [reflexivity|].
      destruct t as [|c' t']; [constructor|].
      destruct ((Py.ord c =? 13) && (Py.ord c' =? 10));
        apply IH; simpl in *; lia.
    - pose proof (IH t ltac:(lia)) as Ht.
      destruct (Py.splitlines t) as [|l ls]; constructor;
        try (simpl; now rewrite Hc); try constructor.
      + inversion Ht; subst. simpl. rewrite Hc. auto.
      + now inversion Ht. }
  apply (H (String.length s)). lia.
Qed.

Lemma only_match_incl (codes keywords : list string) (f : string) :
  In f (only_match codes keywords) ->
  In f codes /\ exists kw, In kw keywords /\ Py.contains kw f = true.
Proof.
  rewrite only_match_refines. unfold only_match_spec, matching_keywords.
  rewrite in_flat_map. intros (code & Hc & Hf).
  apply in_map_iff in Hf. destruct Hf as (kw & <- & Hkw).
  apply list_elem_of_In, list_elem_of_filter in Hkw. destruct Hkw as [Hm Hkw].
  split; [exact Hc|]. exists kw. split; [now apply list_elem_of_In|exact Hm].
Qed.

Lemma normal_match_incl (codes keywords : list string) (f : string) :
  In f (normal_match codes keywords) -> In f codes.
Proof.
  rewrite normal_match_lines. intros H. apply in_map_iff in H.
  destruct H as ([j line] & <- & Hin).
  pose proof (normal_match_near codes keywords) as Hn.
  rewrite List.Forall_forall in Hn. apply Hn in Hin.
  destruct Hin as (t & code & kw & _ & _ & _ & _ & _ & Hr & -> & _).
  unfold line_at. simpl. apply nth_In. lia.
Qed.

Section CodesProperties.

Variable public_mail_services : list string.
Variable get_tld : string -> option string.
Variable iptype : string -> string.
Variable requests_get : list Event -> string -> HttpResult.
Variable soup_title : string -> SoupTitle.

Local Abbreviation run_codes :=
  (codes public_mail_services get_tld iptype requests_get soup_title).

(** X2.  In every mode but [mail], [codes] makes no call to a collaborator
    and changes nothing but [self.code]; every fragment it returns is one
    of the lines of the text without [<img], and so contains no line
    boundary; in a mode that is none of the three named ones it returns
    the first 20 lines of that text in their order, all of them when there
    are fewer. *)
Theorem non_mail_fragments_are_lines (self : Engine) (tr : list Event) :
  mode (rule_object self) <> "mail" ->
  let text := Py.replace "<img" EmptyString (code self) in
  exists m,
    run_codes self tr = (m, set_code text self, tr)
    /\ Forall (fun f => In f (Py.splitlines text)
                        /\ every (fun c => negb (Py.is_linebreak c)) f = true) m
    /\ (mode (rule_object self) <> "only-match" ->
        mode (rule_object self) <> "normal-match" ->
        m = firstn 20 (Py.splitlines text)
        /\ List.length m = Nat.min 20 (List.length (Py.splitlines text))).
Proof.
  intros Hmode text. unfold codes. fold text.
  cbn [rule_object set_code code].
  pose proof (splitlines_no_break text) as Hb.
  rewrite List.Forall_forall in Hb.
  destruct (String.eqb_spec (mode (rule_object self)) "mail") as [E|_];
    [contradiction|].
  destruct (String.eqb_spec (mode (rule_object self)) "only-match") as [E1|N1].
  { eexists. split; [reflexivity|]. split; [|contradiction].
    apply List.Forall_forall. intros f Hf.
    apply only_match_incl in Hf. destruct Hf as [Hf _]. auto. }
  destruct (String.eqb_spec (mode (rule_object self)) "normal-match") as [E2|N2].
  { eexists. split; [reflexivity|]. split; [|contradiction].
    apply List.Forall_forall. intros f Hf.
    apply normal_match_incl in Hf. auto. }
  eexists. split; [reflexivity|]. split.
  - apply List.Forall_forall. intros f Hf.
    assert (In f (Py.splitlines text)).
    { apply list_elem_of_In, elem_of_take in Hf. destruct Hf as (i & Hi & _).
      apply list_elem_of_In. eapply list_elem_of_lookup_2; eauto. }
    auto.
  - intros _ _. split; [reflexivity|apply length_firstn].
Qed.

End CodesProperties.

Lemma non_mail_fragments_are_lines_witness :
  let self := set_code ("api_key=1" +:+ Py.LF +:+ "<img x" +:+ Py.LF +:+ "y")
                (set_rule_object
                   {| keyword := "key"; extension := None; mode := "other" |}
                   ex_engine) in
  codes [] ex_get_tld ex_iptype ex_requests_get ex_soup_title self []
  = (["api_key=1"; " x"; "y"],
     set_code ("api_key=1" +:+ Py.LF +:+ " x" +:+ Py.LF +:+ "y") self, []).
Proof.
  intros self.
  destruct (non_mail_fragments_are_lines [] ex_get_tld ex_iptype
              ex_requests_get ex_soup_title self [])
    as (m & Hrun & _ & Hm); [discriminate|].
  destruct Hm as (-> & _); [discriminate..|].
  exact Hrun.
Defined.

(** ** normal-match against only-match *)

Lemma window_indices_length (codes : list string) (idx : Z) :
  1 <= List.length (window_indices codes idx) <= 7.
Proof.
  unfold window_indices. rewrite !length_app. cbn [List.length].
  pose proof (length_filter
                (fun j => (0 <= j)%Z /\ blank (line_at codes j) = false)
                (map (Z.add idx) [-3; -2; -1]%Z)) as H1.
  pose proof (length_filter
                (fun j => (j < Z.of_nat (List.length codes))%Z
                          /\ blank (line_at codes j) = false)
                (map (Z.add idx) [1; 2; 3]%Z)) as H2.
  rewrite length_map in H1, H2. cbn [List.length] in H1, H2. lia.
Qed.

Lemma window_indices_self (codes : list string) (idx : Z) :
  In idx (window_indices codes idx).
Proof.
  unfold window_indices. apply in_or_app. right. now left.
Qed.

Lemma line_step_growth (codes : list string) (idx : Z) (code : string)
    (ks : list string) :
  forall a : Acc,
    let a' := line_step codes ks idx code a in
    let n := List.length (matching_keywords ks code) in
    exists suffix,
      match_codes a' = match_codes a ++ suffix
      /\ n <= List.length suffix <= 7 * n
      /\ (0 < n -> In (line_at codes idx) suffix).
Proof.
  unfold line_step, matching_keywords.
  induction ks as [|kw ks IH]; intros a; cbn [fold_left].
  - exists []. rewrite app_nil_r. simpl. repeat split; auto; lia.
  - rewrite filter_cons. destruct (Py.contains kw code) eqn:E.
    + rewrite decide_True by reflexivity.
      destruct (IH (window codes idx a)) as (suf & -> & Hlen & _).
      destruct (window_spec codes idx a) as [-> _].
      pose proof (window_indices_length codes idx) as Hw.
      exists (map (line_at codes) (window_indices codes idx) ++ suf).
      rewrite <- app_assoc. split; [reflexivity|].
      rewrite length_app, length_map. cbn [List.length]. split; [lia|].
      intros _. apply in_or_app. left. apply in_map, window_indices_self.
    + rewrite decide_False by discriminate. apply IH.
Qed.

Lemma enumerate_from_growth (codes keywords : list string)
    (pre rest : list string) :
  codes = pre ++ rest ->
  forall a : Acc,
    let a' := enumerate_from codes keywords
                (Z.of_nat (List.length pre)) rest a in
    let n := List.length (only_match_spec rest keywords) in
    exists suffix,
      match_codes a' = match_codes a ++ suffix
      /\ n <= List.length suffix <= 7 * n
      /\ incl (only_match_spec rest keywords) suffix.
Proof.
  revert pre. induction rest as [|code rest IH]; intros pre Hc a.
  - exists []. rewrite app_nil_r. simpl. repeat split; auto.
    intros x [].
  - cbn [enumerate_from].
    replace (Z.of_nat (List.length pre) + 1)%Z
      with (Z.of_nat (List.length (pre ++ [code])))
      by (rewrite length_app; simpl; lia).
    destruct (line_step_growth codes (Z.of_nat (List.length pre)) code
                keywords a) as (s1 & Hs1 & Hl1 & Hin1).
    destruct (IH (pre ++ [code]) ltac:(now rewrite <- app_assoc)
                (line_step codes keywords (Z.of_nat (List.length pre)) code a))
      as (s2 & Hs2 & Hl2 & Hin2).
    exists (s1 ++ s2). rewrite Hs2, Hs1, <- app_assoc.
    split; [reflexivity|].
    unfold only_match_spec in *. cbn [flat_map].
    rewrite !length_app, length_map. split; [lia|].
    intros x Hx. apply in_app_or in Hx. apply in_or_app.
    destruct Hx as [Hx|Hx]; [left|right; now apply Hin2].
    apply in_map_iff in Hx. destruct Hx as (kw & <- & Hkw).
    assert (Hline : line_at codes (Z.of_nat (List.length pre)) = code).
    { unfold line_at. rewrite Nat2Z.id, Hc, app_nth2 by lia.
      now rewrite Nat.sub_diag. }
    rewrite <- Hline. apply Hin1.
    destruct (matching_keywords keywords code); [contradiction|simpl; lia].
Qed.

(** X3.  Every match event of only-match is a window of normal-match with
    between one and seven lines, the trigger line among them: the fragments
    of only-match are fragments of normal-match, normal-match returns at
    least as many and at most seven times as many, and one mode returns
    nothing exactly when the other does. *)
Theorem normal_match_extends_only_match (codes keywords : list string) :
  incl (only_match codes keywords) (normal_match codes keywords)
  /\ List.length (only_match codes keywords)
     <= List.length (normal_match codes keywords)
     <= 7 * List.length (only_match codes keywords)
  /\ (normal_match codes keywords = [] <-> only_match codes keywords = []).
Proof.
  destruct (enumerate_from_growth codes keywords [] codes eq_refl empty_acc)
    as (suf & Hs & Hl & Hin).
  unfold normal_match, normal_match_acc. rewrite only_match_refines.
  change {| idxs := []; match_codes := []; debug := [] |} with empty_acc.
  change 0%Z with (Z.of_nat (List.length (@nil string))).
  rewrite Hs. cbn [match_codes empty_acc app].
  split; [exact Hin|]. split; [exact Hl|].
  split; intros H.
  - rewrite H in Hl. simpl in Hl.
    destruct (only_match_spec codes keywords); [reflexivity|simpl in Hl; lia].
  - rewrite H in Hl. simpl in Hl. destruct suf; [reflexivity|simpl in Hl; lia].
Qed.

(** * Further properties of the per-hit loop and of the page loop *)

Section MorePipelineProperties.

Variable public_mail_services : list string.
Variable exclude_repository_rules : list (string -> bool).
Variable exclude_codes_rules : list (string -> bool).
Variable get_tld : string -> option string.
Variable iptype : string -> string.
Variable requests_get : list Event -> string -> HttpResult.
Variable soup_title : string -> SoupTitle.

Local Abbreviation run_mail_step :=
  (mail_step public_mail_services get_tld iptype requests_get soup_title).
Local Abbreviation run_codes :=
  (codes public_mail_services get_tld iptype requests_get soup_title).
Local Abbreviation run_hit :=
  (process_hit public_mail_services exclude_repository_rules
     exclude_codes_rules get_tld iptype requests_get soup_title).
Local Abbreviation run_pages_from :=
  (process_pages_from public_mail_services exclude_repository_rules
     exclude_codes_rules get_tld iptype requests_get soup_title).
Local Abbreviation run_pages :=
  (process_pages public_mail_services exclude_repository_rules
     exclude_codes_rules get_tld iptype requests_get soup_title).
Local Abbreviation run_page_iteration :=
  (page_iteration public_mail_services exclude_repository_rules
     exclude_codes_rules get_tld iptype requests_get soup_title).
Local Abbreviation run_page_loop :=
  (page_loop public_mail_services exclude_repository_rules
     exclude_codes_rules get_tld iptype requests_get soup_title).
Local Abbreviation run_search :=
  (search public_mail_services exclude_repository_rules
     exclude_codes_rules get_tld iptype requests_get soup_title).

(** The events of the mail resolver are HTTP requests, at most one for
    every address found. *)
Lemma mail_fold_http (l : list string) :
  forall a : MailAcc,
    exists evs,
      trace (fold_left run_mail_step l a) = trace a ++ evs
      /\ Forall (fun e => is_http e = true) evs
      /\ List.length evs <= List.length l.
Proof.
  induction l as [|mm l IH]; intros a; cbn [fold_left].
  - exists []. rewrite app_nil_r. repeat split; auto.
  - destruct (IH (run_mail_step a mm)) as (e2 & -> & H2 & L2).
    destruct (mail_step_cases public_mail_services get_tld iptype
                requests_get soup_title a mm)
      as [[-> _]|(_ & _ & _ & d & t & _ & [(_ & _ & _ & _ & ->)|(_ & ->)])].
    + exists e2. simpl. repeat split; auto.
    + exists e2. simpl. repeat split; auto.
    + exists (EvHttpGet d :: e2). rewrite <- app_assoc.
      simpl. repeat split; auto. lia.
Qed.

(** The events of [codes] are HTTP requests, and there are none in a mode
    other than [mail]. *)
Lemma codes_events (self : Engine) (tr : list Event) :
  exists (m : list string) (evs : list Event),
    run_codes self tr
    = (m, set_code (Py.replace "<img" EmptyString (code self)) self, tr ++ evs)
    /\ Forall (fun e => is_http e = true) evs
    /\ (mode (rule_object self) <> "mail" -> evs = []).
Proof.
  unfold codes. cbn [rule_object set_code code].
  destruct (String.eqb_spec (mode (rule_object self)) "mail") as [E|N].
  - unfold _mail, mail_loop. cbv zeta.
    match goal with |- context [fold_left ?f ?l ?a] =>
      destruct (mail_fold_http l a) as (evs & Hevs & Hall & _) end.
    cbn [trace] in Hevs. rewrite Hevs. eexists _, evs.
    split; [reflexivity|]. split; [exact Hall|]. intros; contradiction.
  - destruct (String.eqb _ "only-match");
      [|destruct (String.eqb _ "normal-match")];
      eexists; exists []; rewrite app_nil_r; repeat split; auto.
Qed.

Lemma filter_none (f : Event -> bool) (evs : list Event) :
  Forall (fun e => f e = false) evs -> List.filter f evs = [].
Proof.
  induction 1 as [|e evs He _ IH]; simpl; [reflexivity|]. now rewrite He.
Qed.

Lemma http_not_clone (evs : list Event) :
  Forall (fun e => is_http e = true) evs ->
  List.filter is_clone evs = [] /\ List.filter is_skip_log evs = [].
Proof.
  intros H. split; apply filter_none; eapply Forall_impl; try exact H;
    intros [] He; simpl in *; auto; discriminate.
Qed.

(** What one hit does to the counters, the maps and the trace. *)
Lemma process_hit_events (page index : nat) (c : ContentFile)
    (self self' : Engine) (tr tr' : list Event) :
  run_hit page index c self tr = (self', tr') ->
  let i := page * per_page + index in
  exists evs,
    tr' = tr ++ evs
    /\ (mode (rule_object self) <> "mail" -> List.filter is_http evs = [])
    /\ ((next_count self' = next_count self
         /\ result self' = result self
         /\ exclude_result self' = exclude_result self
         /\ List.filter is_clone evs = []
         /\ ((Py.mem (hit_sha c) (hash_list self) = true
              /\ processed_count self' = S (processed_count self)
              /\ evs = [EvLog (LogProcessedSkip i (processed_count self))])
             \/ (Py.mem (hit_sha c) (hash_list self) = false
                 /\ processed_count self' = processed_count self
                 /\ List.filter is_skip_log evs = [])))
        \/ (Py.mem (hit_sha c) (hash_list self) = false
            /\ next_count self' = S (next_count self)
            /\ processed_count self' = processed_count self
            /\ List.filter is_skip_log evs = []
            /\ List.filter is_clone evs
               = [EvClone (repo_html_url (repository c)) (hit_sha c)]
            /\ exists text m,
                 decoded_content c = Some text /\ m <> []
                 /\ ((_exclude_codes exclude_codes_rules m = false
                      /\ result self'
                         = <[i := scan_result c text m]> (result self)
                      /\ exclude_result self' = exclude_result self)
                     \/ (_exclude_codes exclude_codes_rules m = true
                         /\ exclude_result self'
                            = <[i := scan_result c text m]> (exclude_result self)
                         /\ result self' = result self)))).
Proof.
  unfold process_hit, hit_sha, scan_result, hit_url, hit_sha.
  set (s1 := match content_sha c with
             | Some s => set_sha s _ | None => _ end).
  assert (Hs1 : hash_list s1 = hash_list self /\ rule_object s1 = rule_object self
                /\ next_count s1 = next_count self
                /\ processed_count s1 = processed_count self
                /\ result s1 = result self
                /\ exclude_result s1 = exclude_result self
                /\ sha s1 = match content_sha c with
                            | Some s => s | None => EmptyString end
                /\ url s1 = match content_sha c with
                            | Some _ => html_url c | None => EmptyString end).
  { subst s1. destruct (content_sha c); fields; auto 10. }
  destruct Hs1 as (H1 & H2 & H3 & H4 & H5 & H6 & H7 & H8).
  clearbody s1. rewrite <- H7, <- H8, <- H1.
  destruct (Py.mem (sha s1) (hash_list s1)) eqn:Hmem.
  { intros [= <- <-]. fields. eexists. split; [reflexivity|].
    split; [reflexivity|]. left. repeat split; auto. left.
    repeat split; auto. lia. now rewrite H4. }
  destruct (_exclude_repository _ _).
  { intros [= <- <-]. fields. eexists. split; [reflexivity|].
    split; [reflexivity|]. left. repeat split; auto. }
  destruct (decoded_content c) as [text|] eqn:Htext.
  2:{ intros [= <- <-]. fields. eexists. split; [reflexivity|].
      split; [reflexivity|]. left. repeat split; auto. }
  match goal with |- context [run_codes ?s ?t] =>
    destruct (codes_events s t) as (m & evs & -> & Hevs & Hmode) end.
  fields. destruct (http_not_clone evs Hevs) as [Hc Hk].
  assert (Hhttp : forall l, Forall (fun e => is_http e = false) l ->
            mode (rule_object self) <> "mail" ->
            List.filter is_http (evs ++ l) = []).
  { intros l Hl Hm. rewrite Hmode by congruence. now apply filter_none. }
  destruct m as [|m0 ms]; cbn [List.length Nat.eqb].
  { intros [= <- <-]. fields. eexists. rewrite <- app_assoc.
    split; [reflexivity|]. split; [apply Hhttp; repeat constructor|].
    left. rewrite !List.filter_app, Hc, Hk. repeat split; auto. }
  destruct (_exclude_codes _ _) eqn:Hex; intros [= <- <-]; fields;
    eexists; rewrite <- !app_assoc; (split; [reflexivity|]);
    (split; [apply Hhttp; repeat constructor|]);
    right; rewrite !List.filter_app, Hc, Hk; cbn [List.filter is_clone is_skip_log app];
    (split; [reflexivity|]); (split; [lia|]); (split; [auto|]);
    (split; [reflexivity|]); (split; [reflexivity|]);
    exists text, (m0 :: ms); (split; [reflexivity|]); (split; [discriminate|]).
  - right. rewrite H6, H5. auto.
  - left. rewrite H6, H5. auto.
Qed.

(** Rule induction on a run of the per-hit loop. *)
Lemma process_pages_from_rule (page : nat)
    (P : nat -> list ContentFile -> Engine -> list Event ->
         bool -> Engine -> list Event -> Prop) :
  (forall index self tr, P index [] self tr true self tr) ->
  (forall index c rest self tr,
      next_count self = 0 -> 3 < processed_count self ->
      P index (c :: rest) self tr false self
        (tr ++ [EvLog (LogSkipRules (page * per_page + index)
                         (processed_count self))])) ->
  (forall index c rest self tr self1 tr1 ok self' tr',
      run_hit page index c self tr = (self1, tr1) ->
      run_pages_from page (S index) rest self1 tr1 = (ok, self', tr') ->
      P (S index) rest self1 tr1 ok self' tr' ->
      P index (c :: rest) self tr ok self' tr') ->
  forall contents index self tr ok self' tr',
    run_pages_from page index contents self tr = (ok, self', tr') ->
    P index contents self tr ok self' tr'.
Proof.
  intros Hnil Habort Hstep.
  induction contents as [|c rest IH]; intros index self tr ok self' tr' Hrun.
  - simpl in Hrun. injection Hrun as <- <- <-. apply Hnil.
  - simpl in Hrun.
    destruct ((next_count self =? 0) && (3 <? processed_count self)) eqn:Hc.
    + injection Hrun as <- <- <-.
      apply andb_true_iff in Hc. destruct Hc as [Hn Hp].
      apply Nat.eqb_eq in Hn. apply Nat.ltb_lt in Hp. now apply Habort.
    + destruct (run_hit page index c self tr) as [self1 tr1] eqn:Hhit.
      eapply Hstep; eauto.
Qed.

(** Counters against events over a run of the per-hit loop: one call of
    [clone] for every step of [next_count], one skip line for every step of
    [processed_count], at most one step for every hit. *)
Lemma process_pages_from_counts (page : nat) (contents : list ContentFile)
    (index : nat) (self : Engine) (tr : list Event)
    (ok : bool) (self' : Engine) (tr' : list Event) :
  run_pages_from page index contents self tr = (ok, self', tr') ->
  exists evs,
    tr' = tr ++ evs
    /\ List.length (List.filter is_clone evs) + next_count self
       = next_count self'
    /\ List.length (List.filter is_skip_log evs) + processed_count self
       = processed_count self'
    /\ (next_count self' - next_count self)
       + (processed_count self' - processed_count self)
       <= List.length contents
    /\ (mode (rule_object self) <> "mail" -> List.filter is_http evs = [])
    /\ rule_object self' = rule_object self
    /\ hash_list self' = hash_list self.
Proof.
  revert contents index self tr ok self' tr'.
  apply process_pages_from_rule.
  - intros. exists []. rewrite app_nil_r. simpl. repeat split; auto; lia.
  - intros. eexists. split; [reflexivity|]. simpl. repeat split; auto; lia.
  - intros index c rest self tr self1 tr1 ok self' tr' Hhit _
      (evs2 & -> & Hc2 & Hk2 & Hb2 & Hh2 & Hr2 & Hl2).
    pose proof Hhit as Hframe. apply process_hit_cases in Hframe.
    destruct Hframe as (Hl1 & Hr1 & _).
    apply process_hit_events in Hhit.
    destruct Hhit as (evs1 & -> & Hh1 & Hcase).
    exists (evs1 ++ evs2). rewrite <- app_assoc. split; [reflexivity|].
    rewrite !List.filter_app, !length_app. cbn [List.length].
    assert (Hcount : List.length (List.filter is_clone evs1) + next_count self
                     = next_count self1
                     /\ List.length (List.filter is_skip_log evs1)
                        + processed_count self = processed_count self1
                     /\ (next_count self1 - next_count self)
                        + (processed_count self1 - processed_count self) <= 1).
    { destruct Hcase as [(Hn & _ & _ & Hc & [(_ & Hp & ->)|(_ & Hp & Hk)])
                        |(_ & Hn & Hp & Hk & Hc & _)];
        rewrite ?Hc, ?Hk, Hn, Hp; simpl; lia. }
    destruct Hcount as (A1 & A2 & A3).
    split; [lia|]. split; [lia|]. split; [lia|].
    split; [|split; congruence].
    intros Hm. rewrite Hh1 by exact Hm. rewrite Hh2 by congruence. reflexivity.
Qed.

(** The two maps over a run of the per-hit loop that starts with nothing
    at or behind the position of its first hit: they stay disjoint, they
    grow by one entry for every step of [next_count], and nothing is stored
    behind the last hit. *)
Lemma process_pages_from_maps (page : nat) (contents : list ContentFile)
    (index : nat) (self : Engine) (tr : list Event)
    (ok : bool) (self' : Engine) (tr' : list Event) :
  run_pages_from page index contents self tr = (ok, self', tr') ->
  (forall k, page * per_page + index <= k ->
             result self !! k = None /\ exclude_result self !! k = None) ->
  (forall k, result self !! k = None \/ exclude_result self !! k = None) ->
  (forall k, page * per_page + index + List.length contents <= k ->
             result self' !! k = None /\ exclude_result self' !! k = None)
  /\ (forall k, result self' !! k = None \/ exclude_result self' !! k = None)
  /\ size (result self') + size (exclude_result self') + next_count self
     = size (result self) + size (exclude_result self) + next_count self'.
Proof.
  revert contents index self tr ok self' tr'.
  apply (process_pages_from_rule page
           (fun index contents self tr ok self' tr' =>
              (forall k, page * per_page + index <= k ->
                 result self !! k = None /\ exclude_result self !! k = None) ->
              (forall k, result self !! k = None
                         \/ exclude_result self !! k = None) ->
              (forall k, page * per_page + index + List.length contents <= k ->
                 result self' !! k = None /\ exclude_result self' !! k = None)
              /\ (forall k, result self' !! k = None
                            \/ exclude_result self' !! k = None)
              /\ size (result self') + size (exclude_result self')
                 + next_count self
                 = size (result self) + size (exclude_result self)
                   + next_count self')).
  - intros index self tr Hf Hd. split; [|split; [exact Hd|reflexivity]].
    intros k Hk. apply Hf. simpl in Hk. lia.
  - intros index c rest self tr _ _ Hf Hd.
    split; [|split; [exact Hd|reflexivity]].
    intros k Hk. apply Hf. simpl in Hk. lia.
  - intros index c rest self tr self1 tr1 ok self' tr' Hhit _ IH Hf Hd.
    apply process_hit_events in Hhit.
    destruct Hhit as (evs1 & _ & _ & Hcase).
    destruct (Hf (page * per_page + index) ltac:(lia)) as [F1 F2].
    assert (H1 : (forall k, page * per_page + S index <= k ->
                    result self1 !! k = None
                    /\ exclude_result self1 !! k = None)
                 /\ (forall k, result self1 !! k = None
                               \/ exclude_result self1 !! k = None)
                 /\ size (result self1) + size (exclude_result self1)
                    + next_count self
                    = size (result self) + size (exclude_result self)
                      + next_count self1).
    { destruct Hcase as [(Hn & Hr & He & _)
                        |(_ & Hn & _ & _ & _ & text & m & _ & _
                          & [(_ & Hr & He)|(_ & He & Hr)])];
        rewrite Hr, He, Hn.
      - split; [intros k Hk; apply Hf; lia|]. split; [exact Hd|lia].
      - split; [|split].
        + intros k Hk. rewrite lookup_insert_ne by lia. apply Hf. lia.
        + intros k. destruct (decide (k = page * per_page + index)) as [->|N];
            [now right|]. rewrite lookup_insert_ne by congruence. apply Hd.
        + rewrite map_size_insert_None by exact F1. lia.
      - split; [|split].
        + intros k Hk. rewrite lookup_insert_ne by lia. apply Hf. lia.
        + intros k. destruct (decide (k = page * per_page + index)) as [->|N];
            [now left|]. rewrite lookup_insert_ne by congruence. apply Hd.
        + rewrite map_size_insert_None by exact F2. lia. }
    destruct H1 as (G1 & G2 & G3).
    destruct (IH G1 G2) as (I1 & I2 & I3).
    split; [|split; [exact I2|lia]].
    intros k Hk. apply I1. simpl in Hk. lia.
Qed.

Lemma recorded_from_cons page index c contents hashes review k r :
  recorded_from exclude_codes_rules page (S index) contents hashes review k r ->
  recorded_from exclude_codes_rules page index (c :: contents) hashes review k r.
Proof.
  intros (i & c' & text & m & H1 & H2 & H).
  exists (S i), c', text, m. split; [exact H1|]. split; [lia|exact H].
Qed.

Lemma process_pages_from_entries (page : nat) (contents : list ContentFile)
    (index : nat) (self : Engine) (tr : list Event)
    (ok : bool) (self' : Engine) (tr' : list Event) :
  run_pages_from page index contents self tr = (ok, self', tr') ->
  (forall k r, result self' !! k = Some r ->
               result self !! k = Some r
               \/ recorded_from exclude_codes_rules page index contents (hash_list self) false k r)
  /\ (forall k r, exclude_result self' !! k = Some r ->
                  exclude_result self !! k = Some r
                  \/ recorded_from exclude_codes_rules page index contents (hash_list self)
                       true k r).
Proof.
  revert contents index self tr ok self' tr'.
  apply process_pages_from_rule; [auto..|].
  intros index c rest self tr self1 tr1 ok self' tr' Hhit _ [IH1 IH2].
  pose proof Hhit as Hframe. apply process_hit_cases in Hframe.
  destruct Hframe as (Hl1 & _).
  apply process_hit_events in Hhit.
  destruct Hhit as (evs1 & _ & _ & Hcase).
  rewrite Hl1 in IH1, IH2.
  assert (Hhere : forall review text m,
             decoded_content c = Some text -> m <> [] ->
             Py.mem (hit_sha c) (hash_list self) = false ->
             _exclude_codes exclude_codes_rules m = review ->
             recorded_from exclude_codes_rules page index (c :: rest) (hash_list self) review
               (page * per_page + index) (scan_result c text m)).
  { intros review text m Ht Hm Hs He. exists 0, c, text, m.
    repeat split; auto. }
  split; intros k r Hk.
  - destruct (IH1 k r Hk) as [H|H]; [|right; now apply recorded_from_cons].
    destruct Hcase as [(_ & Hr & _)
                      |(Hs & _ & _ & _ & _ & text & m & Ht & Hm
                        & [(Hx & Hr & _)|(_ & _ & Hr)])];
      rewrite Hr in H; auto.
    destruct (decide (k = page * per_page + index)) as [->|N].
    + rewrite lookup_insert_eq in H. injection H as <-. right. eauto.
    + rewrite lookup_insert_ne in H by congruence. auto.
  - destruct (IH2 k r Hk) as [H|H]; [|right; now apply recorded_from_cons].
    destruct Hcase as [(_ & _ & Hr & _)
                      |(Hs & _ & _ & _ & _ & text & m & Ht & Hm
                        & [(_ & _ & Hr)|(Hx & Hr & _)])];
      rewrite Hr in H; auto.
    destruct (decide (k = page * per_page + index)) as [->|N].
    + rewrite lookup_insert_eq in H. injection H as <-. right. eauto.
    + rewrite lookup_insert_ne in H by congruence. auto.
Qed.

Lemma filter_in (f : Event -> bool) (evs : list Event) (e x : Event) :
  List.filter f evs = [x] -> In e evs -> f e = true -> e = x.
Proof.
  intros Hf Hin He.
  assert (H : In e (List.filter f evs)) by (apply filter_In; auto).
  rewrite Hf in H. destruct H as [H|[]]. auto.
Qed.

Lemma filter_in_nil (f : Event -> bool) (evs : list Event) (e : Event) :
  List.filter f evs = [] -> In e evs -> f e = false.
Proof.
  intros Hf Hin. destruct (f e) eqn:He; [|reflexivity].
  assert (H : In e (List.filter f evs)) by (apply filter_In; auto).
  rewrite Hf in H. destruct H.
Qed.

(** Every call of [clone] in a run of the per-hit loop is made for a hit
    of the list that is not in the hash list, with the address of its
    repository and its sha. *)
Lemma process_pages_from_clones (page : nat) (contents : list ContentFile)
    (index : nat) (self : Engine) (tr : list Event)
    (ok : bool) (self' : Engine) (tr' : list Event) :
  run_pages_from page index contents self tr = (ok, self', tr') ->
  exists evs,
    tr' = tr ++ evs
    /\ Forall (fun e => is_clone e = true ->
                 exists c, In c contents
                           /\ e = EvClone (repo_html_url (repository c))
                                  (hit_sha c)
                           /\ Py.mem (hit_sha c) (hash_list self) = false)
         evs.
Proof.
  revert contents index self tr ok self' tr'.
  apply process_pages_from_rule.
  - intros. exists []. rewrite app_nil_r. split; [reflexivity|constructor].
  - intros. eexists. split; [reflexivity|]. repeat constructor. discriminate.
  - intros index c rest self tr self1 tr1 ok self' tr' Hhit _ (evs2 & -> & H2).
    pose proof Hhit as Hframe. apply process_hit_cases in Hframe.
    destruct Hframe as (Hl1 & _).
    apply process_hit_events in Hhit.
    destruct Hhit as (evs1 & -> & _ & Hcase).
    exists (evs1 ++ evs2). rewrite <- app_assoc. split; [reflexivity|].
    apply Forall_app. split.
    + apply List.Forall_forall. intros e Hin He.
      destruct Hcase as [(_ & _ & _ & Hc & _)|(Hs & _ & _ & _ & Hc & _)].
      * rewrite (filter_in_nil _ _ _ Hc Hin) in He. discriminate.
      * exists c. split; [now left|]. split; [|exact Hs].
        exact (filter_in _ _ _ _ Hc Hin He).
    + eapply Forall_impl; [exact H2|]. intros e H He.
      destruct (H He) as (c' & Hin & Heq & Hm). exists c'.
      split; [now right|]. split; [exact Heq|congruence].
Qed.

(** X4.  After one iteration of the page loop no position is in both
    result maps, [next_count] has grown by the number of entries of the two
    maps together, and [processed_count] has not fallen; for a fetched page
    the two counters together have grown by at most the number of hits of
    the page. *)
Theorem page_iteration_accounts
    (resource : Resource) (total page : nat) (self self' : Engine)
    (tr tr' : list Event) (ctl : PageCtl) :
  run_page_iteration resource total page self tr = (ctl, self', tr') ->
  (forall k, result self' !! k = None \/ exclude_result self' !! k = None)
  /\ next_count self'
     = next_count self + size (result self') + size (exclude_result self')
  /\ processed_count self <= processed_count self'
  /\ (forall contents, get_page resource page = inr contents ->
        (next_count self' - next_count self)
        + (processed_count self' - processed_count self)
        <= List.length contents).
Proof.
  unfold page_iteration. intros Hrun.
  destruct (get_page resource page) as [[status data|]|contents] eqn:Hget.
  - injection Hrun as <- <- <-. fields. rewrite !map_size_empty.
    repeat split; auto; try lia; discriminate.
  - injection Hrun as <- <- <-. fields. rewrite !map_size_empty.
    repeat split; auto; try lia; discriminate.
  - unfold process_pages in Hrun.
    match type of Hrun with context [run_pages_from ?p ?i ?c ?s0 ?t] =>
      destruct (run_pages_from p i c s0 t) as [[ok s2] t2] eqn:Hp end.
    assert (Hs : self' = s2) by (destruct ok; simpl in Hrun; congruence).
    subst s2.
    pose proof (process_pages_from_counts _ _ _ _ _ _ _ _ Hp)
      as (evs & _ & Hc & Hk & Hb & _).
    apply process_pages_from_maps in Hp.
    + destruct Hp as (_ & Hd & Hsz). fields. rewrite !map_size_empty in Hsz.
      split; [exact Hd|]. split; [lia|]. split; [lia|].
      intros contents' [= <-]. exact Hb.
    + intros k _. fields. now rewrite !lookup_empty.
    + intros k. fields. left. apply lookup_empty.
Qed.

(** X5.  During one iteration of the page loop [clone] is called once for
    every entry of the two result maps and the skip line of line 97 is
    logged once for every step of [processed_count]; every call of [clone]
    carries the repository address and the sha of a hit of the page that is
    not in the hash list. *)
Theorem clone_once_per_recorded_hit
    (resource : Resource) (total page : nat) (self self' : Engine)
    (tr tr' : list Event) (ctl : PageCtl) :
  run_page_iteration resource total page self tr = (ctl, self', tr') ->
  exists evs,
    tr' = tr ++ evs
    /\ List.length (List.filter is_clone evs)
       = size (result self') + size (exclude_result self')
    /\ List.length (List.filter is_skip_log evs) + processed_count self
       = processed_count self'
    /\ Forall (fun e => is_clone e = true ->
                 exists contents c,
                   get_page resource page = inr contents /\ In c contents
                   /\ e = EvClone (repo_html_url (repository c)) (hit_sha c)
                   /\ Py.mem (hit_sha c) (hash_list self) = false) evs.
Proof.
  intros Hrun. unfold page_iteration in Hrun.
  destruct (get_page resource page) as [[status data|]|contents] eqn:Hget.
  - injection Hrun as <- <- <-. fields. rewrite !map_size_empty.
    eexists. split; [reflexivity|]. repeat split; auto.
    repeat constructor. discriminate.
  - injection Hrun as <- <- <-. fields. rewrite !map_size_empty.
    eexists. rewrite <- app_assoc. split; [reflexivity|]. repeat split; auto.
    repeat constructor; discriminate.
  - unfold process_pages in Hrun.
    match type of Hrun with context [run_pages_from ?p ?i ?c ?s0 ?t] =>
      destruct (run_pages_from p i c s0 t) as [[ok s2] t2] eqn:Hp end.
    pose proof (process_pages_from_counts _ _ _ _ _ _ _ _ Hp)
      as (evs & -> & Hc & Hk & _).
    assert (Hn : next_count s2
                 = next_count self + size (result s2) + size (exclude_result s2)).
    { apply process_pages_from_maps in Hp.
      - destruct Hp as (_ & _ & Hsz). fields.
        rewrite !map_size_empty in Hsz. lia.
      - intros k _. fields. now rewrite !lookup_empty.
      - intros k. fields. left. apply lookup_empty. }
    apply process_pages_from_clones in Hp.
    destruct Hp as (evs' & Heq & Hcl).
    apply app_inv_head in Heq. subst evs'. fields.
    assert (Hall : Forall (fun e => is_clone e = true ->
                     exists contents0 c,
                       (inr contents : Exn + list ContentFile) = inr contents0
                       /\ In c contents0
                       /\ e = EvClone (repo_html_url (repository c)) (hit_sha c)
                       /\ Py.mem (hit_sha c) (hash_list self) = false)
                     evs).
    { eapply Forall_impl; [exact Hcl|]. intros e H He.
      destruct (H He) as (c & H1 & H2 & H3). exists contents, c. auto. }
    destruct ok; cbn [negb] in Hrun; injection Hrun as <- <- <-.
    + exists ([EvGetPage page; EvLog (LogPageData page (List.length contents))]
              ++ evs ++ [EvProcess (result s2) (rule_object s2)]).
      rewrite <- !app_assoc. split; [reflexivity|].
      rewrite !List.filter_app, !length_app. cbn. rewrite !Nat.add_0_r.
      split; [lia|]. split; [lia|].
      repeat first [ exact Hall | apply List.Forall_nil
                   | apply List.Forall_cons; [discriminate|]
                   | apply Forall_app; split ].
    + exists ([EvGetPage page; EvLog (LogPageData page (List.length contents))]
              ++ evs).
      rewrite <- !app_assoc. split; [reflexivity|].
      rewrite !List.filter_app, !length_app. cbn.
      split; [lia|]. split; [lia|].
      repeat first [ exact Hall | apply List.Forall_nil
                   | apply List.Forall_cons; [discriminate|]
                   | apply Forall_app; split ].
Qed.

(** X6.  Every entry that an iteration of the page loop leaves in a result
    map is the dictionary of lines 124-131 of a hit of the fetched page,
    under the position of the hit: address and sha of the hit (both empty
    when reading the sha raised), its fragments, which are not empty, the
    text without [<img], the trimmed repository name and the path.  The hit
    is not in the hash list; it is in the confirmed map when no exclusion
    rule matches its fragments and in the to-review map when one does. *)
Theorem recorded_entries
    (resource : Resource) (total page : nat) (self self' : Engine)
    (tr tr' : list Event) (ctl : PageCtl) (k : nat) (r : ScanResult) :
  run_page_iteration resource total page self tr = (ctl, self', tr') ->
  (result self' !! k = Some r ->
   exists contents,
     get_page resource page = inr contents
     /\ recorded_from exclude_codes_rules page 0 contents (hash_list self)
          false k r)
  /\ (exclude_result self' !! k = Some r ->
      exists contents,
        get_page resource page = inr contents
        /\ recorded_from exclude_codes_rules page 0 contents (hash_list self)
             true k r).
Proof.
  unfold page_iteration. intros Hrun.
  destruct (get_page resource page) as [[status data|]|contents] eqn:Hget.
  - injection Hrun as <- <- <-. fields. rewrite !lookup_empty.
    split; discriminate.
  - injection Hrun as <- <- <-. fields. rewrite !lookup_empty.
    split; discriminate.
  - unfold process_pages in Hrun.
    match type of Hrun with context [run_pages_from ?p ?i ?c ?s0 ?t] =>
      destruct (run_pages_from p i c s0 t) as [[ok s2] t2] eqn:Hp end.
    assert (Hs : self' = s2) by (destruct ok; simpl in Hrun; congruence).
    subst s2. apply process_pages_from_entries in Hp.
    destruct Hp as [H1 H2]. fields.
    split; intros Hk; exists contents; (split; [reflexivity|]).
    + destruct (H1 k r Hk) as [H|H]; [|exact H].
      rewrite lookup_empty in H. discriminate.
    + destruct (H2 k r Hk) as [H|H]; [|exact H].
      rewrite lookup_empty in H. discriminate.
Qed.

End MorePipelineProperties.

(** * Further properties of [search] *)

Section SearchProperties.

Variable public_mail_services : list string.
Variable exclude_repository_rules : list (string -> bool).
Variable exclude_codes_rules : list (string -> bool).
Variable get_tld : string -> option string.
Variable iptype : string -> string.
Variable requests_get : list Event -> string -> HttpResult.
Variable soup_title : string -> SoupTitle.

Local Abbreviation run_codes :=
  (codes public_mail_services get_tld iptype requests_get soup_title).
Local Abbreviation run_hit :=
  (process_hit public_mail_services exclude_repository_rules
     exclude_codes_rules get_tld iptype requests_get soup_title).
Local Abbreviation run_pages_from :=
  (process_pages_from public_mail_services exclude_repository_rules
     exclude_codes_rules get_tld iptype requests_get soup_title).
Local Abbreviation run_pages :=
  (process_pages public_mail_services exclude_repository_rules
     exclude_codes_rules get_tld iptype requests_get soup_title).
Local Abbreviation run_page_iteration :=
  (page_iteration public_mail_services exclude_repository_rules
     exclude_codes_rules get_tld iptype requests_get soup_title).
Local Abbreviation run_page_loop :=
  (page_loop public_mail_services exclude_repository_rules
     exclude_codes_rules get_tld iptype requests_get soup_title).
Local Abbreviation run_search :=
  (search public_mail_services exclude_repository_rules
     exclude_codes_rules get_tld iptype requests_get soup_title).

Lemma inside_hit_filters (evs : list Event) :
  Forall (fun e => inside_hit e = true) evs ->
  List.filter is_abort evs = [] /\ List.filter is_get_page evs = []
  /\ List.filter is_process evs = [].
Proof.
  induction 1 as [|e evs He _ (IH1 & IH2 & IH3)]; [auto|].
  cbn [List.filter]. rewrite IH1, IH2, IH3.
  destruct e as [| | | |[]]; try discriminate; auto.
Qed.

(** The token is never assigned behind [__init__]. *)
Lemma codes_token (self : Engine) (tr : list Event) :
  token (snd (fst (run_codes self tr))) = token self.
Proof.
  destruct (codes_frame public_mail_services get_tld iptype requests_get
              soup_title self tr) as (m & evs & -> & _).
  reflexivity.
Qed.

Lemma process_hit_token (page index : nat) (c : ContentFile)
    (self : Engine) (tr : list Event) :
  token (fst (run_hit page index c self tr)) = token self.
Proof.
  unfold process_hit.
  set (s1 := match content_sha c with
             | Some s => set_sha s _ | None => _ end).
  assert (Hs1 : token s1 = token self)
    by (subst s1; destruct (content_sha c); reflexivity).
  clearbody s1.
  destruct (Py.mem _ _); [exact Hs1|].
  destruct (_exclude_repository _ _); [exact Hs1|].
  destruct (decoded_content c) as [text|]; [|exact Hs1].
  match goal with |- context [run_codes ?s ?t] =>
    pose proof (codes_token s t) as Hc;
    destruct (run_codes s t) as [[m s2] t2] end.
  cbn [fst snd] in Hc. fields.
  destruct (List.length m =? 0); [fields; congruence|].
  destruct (_exclude_codes _ _); fields; congruence.
Qed.

Lemma process_pages_from_token (page : nat) (contents : list ContentFile)
    (index : nat) (self : Engine) (tr : list Event)
    (ok : bool) (self' : Engine) (tr' : list Event) :
  run_pages_from page index contents self tr = (ok, self', tr') ->
  token self' = token self.
Proof.
  revert contents index self tr ok self' tr'.
  apply process_pages_from_rule; [reflexivity|reflexivity|].
  intros index c rest self tr self1 tr1 ok self' tr' Hhit _ ->.
  pose proof (process_hit_token page index c self tr) as H.
  rewrite Hhit in H. exact H.
Qed.

(** The abort line over a run of the per-hit loop: it is logged when the
    loop returns [false], as the last event, with the value that
    [processed_count] has then, which exceeds 3. *)
Lemma process_pages_from_abort (page : nat) (contents : list ContentFile)
    (index : nat) (self : Engine) (tr : list Event)
    (ok : bool) (self' : Engine) (tr' : list Event) :
  run_pages_from page index contents self tr = (ok, self', tr') ->
  exists evs,
    tr' = tr ++ evs
    /\ List.filter is_get_page evs = []
    /\ List.filter is_process evs = []
    /\ (ok = true -> List.filter is_abort evs = [])
    /\ (ok = false ->
        next_count self' = 0 /\ 3 < processed_count self'
        /\ exists i, List.filter is_abort evs
                     = [EvLog (LogSkipRules i (processed_count self'))]).
Proof.
  revert contents index self tr ok self' tr'.
  apply process_pages_from_rule.
  - intros. exists []. rewrite app_nil_r. repeat split; auto; discriminate.
  - intros index c rest self tr Hn Hp. eexists. split; [reflexivity|].
    cbn. repeat split; auto; try discriminate. eauto.
  - intros index c rest self tr self1 tr1 ok self' tr' Hhit _
      (evs2 & -> & G2 & P2 & T2 & F2).
    apply process_hit_cases in Hhit.
    destruct Hhit as (_ & _ & (evs1 & -> & Hin) & _).
    apply inside_hit_filters in Hin. destruct Hin as (A1 & G1 & P1).
    exists (evs1 ++ evs2). rewrite <- app_assoc. split; [reflexivity|].
    rewrite !List.filter_app, A1, G1, P1, G2, P2. cbn [app].
    repeat split; auto; apply F2; auto.
Qed.

(** One iteration of the page loop. *)
Lemma page_iteration_cases
    (resource : Resource) (total page : nat) (self self' : Engine)
    (tr tr' : list Event) (ctl : PageCtl) :
  run_page_iteration resource total page self tr = (ctl, self', tr') ->
  token self' = token self
  /\ rule_object self' = rule_object self
  /\ hash_list self' = hash_list self
  /\ exists evs,
       tr' = tr ++ EvGetPage page :: evs
       /\ List.filter is_get_page evs = []
       /\ List.length (List.filter is_clone evs) + next_count self
          = next_count self'
       /\ List.length (List.filter is_skip_log evs) + processed_count self
          = processed_count self'
       /\ (mode (rule_object self) <> "mail" -> List.filter is_http evs = [])
       /\ size (result self') + next_count self <= next_count self'
       /\ match ctl with
          | Continue =>
              List.filter is_abort evs = []
              /\ (List.filter is_process evs = []
                  \/ List.filter is_process evs
                     = [EvProcess (result self') (rule_object self')])
          | Break =>
              next_count self' = 0 /\ 3 < processed_count self'
              /\ List.filter is_process evs = []
              /\ exists i, List.filter is_abort evs
                           = [EvLog (LogSkipRules i (processed_count self'))]
          | ReturnFalse msg =>
              evs = []
              /\ exists status data,
                   get_page resource page = inl (GithubException status data)
                   /\ msg = exception_msg self "get_page" status data
          end.
Proof.
  unfold page_iteration. intros Hrun.
  destruct (get_page resource page) as [[status data|]|contents] eqn:Hget.
  - injection Hrun as <- <- <-. fields.
    split; [reflexivity|]. split; [reflexivity|]. split; [reflexivity|].
    exists []. rewrite map_size_empty. cbn.
    repeat split; auto; try lia. eauto.
  - injection Hrun as <- <- <-. fields.
    split; [reflexivity|]. split; [reflexivity|]. split; [reflexivity|].
    exists [EvLog LogPageTimeout]. rewrite <- app_assoc, map_size_empty. cbn.
    repeat split; auto; lia.
  - unfold process_pages in Hrun.
    match type of Hrun with context [run_pages_from ?p ?i ?c ?s0 ?t] =>
      destruct (run_pages_from p i c s0 t) as [[ok s2] t2] eqn:Hp end.
    pose proof (process_pages_from_token _ _ _ _ _ _ _ _ Hp) as Htok.
    pose proof (process_pages_from_counts public_mail_services
                  exclude_repository_rules exclude_codes_rules get_tld iptype
                  requests_get soup_title _ _ _ _ _ _ _ _ Hp)
      as (evs & -> & Hc & Hk & _ & Hh & Hr & Hl).
    pose proof (process_pages_from_abort _ _ _ _ _ _ _ _ Hp)
      as (evs' & Heq & G & P & T & F).
    apply app_inv_head in Heq. subst evs'.
    assert (Hsz : size (result s2) + next_count self <= next_count s2).
    { apply process_pages_from_maps in Hp.
      - destruct Hp as (_ & _ & Hsz). fields.
        rewrite !map_size_empty in Hsz. lia.
      - intros k _. fields. now rewrite !lookup_empty.
      - intros k. fields. left. apply lookup_empty. }
    fields.
    destruct ok; cbn [negb] in Hrun; injection Hrun as <- <- <-;
      (split; [exact Htok|]); (split; [exact Hr|]); (split; [exact Hl|]).
    + exists ([EvLog (LogPageData page (List.length contents))]
              ++ evs ++ [EvProcess (result s2) (rule_object s2)]).
      rewrite <- !app_assoc. split; [reflexivity|].
      rewrite !List.filter_app, !length_app, G, T by reflexivity.
      cbn. rewrite !Nat.add_0_r, P.
      repeat split; auto.
      intros Hm. rewrite Hh by exact Hm. reflexivity.
    + exists ([EvLog (LogPageData page (List.length contents))] ++ evs).
      rewrite <- !app_assoc. split; [reflexivity|].
      rewrite !List.filter_app, !length_app, G, P.
      cbn. destruct (F eq_refl) as (F1 & F2 & F3).
      repeat split; auto.
Qed.

(** Rule induction on a run of the page loop. *)
Lemma page_loop_rule (resource : Resource) (total : nat)
    (P : list nat -> Engine -> list Event ->
         Outcome -> Engine -> list Event -> Prop) :
  (forall self tr,
      P [] self tr
        (Return true (rule_object self) (SumCount (size (result self))))
        self (tr ++ [EvLog LogRuleDone])) ->
  (forall page rest self tr self1 tr1 out self' tr',
      run_page_iteration resource total page self tr = (Continue, self1, tr1) ->
      run_page_loop resource total rest self1 tr1 = (out, self', tr') ->
      P rest self1 tr1 out self' tr' ->
      P (page :: rest) self tr out self' tr') ->
  (forall page rest self tr self1 tr1,
      run_page_iteration resource total page self tr = (Break, self1, tr1) ->
      P (page :: rest) self tr
        (Return true (rule_object self1) (SumCount (size (result self1))))
        self1 (tr1 ++ [EvLog LogRuleDone])) ->
  (forall page rest self tr msg self1 tr1,
      run_page_iteration resource total page self tr
      = (ReturnFalse msg, self1, tr1) ->
      P (page :: rest) self tr
        (Return false (rule_object self1) (SumMsg msg)) self1 tr1) ->
  forall pages self tr out self' tr',
    run_page_loop resource total pages self tr = (out, self', tr') ->
    P pages self tr out self' tr'.
Proof.
  intros Hnil Hcont Hbreak Hret.
  induction pages as [|page rest IH]; intros self tr out self' tr' Hrun.
  - simpl in Hrun. unfold finish in Hrun. injection Hrun as <- <- <-.
    apply Hnil.
  - simpl in Hrun.
    destruct (run_page_iteration resource total page self tr)
      as [[[| |msg] self1] tr1] eqn:Hit.
    + eapply Hcont; eauto.
    + unfold finish in Hrun. injection Hrun as <- <- <-. eapply Hbreak; eauto.
    + injection Hrun as <- <- <-. eapply Hret; eauto.
Qed.

(** What a run of the page loop does to the counters and to the trace. *)
Lemma page_loop_run (resource : Resource) (total : nat) (pages : list nat)
    (self : Engine) (tr : list Event)
    (out : Outcome) (self' : Engine) (tr' : list Event) :
  run_page_loop resource total pages self tr = (out, self', tr') ->
  token self' = token self
  /\ rule_object self' = rule_object self
  /\ exists evs,
       tr' = tr ++ evs
       /\ List.length (List.filter is_clone evs) + next_count self
          = next_count self'
       /\ List.length (List.filter is_skip_log evs) + processed_count self
          = processed_count self'
       /\ (mode (rule_object self) <> "mail" -> List.filter is_http evs = [])
       /\ (exists k, k <= List.length pages
                     /\ List.filter is_get_page evs
                        = map EvGetPage (firstn k pages)
                     /\ List.length (List.filter is_process evs) <= k)
       /\ (exists ok summary,
              out = Return ok (rule_object self) summary
              /\ match summary with
                 | SumCount n => ok = true /\ n = size (result self')
                                 /\ ((pages = [] /\ self' = self)
                                     \/ n + next_count self
                                        <= next_count self')
                 | SumMsg _ => ok = false
                 | SumExn _ => False
                 end).
Proof.
  revert pages self tr out self' tr'. apply page_loop_rule.
  - intros self tr. split; [reflexivity|]. split; [reflexivity|].
    exists [EvLog LogRuleDone]. cbn.
    repeat split; auto.
    + exists 0. cbn. auto.
    + do 2 eexists. split; [reflexivity|]. cbn. auto.
  - intros page rest self tr self1 tr1 out self' tr' Hit _
      (Ht & Hr & evs2 & -> & C2 & K2 & H2 & (k & Hk & G2 & P2)
       & (ok & summary & -> & Hsum)).
    apply page_iteration_cases in Hit.
    destruct Hit as (Ht1 & Hr1 & _ & evs1 & -> & G1 & C1 & K1 & H1 & S1
                     & A1 & P1).
    split; [congruence|]. split; [congruence|].
    exists (EvGetPage page :: evs1 ++ evs2).
    rewrite <- app_assoc. split; [reflexivity|].
    cbn [List.filter is_clone is_skip_log is_http is_get_page is_process].
    rewrite !List.filter_app, !length_app, G1, G2. cbn [app].
    split; [lia|]. split; [lia|].
    split; [intros Hm; rewrite H1, H2 by congruence; reflexivity|].
    split.
    + exists (S k). cbn [List.length firstn map]. split; [lia|].
      split; [reflexivity|].
      destruct P1 as [-> | ->]; cbn [List.length]; lia.
    + exists ok, summary. rewrite Hr1. split; [reflexivity|].
      destruct summary as [msg|e|n]; auto.
      destruct Hsum as (Hok & Hn & Hle). repeat split; auto.
      right. destruct Hle as [[_ ->] | Hle]; lia.
  - intros page rest self tr self1 tr1 Hit.
    apply page_iteration_cases in Hit.
    destruct Hit as (Ht1 & Hr1 & _ & evs1 & -> & G1 & C1 & K1 & H1 & S1
                     & N1 & _ & P1 & _).
    split; [exact Ht1|]. split; [exact Hr1|].
    exists (EvGetPage page :: evs1 ++ [EvLog LogRuleDone]).
    rewrite <- app_assoc. split; [reflexivity|].
    cbn [List.filter is_clone is_skip_log is_http is_get_page is_process].
    rewrite !List.filter_app, !length_app, G1, P1. cbn.
    rewrite !Nat.add_0_r, !app_nil_r.
    split; [lia|]. split; [lia|]. split; [exact H1|].
    split.
    + exists 1. cbn. split; [lia|]. auto.
    + do 2 eexists. rewrite Hr1. split; [reflexivity|]. cbn. auto.
  - intros page rest self tr msg self1 tr1 Hit.
    apply page_iteration_cases in Hit.
    destruct Hit as (Ht1 & Hr1 & _ & evs1 & -> & G1 & C1 & K1 & H1 & S1
                     & -> & _).
    split; [exact Ht1|]. split; [exact Hr1|].
    exists [EvGetPage page]. split; [reflexivity|]. cbn in *.
    split; [lia|]. split; [lia|]. split; [reflexivity|].
    split.
    + exists 1. cbn. split; [lia|]. auto.
    + do 2 eexists. rewrite Hr1. split; [reflexivity|]. cbn. auto.
Qed.

(** The abort line over a run of the page loop. *)
Lemma page_loop_abort (resource : Resource) (total : nat) (pages : list nat)
    (self : Engine) (tr : list Event)
    (out : Outcome) (self' : Engine) (tr' : list Event) :
  run_page_loop resource total pages self tr = (out, self', tr') ->
  exists evs,
    tr' = tr ++ evs
    /\ (next_count self' = 0 ->
        forall m r, In (EvProcess m r) (List.filter is_process evs) -> m = ∅)
    /\ (List.filter is_abort evs = []
        \/ (next_count self' = 0 /\ 3 < processed_count self'
            /\ (exists i, List.filter is_abort evs
                          = [EvLog (LogSkipRules i (processed_count self'))])
            /\ out = Return true (rule_object self) (SumCount 0))).
Proof.
  revert pages self tr out self' tr'. apply page_loop_rule.
  - intros self tr. exists [EvLog LogRuleDone]. cbn.
    split; [reflexivity|]. split; [intros _ m r []|auto].
  - intros page rest self tr self1 tr1 out self' tr' Hit Hrest
      (evs2 & -> & F2 & A2).
    apply page_loop_run in Hrest.
    destruct Hrest as (_ & _ & evs2' & Heq & C2 & _).
    apply app_inv_head in Heq. subst evs2'.
    apply page_iteration_cases in Hit.
    destruct Hit as (_ & Hr1 & _ & evs1 & -> & G1 & C1 & K1 & H1 & S1
                     & A1 & P1).
    exists (EvGetPage page :: evs1 ++ evs2).
    rewrite <- app_assoc. split; [reflexivity|].
    cbn [List.filter is_abort is_process].
    rewrite !List.filter_app, A1. cbn [app]. split.
    + intros Hn m r Hin. apply in_app_or in Hin. destruct Hin as [Hin|Hin].
      * destruct P1 as [P1|P1]; rewrite P1 in Hin; [destruct Hin|].
        destruct Hin as [[= <- _]|[]].
        apply map_size_empty_inv. lia.
      * eapply F2; eauto.
    + rewrite <- Hr1. exact A2.
  - intros page rest self tr self1 tr1 Hit.
    apply page_iteration_cases in Hit.
    destruct Hit as (_ & Hr1 & _ & evs1 & -> & G1 & C1 & K1 & H1 & S1
                     & N1 & T1 & P1 & i & A1).
    exists (EvGetPage page :: evs1 ++ [EvLog LogRuleDone]).
    rewrite <- app_assoc. split; [reflexivity|].
    cbn [List.filter is_abort is_process].
    rewrite !List.filter_app, P1, A1. cbn. split.
    + intros _ m r [].
    + right. split; [exact N1|]. split; [exact T1|]. split; [eauto|].
      rewrite Hr1. do 2 f_equal. lia.
  - intros page rest self tr msg self1 tr1 Hit.
    apply page_iteration_cases in Hit.
    destruct Hit as (_ & Hr1 & _ & evs1 & -> & _ & _ & _ & _ & _ & -> & _).
    exists [EvGetPage page]. cbn.
    split; [reflexivity|]. split; [intros _ m r []|auto].
Qed.

Lemma firstn_seq0 (k n : nat) :
  k <= n -> firstn k (seq 0 n) = seq 0 k.
Proof.
  intros H. rewrite take_seq. f_equal. lia.
Qed.

(** What [search] does before the page loop. *)
Lemma search_cases (g : Github) (config_hash_list : list string)
    (rule : RuleObject) (self : Engine) (tr : list Event) :
  let self0 := set_next_count 0
                 (set_processed_count 0 (set_rule_object rule self)) in
  (exists e,
      (rate_limiting g = inl e
       \/ rate_limiting_resettime g = inl e
       \/ search_code g (search_keyword rule) = inl e)
      /\ run_search g config_hash_list rule self tr
         = search_failed self0 e tr)
  \/ (exists resource,
         search_code g (search_keyword rule) = inr resource
         /\ ((totalCount resource = inl SocketTimeout
              /\ run_search g config_hash_list rule self tr
                 = (Return false rule (SumExn SocketTimeout), self0, tr))
             \/ (exists status data,
                    totalCount resource = inl (GithubException status data)
                    /\ run_search g config_hash_list rule self tr
                       = (Return false rule
                            (SumMsg (exception_msg self0 "search_code"
                                       status data)), self0, tr))
             \/ (exists total,
                    totalCount resource = inr total
                    /\ run_search g config_hash_list rule self tr
                       = run_page_loop resource total
                           (seq 0 (if total <? per_page then 1
                                   else default_pages))
                           (set_hash_list config_hash_list self0) tr))).
Proof.
  intros self0. unfold search. fold self0.
  destruct (rate_limiting g) as [e|rl]; [left; eauto|].
  destruct (rate_limiting_resettime g) as [e|rt]; [left; eauto|].
  destruct (search_code g (search_keyword rule)) as [e|resource];
    [left; eauto|].
  right. exists resource. split; [reflexivity|].
  destruct (totalCount resource) as [[status data|]|total]; eauto 10.
Qed.

(** X7.  For a rule whose mode is not [mail], [search] makes no HTTP
    request, whatever the client answers. *)
Theorem non_mail_rule_makes_no_request
    (g : Github) (config_hash_list : list string) (rule : RuleObject)
    (self : Engine) (tr : list Event) :
  mode rule <> "mail" ->
  exists evs,
    snd (run_search g config_hash_list rule self tr) = tr ++ evs
    /\ List.filter is_http evs = [].
Proof.
  intros Hm.
  destruct (search_cases g config_hash_list rule self tr)
    as [(e & _ & ->)|(resource & _ & [(_ & ->)|[(st & d & _ & ->)
                                               |(total & _ & ->)]])].
  - exists []. rewrite app_nil_r. destruct e; auto.
  - exists []. rewrite app_nil_r. auto.
  - exists []. rewrite app_nil_r. auto.
  - match goal with |- context [run_page_loop ?r ?n ?p ?s ?t] =>
      destruct (run_page_loop r n p s t) as [[out self'] tr'] eqn:Hrun end.
    apply page_loop_run in Hrun.
    destruct Hrun as (_ & _ & evs & -> & _ & _ & H & _).
    exists evs. split; [reflexivity|]. apply H. exact Hm.
Qed.

(** X8.  [search] fetches the pages 0, 1, ... in this order and without a
    gap: at most [default_pages] of them, at most one when the total is
    below [per_page]; [Process] is called at most once for every page
    fetched. *)
Theorem search_fetches_pages_in_order
    (g : Github) (config_hash_list : list string) (rule : RuleObject)
    (self : Engine) (tr : list Event) :
  exists evs k,
    snd (run_search g config_hash_list rule self tr) = tr ++ evs
    /\ List.filter is_get_page evs = map EvGetPage (seq 0 k)
    /\ k <= default_pages
    /\ List.length (List.filter is_process evs) <= k
    /\ (forall resource total,
           search_code g (search_keyword rule) = inr resource ->
           totalCount resource = inr total ->
           total < per_page -> k <= 1).
Proof.
  destruct (search_cases g config_hash_list rule self tr)
    as [(e & _ & ->)|(resource & Hres & [(_ & ->)|[(st & d & _ & ->)
                                                  |(total & Htot & ->)]])].
  - exists [], 0. rewrite app_nil_r. cbn.
    repeat split; auto; try lia. destruct e; auto.
  - exists [], 0. rewrite app_nil_r. cbn. repeat split; auto; lia.
  - exists [], 0. rewrite app_nil_r. cbn. repeat split; auto; lia.
  - match goal with |- context [run_page_loop ?r ?n ?p ?s ?t] =>
      destruct (run_page_loop r n p s t) as [[out self'] tr'] eqn:Hrun end.
    apply page_loop_run in Hrun.
    destruct Hrun as (_ & _ & evs & -> & _ & _ & _ & (k & Hk & G & P) & _).
    rewrite length_seq in Hk. rewrite firstn_seq0 in G by exact Hk.
    exists evs, k. split; [reflexivity|]. split; [exact G|].
    split; [destruct (total <? per_page); unfold default_pages in *; lia|].
    split; [exact P|].
    intros resource' total' Hres' Htot' Hlt.
    rewrite Hres in Hres'. injection Hres' as <-.
    rewrite Htot in Htot'. injection Htot' as <-.
    apply Nat.ltb_lt in Hlt. rewrite Hlt in Hk. exact Hk.
Qed.

(** X9.  When the client answers the first calls and every page times out,
    [search] fetches all its pages, logs the timeout for each, calls
    neither [Process] nor [clone], and returns [(True, rule, 0)]. *)
Theorem search_when_every_page_times_out
    (g : Github) (config_hash_list : list string) (rule : RuleObject)
    (self : Engine) (tr : list Event)
    (rl : nat * nat) (rt : nat) (resource : Resource) (total : nat) :
  rate_limiting g = inr rl ->
  rate_limiting_resettime g = inr rt ->
  search_code g (search_keyword rule) = inr resource ->
  totalCount resource = inr total ->
  (forall page, page < default_pages ->
                get_page resource page = inl SocketTimeout) ->
  run_search g config_hash_list rule self tr
  = (Return true rule (SumCount 0),
     set_exclude_result ∅
       (set_result ∅
          (set_hash_list config_hash_list
             (set_next_count 0
                (set_processed_count 0 (set_rule_object rule self))))),
     tr ++ timeouts (seq 0 (if total <? per_page then 1 else default_pages))
        ++ [EvLog LogRuleDone]).
Proof.
  intros Hrl Hrt Hres Htot Hpages.
  unfold search. rewrite Hrl, Hrt, Hres, Htot.
  assert (H0 : get_page resource 0 = inl SocketTimeout)
    by (apply Hpages; unfold default_pages; lia).
  assert (H1 : get_page resource 1 = inl SocketTimeout)
    by (apply Hpages; unfold default_pages; lia).
  assert (H2 : get_page resource 2 = inl SocketTimeout)
    by (apply Hpages; unfold default_pages; lia).
  assert (H3 : get_page resource 3 = inl SocketTimeout)
    by (apply Hpages; unfold default_pages; lia).
  destruct (total <? per_page); cbn [seq default_pages page_loop];
    unfold page_iteration; rewrite ?H0, ?H1, ?H2, ?H3; unfold finish; fields;
    rewrite map_size_empty; cbn [timeouts flat_map app];
    rewrite <- ?app_assoc; reflexivity.
Qed.

(** X10.  What [search] returns.  The token is left as it was and the rule
    of the engine is the rule given.  When [search] returns a tuple, its
    second component is the rule given and its third is a count exactly
    when the first is [True]: the size of the confirmed map the engine
    holds at the end; a [False] carries a message, or the socket timeout of
    [totalCount], and then no call was made.  A socket timeout of
    [rate_limiting], of [rate_limiting_resettime] or of [search_code], the
    calls before it having answered, is not caught by the handler of line
    185: it leaves [search] before any event. *)
Theorem search_outcome_shape
    (g : Github) (config_hash_list : list string) (rule : RuleObject)
    (self self' : Engine) (tr tr' : list Event) (out : Outcome) :
  run_search g config_hash_list rule self tr = (out, self', tr') ->
  token self' = token self
  /\ rule_object self' = rule
  /\ (forall ok r summary,
         out = Return ok r summary ->
         r = rule
         /\ match summary with
            | SumCount n => ok = true /\ n = size (result self')
            | SumMsg _ => ok = false
            | SumExn e => ok = false /\ e = SocketTimeout /\ tr' = tr
            end)
  /\ (rate_limiting g = inl SocketTimeout
      \/ (exists rl, rate_limiting g = inr rl
                     /\ rate_limiting_resettime g = inl SocketTimeout)
      \/ (exists rl rt, rate_limiting g = inr rl
                        /\ rate_limiting_resettime g = inr rt
                        /\ search_code g (search_keyword rule)
                           = inl SocketTimeout) ->
      out = Raise SocketTimeout /\ tr' = tr).
Proof.
  intros Hrun.
  assert (Hshape : token self' = token self
    /\ rule_object self' = rule
    /\ (forall ok r summary,
         out = Return ok r summary ->
         r = rule
         /\ match summary with
            | SumCount n => ok = true /\ n = size (result self')
            | SumMsg _ => ok = false
            | SumExn e => ok = false /\ e = SocketTimeout /\ tr' = tr
            end)).
  { revert Hrun.
    destruct (search_cases g config_hash_list rule self tr)
      as [(e & He & ->)|(resource & Hres & [(_ & ->)|[(st & d & _ & ->)
                                                     |(total & Htot & ->)]])].
    - destruct e as [status data|]; cbn; intros [= <- <- <-]; fields;
        (split; [reflexivity|]); (split; [reflexivity|]);
        intros ok r summary [= <- <- <-] || intros ok r summary [=]; auto.
    - intros [= <- <- <-]. fields. split; [reflexivity|].
      split; [reflexivity|]. intros ok r summary [= <- <- <-]. auto.
    - intros [= <- <- <-]. fields. split; [reflexivity|].
      split; [reflexivity|]. intros ok r summary [= <- <- <-]. auto.
    - intros Hrun.
      apply page_loop_run in Hrun.
      destruct Hrun as (Ht & Hr & evs & -> & _ & _ & _ & _
                        & (ok & summary & -> & Hsum)).
      fields. split; [exact Ht|]. split; [exact Hr|].
      intros ok' r summary' [= <- <- <-]. split; [reflexivity|].
      destruct summary as [msg|e|n]; [exact Hsum|destruct Hsum|].
      destruct Hsum as (-> & -> & _). auto. }
  destruct Hshape as (H1 & H2 & H3).
  split; [exact H1|]. split; [exact H2|]. split; [exact H3|].
  unfold search in Hrun.
  intros [E|[(rl & E1 & E2)|(rl & rt & E1 & E2 & E3)]].
  - rewrite E in Hrun. injection Hrun as <- _ <-. auto.
  - rewrite E1, E2 in Hrun. injection Hrun as <- _ <-. auto.
  - rewrite E1, E2, E3 in Hrun. injection Hrun as <- _ <-. auto.
Qed.

(** X11.  When the abort line of line 80 is logged during [search], it
    carries the value of [processed_count], which exceeds 3 and is the
    number of skip lines of the search; no hit of the rule was recorded:
    [clone] was not called, every [Process] call of the search was handed
    an empty map, and [search] returns [(True, rule, 0)]. *)
Theorem abort_means_nothing_recorded
    (g : Github) (config_hash_list : list string) (rule : RuleObject)
    (self self' : Engine) (tr evs : list Event) (out : Outcome) (i n : nat) :
  run_search g config_hash_list rule self tr = (out, self', tr ++ evs) ->
  In (EvLog (LogSkipRules i n)) evs ->
  out = Return true rule (SumCount 0)
  /\ n = processed_count self' /\ 3 < n
  /\ n = List.length (List.filter is_skip_log evs)
  /\ List.filter is_clone evs = []
  /\ (forall m r, In (EvProcess m r) evs -> m = ∅).
Proof.
  destruct (search_cases g config_hash_list rule self tr)
    as [(e & He & ->)|(resource & Hres & [(_ & ->)|[(st & d & _ & ->)
                                                   |(total & Htot & ->)]])].
  - destruct e; cbn; intros [= _ _ Heq];
      rewrite <- (app_nil_r tr) in Heq at 1; apply app_inv_head in Heq;
      subst evs; intros [].
  - intros [= _ _ Heq].
    rewrite <- (app_nil_r tr) in Heq at 1; apply app_inv_head in Heq.
    subst evs. intros [].
  - intros [= _ _ Heq].
    rewrite <- (app_nil_r tr) in Heq at 1; apply app_inv_head in Heq.
    subst evs. intros [].
  - intros Hrun Hin.
    pose proof (page_loop_run _ _ _ _ _ _ _ _ Hrun)
      as (_ & _ & evs1 & Heq & C & K & _).
    apply app_inv_head in Heq. subst evs1.
    apply page_loop_abort in Hrun.
    destruct Hrun as (evs1 & Heq & F & A).
    apply app_inv_head in Heq. subst evs1. fields.
    assert (Hf : In (EvLog (LogSkipRules i n)) (List.filter is_abort evs))
      by (apply filter_In; auto).
    destruct A as [A|(N & T & (j & A) & ->)]; [rewrite A in Hf; destruct Hf|].
    rewrite A in Hf. destruct Hf as [[= <- <-]|[]].
    split; [reflexivity|]. split; [reflexivity|]. split; [exact T|].
    split; [lia|].
    split; [apply length_zero_iff_nil; lia|].
    intros m r Hm. apply (F N m r). apply filter_In. auto.
Qed.

(** X13.  At the end of [search], [next_count] is the number of [clone]
    calls of the search and [processed_count] the number of its skip
    lines; the count that [search] returns is at most the number of
    [clone] calls. *)
Theorem search_counters_count_events
    (g : Github) (config_hash_list : list string) (rule : RuleObject)
    (self self' : Engine) (tr tr' : list Event) (out : Outcome) :
  run_search g config_hash_list rule self tr = (out, self', tr') ->
  exists evs,
    tr' = tr ++ evs
    /\ next_count self' = List.length (List.filter is_clone evs)
    /\ processed_count self' = List.length (List.filter is_skip_log evs)
    /\ (forall ok r n, out = Return ok r (SumCount n) ->
                       n <= List.length (List.filter is_clone evs)).
Proof.
  destruct (search_cases g config_hash_list rule self tr)
    as [(e & He & ->)|(resource & Hres & [(_ & ->)|[(st & d & _ & ->)
                                                   |(total & Htot & ->)]])].
  - destruct e; cbn; intros [= <- <- <-]; exists []; rewrite app_nil_r;
      fields; repeat split; auto; discriminate.
  - intros [= <- <- <-]. exists []. rewrite app_nil_r.
    fields. repeat split; auto; discriminate.
  - intros [= <- <- <-]. exists []. rewrite app_nil_r.
    fields. repeat split; auto; discriminate.
  - intros Hrun. apply page_loop_run in Hrun.
    destruct Hrun as (_ & _ & evs & -> & C & K & _ & _
                      & (ok & summary & -> & Hsum)).
    fields. exists evs. split; [reflexivity|]. split; [lia|]. split; [lia|].
    intros ok' r n [= _ _ ->]. destruct Hsum as (_ & _ & [[Hs _]|Hle]); [|lia].
    destruct (total <? per_page); discriminate.
Qed.

(** Two engines that agree on the fields of [same_inputs] go through a
    hit alike. *)
Lemma process_hit_same (page index : nat) (c : ContentFile)
    (a b : Engine) (tr : list Event) :
  same_inputs a b ->
  same_inputs (fst (run_hit page index c a tr))
    (fst (run_hit page index c b tr))
  /\ snd (run_hit page index c a tr) = snd (run_hit page index c b tr).
Proof.
  destruct a, b. unfold same_inputs. fields.
  intros (-> & -> & -> & -> & -> & -> & ->).
  unfold process_hit.
  destruct (content_sha c); fields.
  - destruct (Py.mem _ _); fields; [auto 10|].
    unfold _exclude_repository. fields.
    destruct (existsb _ _); fields; [auto 10|].
    destruct (decoded_content c); fields; [|auto 10].
    unfold codes, _mail. fields.
    destruct (String.eqb _ "mail"); [|destruct (String.eqb _ "only-match");
                                      [|destruct (String.eqb _ "normal-match")]];
      fields;
      match goal with |- context [List.length ?m =? 0] =>
        destruct (List.length m =? 0) end; fields; auto 10;
      destruct (_exclude_codes _ _); fields; auto 10.
  - destruct (Py.mem _ _); fields; [auto 10|].
    unfold _exclude_repository. fields.
    destruct (existsb _ _); fields; [auto 10|].
    destruct (decoded_content c); fields; [|auto 10].
    unfold codes, _mail. fields.
    destruct (String.eqb _ "mail"); [|destruct (String.eqb _ "only-match");
                                      [|destruct (String.eqb _ "normal-match")]];
      fields;
      match goal with |- context [List.length ?m =? 0] =>
        destruct (List.length m =? 0) end; fields; auto 10;
      destruct (_exclude_codes _ _); fields; auto 10.
Qed.

Lemma process_pages_from_same (page : nat) (contents : list ContentFile) :
  forall (index : nat) (a b : Engine) (tr : list Event),
    same_inputs a b ->
    fst (fst (run_pages_from page index contents a tr))
    = fst (fst (run_pages_from page index contents b tr))
    /\ same_inputs (snd (fst (run_pages_from page index contents a tr)))
         (snd (fst (run_pages_from page index contents b tr)))
    /\ snd (run_pages_from page index contents a tr)
       = snd (run_pages_from page index contents b tr).
Proof.
  induction contents as [|c rest IH]; intros index a b tr Hab.
  - cbn. auto.
  - cbn [process_pages_from].
    pose proof Hab as (_ & _ & _ & Hp & Hn & _).
    rewrite Hp, Hn.
    destruct ((next_count b =? 0) && (3 <? processed_count b)); [cbn; auto|].
    destruct (process_hit_same page index c a b tr Hab) as [Hs Ht].
    destruct (run_hit page index c a tr) as [a1 ta].
    destruct (run_hit page index c b tr) as [b1 tb].
    cbn [fst snd] in Hs, Ht. subst tb. apply IH. exact Hs.
Qed.

Lemma page_loop_same (resource : Resource) (total : nat) (pages : list nat) :
  forall (a b : Engine) (tr : list Event),
    token a = token b -> rule_object a = rule_object b ->
    hash_list a = hash_list b -> processed_count a = processed_count b ->
    next_count a = next_count b ->
    (pages = [] -> result a = result b) ->
    fst (fst (run_page_loop resource total pages a tr))
    = fst (fst (run_page_loop resource total pages b tr))
    /\ snd (run_page_loop resource total pages a tr)
       = snd (run_page_loop resource total pages b tr).
Proof.
  induction pages as [|page rest IH]; intros a b tr Ht Hr Hl Hp Hn Hres.
  - cbn. unfold finish. cbn. rewrite Hr, Hres by reflexivity. auto.
  - cbn [page_loop]. unfold page_iteration.
    destruct (get_page resource page) as [[status data|]|contents].
    + cbn. unfold exception_msg. fields. rewrite Ht, Hr. auto.
    + apply IH; fields; auto.
    + unfold process_pages.
      match goal with
        |- context [run_pages_from ?p ?i ?c (set_exclude_result ∅ (set_result ∅ a)) ?t] =>
        destruct (process_pages_from_same p c i
                    (set_exclude_result ∅ (set_result ∅ a))
                    (set_exclude_result ∅ (set_result ∅ b)) t)
          as (Hok & Hs & Htr);
        [unfold same_inputs; fields; auto 10|];
        destruct (run_pages_from p i c (set_exclude_result ∅ (set_result ∅ a)) t)
          as [[oka a1] ta];
        destruct (run_pages_from p i c (set_exclude_result ∅ (set_result ∅ b)) t)
          as [[okb b1] tb]
      end.
      cbn [fst snd] in Hok, Hs, Htr. subst okb tb.
      destruct Hs as (S1 & S2 & S3 & S4 & S5 & S6 & S7).
      destruct oka; cbn [negb].
      * rewrite S6, S2. apply IH; auto.
      * unfold finish. cbn. rewrite S2, S6. auto.
Qed.

(** X12.  The tuple that [search] returns and the calls it makes do not
    depend on what an earlier use left in the engine: two engines with the
    same token go through the same rule alike, whatever their other fields
    hold. *)
Theorem search_ignores_earlier_state
    (g : Github) (config_hash_list : list string) (rule : RuleObject)
    (a b : Engine) (tr : list Event) :
  token a = token b ->
  fst (fst (run_search g config_hash_list rule a tr))
  = fst (fst (run_search g config_hash_list rule b tr))
  /\ snd (run_search g config_hash_list rule a tr)
     = snd (run_search g config_hash_list rule b tr).
Proof.
  intros Ht. unfold search.
  assert (Hf : forall e,
             fst (fst (search_failed
                         (set_next_count 0
                            (set_processed_count 0 (set_rule_object rule a)))
                         e tr))
             = fst (fst (search_failed
                           (set_next_count 0
                              (set_processed_count 0 (set_rule_object rule b)))
                           e tr))
             /\ snd (search_failed
                       (set_next_count 0
                          (set_processed_count 0 (set_rule_object rule a)))
                       e tr)
                = snd (search_failed
                         (set_next_count 0
                            (set_processed_count 0 (set_rule_object rule b)))
                         e tr)).
  { intros [status data|]; cbn; unfold exception_msg; fields;
      rewrite ?Ht; auto. }
  destruct (rate_limiting g) as [e|rl]; [apply Hf|].
  destruct (rate_limiting_resettime g) as [e|rt]; [apply Hf|].
  destruct (search_code g (search_keyword rule)) as [e|resource]; [apply Hf|].
  destruct (totalCount resource) as [[status data|]|total].
  - cbn. unfold exception_msg. fields. rewrite Ht. auto.
  - cbn. auto.
  - apply page_loop_same; fields; auto.
    destruct (total <? per_page); discriminate.
Qed.

End SearchProperties.

(** * The count of the last page *)

Section LastPage.

Variable public_mail_services : list string.
Variable exclude_repository_rules : list (string -> bool).
Variable exclude_codes_rules : list (string -> bool).
Variable get_tld : string -> option string.
Variable iptype : string -> string.
Variable requests_get : list Event -> string -> HttpResult.
Variable soup_title : string -> SoupTitle.

Local Abbreviation run_codes :=
  (codes public_mail_services get_tld iptype requests_get soup_title).
Local Abbreviation run_hit :=
  (process_hit public_mail_services exclude_repository_rules
     exclude_codes_rules get_tld iptype requests_get soup_title).
Local Abbreviation run_pages_from :=
  (process_pages_from public_mail_services exclude_repository_rules
     exclude_codes_rules get_tld iptype requests_get soup_title).
Local Abbreviation run_pages :=
  (process_pages public_mail_services exclude_repository_rules
     exclude_codes_rules get_tld iptype requests_get soup_title).
Local Abbreviation run_page_iteration :=
  (page_iteration public_mail_services exclude_repository_rules
     exclude_codes_rules get_tld iptype requests_get soup_title).
Local Abbreviation run_page_loop :=
  (page_loop public_mail_services exclude_repository_rules
     exclude_codes_rules get_tld iptype requests_get soup_title).
Local Abbreviation run_search :=
  (search public_mail_services exclude_repository_rules
     exclude_codes_rules get_tld iptype requests_get soup_title).

Lemma http_not_review (evs : list Event) :
  Forall (fun e => is_http e = true) evs -> List.filter is_review evs = [].
Proof.
  intros H. apply filter_none. eapply Forall_impl; [exact H|].
  intros [] He; simpl in *; auto; discriminate.
Qed.

(** The confirmed map and the to-review line over one hit: a hit that is
    cloned either enters the confirmed map or is logged for review. *)
Lemma process_hit_review (page index : nat) (c : ContentFile)
    (self self' : Engine) (tr tr' : list Event) :
  run_hit page index c self tr = (self', tr') ->
  exists evs,
    tr' = tr ++ evs
    /\ ((result self' = result self
         /\ List.length (List.filter is_review evs)
            = List.length (List.filter is_clone evs))
        \/ ((exists r, result self'
                       = <[page * per_page + index := r]> (result self))
            /\ List.filter is_review evs = []
            /\ List.length (List.filter is_clone evs) = 1)).
Proof.
  unfold process_hit.
  set (s1 := match content_sha c with
             | Some s => set_sha s _ | None => _ end).
  assert (Hs1 : result s1 = result self)
    by (subst s1; destruct (content_sha c); reflexivity).
  clearbody s1.
  destruct (Py.mem (sha s1) (hash_list s1)).
  { intros [= <- <-]. fields. eexists. split; [reflexivity|]. left. auto. }
  destruct (_exclude_repository _ _).
  { intros [= <- <-]. fields. eexists. split; [reflexivity|]. left. auto. }
  destruct (decoded_content c) as [text|].
  2:{ intros [= <- <-]. fields. eexists. split; [reflexivity|]. left. auto. }
  match goal with |- context [run_codes ?s ?t] =>
    destruct (codes_events public_mail_services get_tld iptype requests_get
                soup_title s t) as (m & evs & -> & Hevs & _) end.
  fields. destruct (http_not_clone evs Hevs) as [Hc _].
  pose proof (http_not_review evs Hevs) as Hr.
  destruct (List.length m =? 0).
  { intros [= <- <-]. fields. eexists. rewrite <- app_assoc.
    split; [reflexivity|]. left. rewrite !List.filter_app, Hc, Hr. auto. }
  destruct (_exclude_codes _ _); intros [= <- <-]; fields;
    eexists; rewrite <- !app_assoc; (split; [reflexivity|]);
    rewrite !List.filter_app, Hc, Hr; cbn [List.filter is_clone is_review app].
  - left. auto.
  - right. rewrite Hs1. eauto.
Qed.

Lemma process_pages_from_review (page : nat) (contents : list ContentFile)
    (index : nat) (self : Engine) (tr : list Event)
    (ok : bool) (self' : Engine) (tr' : list Event) :
  run_pages_from page index contents self tr = (ok, self', tr') ->
  (forall k, page * per_page + index <= k -> result self !! k = None) ->
  exists evs,
    tr' = tr ++ evs
    /\ size (result self') + List.length (List.filter is_review evs)
       = size (result self) + List.length (List.filter is_clone evs).
Proof.
  revert contents index self tr ok self' tr'.
  apply (process_pages_from_rule public_mail_services
           exclude_repository_rules exclude_codes_rules get_tld iptype
           requests_get soup_title page
           (fun index contents self tr ok self' tr' =>
              (forall k, page * per_page + index <= k ->
                         result self !! k = None) ->
              exists evs,
                tr' = tr ++ evs
                /\ size (result self') + List.length (List.filter is_review evs)
                   = size (result self)
                     + List.length (List.filter is_clone evs))).
  - intros index self tr _. exists []. rewrite app_nil_r. auto.
  - intros index c rest self tr _ _ _. eexists. split; [reflexivity|].
    cbn. lia.
  - intros index c rest self tr self1 tr1 ok self' tr' Hhit _ IH Hf.
    apply process_hit_review in Hhit.
    destruct Hhit as (evs1 & -> & Hcase).
    destruct IH as (evs2 & -> & H2).
    { intros k Hk.
      destruct Hcase as [[-> _]|[[r ->] _]];
        [|rewrite lookup_insert_ne by lia]; apply Hf; lia. }
    exists (evs1 ++ evs2). rewrite <- app_assoc. split; [reflexivity|].
    rewrite !List.filter_app, !length_app.
    destruct Hcase as [[Hr Hc]|[[r Hr] [Hv Hc]]]; rewrite Hr in H2.
    + lia.
    + rewrite map_size_insert_None in H2 by (apply Hf; lia).
      rewrite Hv, Hc. cbn [List.length]. lia.
Qed.

Lemma filter_nil_forall (f : Event -> bool) (evs : list Event) :
  List.filter f evs = [] -> Forall (fun e => f e = false) evs.
Proof.
  intros H. apply List.Forall_forall. intros e Hin.
  now apply (filter_in_nil f evs).
Qed.

(** One iteration of the page loop, seen from the confirmed map. *)
Lemma page_iteration_review
    (resource : Resource) (total page : nat) (self self' : Engine)
    (tr tr' : list Event) (ctl : PageCtl) :
  run_page_iteration resource total page self tr = (ctl, self', tr') ->
  exists evs,
    tr' = tr ++ EvGetPage page :: evs
    /\ Forall (fun e => is_get_page e = false) evs
    /\ entries_of_page resource page (result self')
    /\ size (result self') + List.length (List.filter is_review evs)
       = List.length (List.filter is_clone evs)
    /\ (forall m r, In (EvProcess m r) evs -> m = result self').
Proof.
  unfold page_iteration. intros Hrun.
  destruct (get_page resource page) as [[status data|]|contents] eqn:Hget.
  - injection Hrun as <- <- <-. fields. exists [].
    split; [reflexivity|]. split; [constructor|].
    split; [intros k r Hk; rewrite lookup_empty in Hk; discriminate|].
    split; [rewrite map_size_empty; reflexivity|]. intros m r [].
  - injection Hrun as <- <- <-. fields. exists [EvLog LogPageTimeout].
    rewrite <- app_assoc. split; [reflexivity|].
    split; [repeat constructor|].
    split; [intros k r Hk; rewrite lookup_empty in Hk; discriminate|].
    split; [rewrite map_size_empty; reflexivity|].
    intros m r [H|[]]. discriminate.
  - unfold process_pages in Hrun.
    match type of Hrun with context [run_pages_from ?p ?i ?c ?s0 ?t] =>
      destruct (run_pages_from p i c s0 t) as [[ok s1] t1] eqn:Hp end.
    pose proof (process_pages_from_frame _ _ _ _ _ _ _ _ _ _ _ _ _ _ _ Hp)
      as (_ & _ & _ & _ & _ & (evs0 & Heq0 & Hevs0) & Hres & _).
    apply process_pages_from_review in Hp;
      [|intros k _; fields; apply lookup_empty].
    destruct Hp as (evs1 & -> & Hsz).
    apply app_inv_head in Heq0. subst evs0.
    fields. rewrite map_size_empty in Hsz.
    assert (Hent : entries_of_page resource page (result s1)).
    { intros k r Hk. destruct (Hres k r Hk) as [H|H].
      - fields. rewrite lookup_empty in H. discriminate.
      - destruct H as (i & c & text & H1 & H2 & _).
        exists contents, i, c. auto. }
    assert (Hno : Forall (fun e => is_get_page e = false) evs1).
    { eapply Forall_impl; [exact Hevs0|]. now intros e [H _]. }
    assert (Hnp : forall m r, ~ In (EvProcess m r) evs1).
    { intros m r Hin. rewrite List.Forall_forall in Hevs0.
      destruct (Hevs0 _ Hin) as [_ H]. discriminate. }
    destruct ok; cbn [negb] in Hrun; injection Hrun as <- <- <-.
    + exists (EvLog (LogPageData page (List.length contents))
              :: evs1 ++ [EvProcess (result s1) (rule_object s1)]).
      split; [rewrite <- !app_assoc; reflexivity|].
      split; [constructor; [reflexivity|]; apply Forall_app;
              split; [exact Hno|repeat constructor]|].
      split; [exact Hent|].
      cbn [List.filter is_review is_clone].
      rewrite !List.filter_app, !length_app. cbn. split; [lia|].
      intros m r [H|H]; [discriminate|].
      apply in_app_or in H. destruct H as [H|[[= <- _]|[]]];
        [now apply Hnp in H|reflexivity].
    + exists (EvLog (LogPageData page (List.length contents)) :: evs1).
      split; [rewrite <- !app_assoc; reflexivity|].
      split; [constructor; [reflexivity|exact Hno]|].
      split; [exact Hent|].
      cbn [List.filter is_review is_clone]. split; [lia|].
      intros m r [H|H]; [discriminate|now apply Hnp in H].
Qed.

(** The count of a run of the page loop is that of the last page
    fetched. *)
Lemma page_loop_last_page (resource : Resource) (total : nat)
    (pages : list nat) (self : Engine) (tr : list Event)
    (out : Outcome) (self' : Engine) (tr' : list Event) :
  run_page_loop resource total pages self tr = (out, self', tr') ->
  forall rule n, out = Return true rule (SumCount n) ->
    n = size (result self')
    /\ ((pages = [] /\ self' = self /\ tr' = tr ++ [EvLog LogRuleDone])
        \/ exists before page after,
             tr' = tr ++ before ++ EvGetPage page :: after
             /\ Forall (fun e => is_get_page e = false) after
             /\ entries_of_page resource page (result self')
             /\ n + List.length (List.filter is_review after)
                = List.length (List.filter is_clone after)
             /\ (forall m r, In (EvProcess m r) after -> m = result self')).
Proof.
  revert pages self tr out self' tr'.
  apply (page_loop_rule public_mail_services exclude_repository_rules
           exclude_codes_rules get_tld iptype requests_get soup_title
           resource total
           (fun pages self tr out self' tr' =>
              forall rule n, out = Return true rule (SumCount n) ->
                n = size (result self')
                /\ ((pages = [] /\ self' = self
                     /\ tr' = tr ++ [EvLog LogRuleDone])
                    \/ exists before page after,
                         tr' = tr ++ before ++ EvGetPage page :: after
                         /\ Forall (fun e => is_get_page e = false) after
                         /\ entries_of_page resource page (result self')
                         /\ n + List.length (List.filter is_review after)
                            = List.length (List.filter is_clone after)
                         /\ (forall m r, In (EvProcess m r) after ->
                                         m = result self')))).
  - intros self tr rule n [= _ <-]. auto.
  - intros page rest self tr self1 tr1 out self' tr' Hit _ IH rule n Hout.
    destruct (IH rule n Hout) as [Hn Hcase]. split; [exact Hn|]. right.
    apply page_iteration_review in Hit.
    destruct Hit as (evs1 & -> & Hno & Hent & Hsz & Hpr).
    destruct Hcase as [(_ & -> & ->)
                      |(before & p & after & -> & Ha & He & Hc & Hp)].
    + exists [], page, (evs1 ++ [EvLog LogRuleDone]).
      split; [rewrite <- !app_assoc; reflexivity|].
      split; [apply Forall_app; split; [exact Hno|repeat constructor]|].
      split; [exact Hent|].
      rewrite !List.filter_app, !length_app. cbn. split; [lia|].
      intros m r H. apply in_app_or in H. destruct H as [H|[H|[]]];
        [eauto|discriminate].
    + exists (EvGetPage page :: evs1 ++ before), p, after.
      split; [rewrite <- !app_assoc; cbn [app]; rewrite <- app_assoc;
              reflexivity|].
      auto.
  - intros page rest self tr self1 tr1 Hit rule n [= _ <-].
    split; [reflexivity|]. right.
    apply page_iteration_review in Hit.
    destruct Hit as (evs1 & -> & Hno & Hent & Hsz & Hpr).
    exists [], page, (evs1 ++ [EvLog LogRuleDone]).
    split; [rewrite <- !app_assoc; reflexivity|].
    split; [apply Forall_app; split; [exact Hno|repeat constructor]|].
    split; [exact Hent|].
    rewrite !List.filter_app, !length_app. cbn. split; [lia|].
    intros m r H. apply in_app_or in H. destruct H as [H|[H|[]]];
      [eauto|discriminate].
  - intros page rest self tr msg self1 tr1 _ rule n H. discriminate.
Qed.

(** C10.  When [search] returns a count, the count is the size of the
    confirmed map as the last fetched page left it.  Both maps are emptied
    at the start of every page, so every entry counted stems from a hit of
    that page, and the count is the number of [clone] calls made after the
    last page fetch less the number of hits that were logged for review
    after it: what was recorded and flushed for earlier pages is not in the
    count.  A [Process] call made after the last fetch was handed the map
    that is counted. *)
Theorem summary_counts_last_page
    (g : Github) (config_hash_list : list string) (rule rule' : RuleObject)
    (self self' : Engine) (tr tr' : list Event) (n : nat) :
  run_search g config_hash_list rule self tr
  = (Return true rule' (SumCount n), self', tr') ->
  n = size (result self')
  /\ exists resource before page after,
       search_code g (search_keyword rule) = inr resource
       /\ tr' = tr ++ before ++ EvGetPage page :: after
       /\ Forall (fun e => is_get_page e = false) after
       /\ entries_of_page resource page (result self')
       /\ n + List.length (List.filter is_review after)
          = List.length (List.filter is_clone after)
       /\ (forall m r, In (EvProcess m r) after -> m = result self').
Proof.
  unfold search. intros Hrun.
  destruct (rate_limiting g) as [[]|]; [discriminate..|].
  destruct (rate_limiting_resettime g) as [[]|]; [discriminate..|].
  destruct (search_code g (search_keyword rule)) as [[]|resource];
    [discriminate..|].
  destruct (totalCount resource) as [[]|total]; [discriminate..|].
  destruct (page_loop_last_page _ _ _ _ _ _ _ _ Hrun rule' n eq_refl)
    as [Hn [(H & _)|(before & page & after & H)]].
  - destruct (total <? per_page); discriminate.
  - split; [exact Hn|]. exists resource, before, page, after. auto.
Qed.

End LastPage.

(** * Further properties of the mail resolver *)

Lemma cls_label_tail (c : ascii) :
  Re.cls_label c = true -> Re.cls_tail c = true.
Proof. all_chars c. Qed.

(** X14.  For an address found by [regex_mail], trimmed and lower-cased as
    line 330 does, [host[0].strip()] of lines 336-337 is the whole part
    behind the [@]: the address is a local part, an [@] and the host; the
    host is not empty and holds only letters, digits, [-] and [.]. *)
Theorem mail_host_is_part_behind_at (code mm : string) :
  In mm (Re.findall_mail code) ->
  let mail := Py.lower (Py.strip mm) in
  exists a,
    mail = a +:+ "@" +:+ host_of mail
    /\ every Re.cls_local a = true
    /\ host_of mail <> EmptyString
    /\ every Re.cls_tail (host_of mail) = true.
Proof.
  intros H mail. apply findall_mail_shape, mail_shape_normalised in H.
  fold mail in H. destruct H as (a & b & c & E & Ha & Hb0 & Hb & Hc0 & Hc).
  assert (Hh : host_of mail = b +:+ "." +:+ c)
    by (rewrite E; now apply host_of_shape).
  rewrite Hh.
  exists a. split; [exact E|]. split; [exact Ha|]. split.
  - destruct b; [congruence|discriminate].
  - rewrite !every_app. rewrite (every_impl _ _ b cls_label_tail Hb), Hc.
    reflexivity.
Qed.

(** ** Texts without [@] *)

Lemma mail_shape_at (m : string) :
  mail_shape m -> Py.contains "@" m = true.
Proof.
  intros (a & b & c & -> & _). apply contains_char_true_iff.
  exists a, (b +:+ "." +:+ c). reflexivity.
Qed.

Lemma contains_char_take (c : ascii) (n : nat) (s : string) :
  Py.contains (String c EmptyString) (Py.take n s) = true ->
  Py.contains (String c EmptyString) s = true.
Proof.
  revert s. induction n as [|n IH]; intros [|x s] H; try discriminate.
  cbn [Py.take] in H. rewrite contains_char_cons in *.
  apply orb_true_iff in H. apply orb_true_iff.
  destruct H as [H|H]; [now left|right; now apply IH].
Qed.

Lemma findall_mail_needs_at (s : string) :
  forall skip, Py.contains "@" s = false ->
               Re.findall_from Re.regex_mail skip s = [].
Proof.
  induction s as [|c s IH]; intros skip H; [reflexivity|].
  pose proof H as H'. change "@" with (String "@" EmptyString) in H'.
  rewrite contains_char_cons in H'.
  apply orb_false_iff in H'. destruct H' as [_ Hs].
  cbn [Re.findall_from]. destruct skip as [|k]; [|now apply IH].
  destruct (Re.match_here Re.regex_mail (String c s)) as [[|n]|] eqn:Hm;
    try now apply IH.
  assert (Hin : In (Py.take (S n) (String c s))
                  (Re.findall_mail (String c s))).
  { unfold Re.findall_mail, Re.findall. cbn [Re.findall_from].
    rewrite Hm. now left. }
  apply findall_mail_shape, mail_shape_at in Hin.
  apply (contains_char_take "@") in Hin. congruence.
Qed.

(** Removing [old] from a text brings in no character. *)
Lemma replace_from_chars (c : ascii) (old : string) (s : string) :
  forall skip, Py.contains (String c EmptyString) s = false ->
               Py.contains (String c EmptyString)
                 (Py.replace_from old EmptyString skip s) = false.
Proof.
  induction s as [|x s IH]; intros skip H; [reflexivity|].
  rewrite contains_char_cons in H.
  apply orb_false_iff in H. destruct H as [Hx Hs].
  cbn [Py.replace_from]. destruct skip as [|k]; [|now apply IH].
  destruct (Py.startswith old (String x s)).
  - rewrite append_nil_l. now apply IH.
  - rewrite contains_char_cons, Hx. now apply IH.
Qed.

Section MoreMailProperties.

Variable public_mail_services : list string.
Variable get_tld : string -> option string.
Variable iptype : string -> string.
Variable requests_get : list Event -> string -> HttpResult.
Variable soup_title : string -> SoupTitle.

Local Abbreviation run_mail_step :=
  (mail_step public_mail_services get_tld iptype requests_get soup_title).
Local Abbreviation run_mail_loop :=
  (mail_loop public_mail_services get_tld iptype requests_get soup_title).
Local Abbreviation run_codes :=
  (codes public_mail_services get_tld iptype requests_get soup_title).

(** X15.  In mail mode a text without [@] gives no fragment and no
    request: [codes] returns the empty list and leaves the trace as it
    was. *)
Theorem text_without_at_has_no_mail (self : Engine) (tr : list Event) :
  mode (rule_object self) = "mail" ->
  Py.contains "@" (code self) = false ->
  run_codes self tr
  = ([], set_code (Py.replace "<img" EmptyString (code self)) self, tr).
Proof.
  intros Hm Hat. unfold codes. fields. rewrite Hm. cbn [String.eqb Ascii.eqb Bool.eqb].
  unfold _mail, mail_loop. fields.
  unfold Re.findall_mail, Re.findall.
  rewrite findall_mail_needs_at; [reflexivity|].
  apply (replace_from_chars "@"). exact Hat.
Qed.

Lemma mail_domain_probe (host domain : string) :
  mail_domain get_tld iptype host = (false, domain) ->
  probe_of get_tld iptype host (EvHttpGet domain).
Proof.
  unfold mail_domain, probe_of. intros H.
  destruct (Re.match_ip host); cbn [negb] in H.
  - injection H as Hp <-. left. split; [reflexivity|]. split; [|reflexivity].
    intros E. rewrite E in Hp. discriminate.
  - injection H as <-. right.
    destruct (get_tld host) as [d|] eqn:Hd.
    + destruct (String.eqb d host) eqn:E.
      * apply String.eqb_eq in E. subst d. left. auto.
      * apply String.eqb_neq in E. right. eauto.
    + rewrite String.eqb_refl. left. auto.
Qed.

(** The loop over the addresses found: every address is recorded once,
    with one fragment, and at most one request. *)
Lemma mail_fold_once (l : list string) :
  forall a : MailAcc,
    NoDup (mails a) ->
    let a' := fold_left run_mail_step l a in
    NoDup (mails a')
    /\ (forall m, In m (mails a) -> In m (mails a'))
    /\ exists k evs,
         k <= List.length l
         /\ List.length (mails a') = List.length (mails a) + k
         /\ List.length (fragments a') = List.length (fragments a) + k
         /\ trace a' = trace a ++ evs
         /\ List.length evs <= k
         /\ Forall (fun e => exists m,
                       In m (mails a') /\ ~ In m (mails a)
                       /\ probe_of get_tld iptype (host_of m) e) evs.
Proof.
  induction l as [|mm l IH]; intros a Hnd; cbn [fold_left].
  - split; [exact Hnd|]. split; [auto|].
    exists 0, []. rewrite app_nil_r, !Nat.add_0_r. repeat split; auto.
  - destruct (mail_step_cases public_mail_services get_tld iptype
                requests_get soup_title a mm)
      as [[Eq _]|(Hnew & _ & Hm & domain & title & Hf & Hcase)].
    + rewrite Eq. destruct (IH a Hnd) as (H1 & H2 & k & evs & Hk & H3).
      split; [exact H1|]. split; [exact H2|].
      exists k, evs. split; [cbn; lia|exact H3].
    + set (a1 := run_mail_step a mm) in *.
      set (mail := Py.lower (Py.strip mm)) in *.
      assert (Hnd1 : NoDup (mails a1)).
      { rewrite Hm. apply NoDup_app. split; [exact Hnd|].
        split; [|apply NoDup_singleton].
        intros x Hx Hx'. apply list_elem_of_In in Hx, Hx'.
        destruct Hx' as [<-|[]]. auto. }
      destruct (IH a1 Hnd1)
        as (H1 & H2 & k & evs & Hk & Hlm & Hlf & Htr & Hle & Hall).
      split; [exact H1|].
      split; [intros m Hin; apply H2; rewrite Hm; apply in_or_app; now left|].
      assert (Hmail : In mail (mails a1))
        by (rewrite Hm; apply in_or_app; right; now left).
      assert (Hrest : Forall (fun e => exists m,
                         In m (mails (fold_left run_mail_step l a1))
                         /\ ~ In m (mails a)
                         /\ probe_of get_tld iptype (host_of m) e) evs).
      { eapply Forall_impl; [exact Hall|].
        intros e (m & Hin & Hnot & Hp). exists m. split; [exact Hin|].
        split; [|exact Hp]. intros Hin'. apply Hnot. rewrite Hm.
        apply in_or_app. now left. }
      destruct Hcase as [(_ & _ & _ & _ & Ht)|(Hd & Ht)].
      * exists (S k), evs. rewrite Hlm, Hlf, Htr, Hm, Hf, Ht, !length_app.
        cbn [List.length]. repeat split; auto; lia.
      * exists (S k), (EvHttpGet domain :: evs).
        rewrite Hlm, Hlf, Htr, Hm, Hf, Ht, !length_app, <- app_assoc.
        cbn [List.length app]. repeat split; auto; try lia.
        constructor; [|exact Hrest].
        exists mail. split; [now apply H2|]. split; [exact Hnew|].
        now apply mail_domain_probe.
Qed.

(** X16.  The mail resolver reports an address once, however often the
    text holds it: the recorded addresses are pairwise different, there is
    one fragment for each and at most one HTTP request for each, and no
    more addresses than [regex_mail] found. *)
Theorem mail_addresses_reported_once (code : string) (tr : list Event) :
  let a := run_mail_loop code tr in
  NoDup (mails a)
  /\ List.length (fragments a) = List.length (mails a)
  /\ List.length (mails a) <= List.length (Re.findall_mail code)
  /\ exists evs,
       trace a = tr ++ evs
       /\ List.length evs <= List.length (mails a)
       /\ Forall (fun e => is_http e = true) evs.
Proof.
  intros a. unfold a, mail_loop.
  destruct (mail_fold_once (Re.findall_mail code)
              {| mails := []; fragments := []; trace := tr |})
    as (H1 & _ & k & evs & Hk & Hlm & Hlf & Htr & Hle & Hall);
    [apply NoDup_nil_2|].
  cbn [mails fragments trace List.length] in *.
  split; [exact H1|]. split; [lia|]. split; [lia|].
  exists evs. split; [exact Htr|]. split; [lia|].
  eapply Forall_impl; [exact Hall|].
  intros e (m & _ & _ & [(_ & _ & ->)|[(_ & _ & ->)|(_ & _ & ->)]]);
    reflexivity.
Qed.

(** X17.  Every HTTP request of the mail resolver goes to the host of a
    recorded address: to [http://<host>] when the host is an IP literal
    that is not private or when [get_tld] gives another domain than the
    host, to [http://www.<host>] when [get_tld] raises or gives the host
    back. *)
Theorem mail_probe_targets (code : string) (tr : list Event) :
  let a := run_mail_loop code tr in
  exists evs,
    trace a = tr ++ evs
    /\ Forall (fun e => exists m,
                  In m (mails a)
                  /\ probe_of get_tld iptype (host_of m) e) evs.
Proof.
  intros a. unfold a, mail_loop.
  destruct (mail_fold_once (Re.findall_mail code)
              {| mails := []; fragments := []; trace := tr |})
    as (_ & _ & k & evs & _ & _ & _ & Htr & _ & Hall);
    [apply NoDup_nil_2|].
  exists evs. split; [exact Htr|].
  eapply Forall_impl; [exact Hall|].
  intros e (m & Hin & _ & Hp). eauto.
Qed.

End MoreMailProperties.

Lemma mail_host_is_part_behind_at_witness :
  In "Bob@Mail.Example.ORG" (Re.findall_mail "to Bob@Mail.Example.ORG, now")
  /\ host_of "bob@mail.example.org" = "mail.example.org"
  /\ exists a,
       "bob@mail.example.org" = a +:+ "@" +:+ host_of "bob@mail.example.org"
       /\ every Re.cls_local a = true.
Proof.
  assert (Hin : In "Bob@Mail.Example.ORG"
                  (Re.findall_mail "to Bob@Mail.Example.ORG, now"))
    by (vm_compute; auto).
  split; [exact Hin|]. split; [reflexivity|].
  destruct (mail_host_is_part_behind_at _ _ Hin) as (a & H1 & H2 & _).
  exists a. split; [exact H1|exact H2].
Defined.

Lemma text_without_at_has_no_mail_witness :
  let self := set_code "password=1 <img src=x>"
                (set_rule_object
                   {| keyword := "example.org"; extension := None;
                      mode := "mail" |} ex_engine) in
  codes ex_public_mail_services ex_get_tld ex_iptype ex_requests_get
    ex_soup_title self []
  = ([], set_code (Py.replace "<img" EmptyString (code self)) self, []).
Proof.
  intros self.
  apply (text_without_at_has_no_mail ex_public_mail_services ex_get_tld
           ex_iptype ex_requests_get ex_soup_title self []); reflexivity.
Defined.

(** * Properties of [regex_ip] *)

Lemma digit_cases (c : ascii) : Re.digit c = true -> In c digits.
Proof.
  destruct c as [[] [] [] [] [] [] [] []]; vm_compute;
    first [discriminate | intros _; tauto].
Qed.

Lemma in_range_digit (lo hi : nat) (c : ascii) :
  48 <= lo -> hi <= 57 -> Re.in_range lo hi c = true -> Re.digit c = true.
Proof.
  unfold Re.digit, Re.in_range. intros Hlo Hhi H.
  apply andb_true_iff in H. destruct H as [H1 H2].
  apply Nat.leb_le in H1, H2.
  apply andb_true_iff. split; apply Nat.leb_le; lia.
Qed.

Lemma octets_checked :
  forallb (fun a =>
    octet_is_decimal (String a EmptyString)
    && forallb (fun b =>
         octet_is_decimal (String a (String b EmptyString))
         && forallb (fun c =>
              octet_is_decimal (String a (String b (String c EmptyString))))
              digits) digits) digits = true.
Proof. vm_compute. reflexivity. Qed.

Lemma octet_digits (s : string) :
  Re.octet s = true -> every Re.digit s = true.
Proof.
  destruct s as [|a [|b [|c [|d s]]]]; cbn [Re.octet every]; try discriminate.
  - intros ->. reflexivity.
  - intros H. apply andb_true_iff in H. destruct H as [Ha ->].
    rewrite (in_range_digit 49 57 a) by (auto; lia). reflexivity.
  - intros H.
    repeat (apply orb_true_iff in H; destruct H as [H|H]);
      repeat (apply andb_true_iff in H; destruct H as [H ?]).
    + apply Ascii.eqb_eq in H. subst a.
      rewrite H0, H1. reflexivity.
    + apply Ascii.eqb_eq in H. subst a.
      rewrite (in_range_digit 48 52 b), H0 by (auto; lia). reflexivity.
    + apply Ascii.eqb_eq in H. subst a. apply Ascii.eqb_eq in H1. subst b.
      rewrite (in_range_digit 48 53 c) by (auto; lia). reflexivity.
Qed.

Lemma octet_decimal (s : string) :
  Re.octet s = true -> s = decimal (number s) /\ number s <= 255.
Proof.
  intros H. pose proof (octet_digits s H) as Hd.
  assert (Hok : octet_is_decimal s = true).
  { pose proof octets_checked as Hall. rewrite forallb_forall in Hall.
    destruct s as [|a [|b [|c [|d s]]]]; try discriminate H.
    - cbn [every] in Hd. apply andb_true_iff in Hd. destruct Hd as [Ha _].
      apply digit_cases, Hall, andb_true_iff in Ha. tauto.
    - cbn [every] in Hd.
      apply andb_true_iff in Hd. destruct Hd as [Ha Hd].
      apply andb_true_iff in Hd. destruct Hd as [Hb _].
      apply digit_cases, Hall, andb_true_iff in Ha. destruct Ha as [_ Ha].
      rewrite forallb_forall in Ha.
      apply digit_cases, Ha, andb_true_iff in Hb. tauto.
    - cbn [every] in Hd.
      apply andb_true_iff in Hd. destruct Hd as [Ha Hd].
      apply andb_true_iff in Hd. destruct Hd as [Hb Hd].
      apply andb_true_iff in Hd. destruct Hd as [Hc _].
      apply digit_cases, Hall, andb_true_iff in Ha. destruct Ha as [_ Ha].
      rewrite forallb_forall in Ha.
      apply digit_cases, Ha, andb_true_iff in Hb. destruct Hb as [_ Hb].
      rewrite forallb_forall in Hb.
      apply digit_cases, Hb in Hc. exact Hc. }
  unfold octet_is_decimal in Hok. rewrite H in Hok. cbn [implb] in Hok.
  apply andb_true_iff in Hok. destruct Hok as [H1 H2].
  apply String.eqb_eq in H1. apply Nat.leb_le in H2. auto.
Qed.

Lemma decimals_checked :
  forallb (fun n => Re.octet (decimal n)
                    && negb (Py.contains "." (decimal n)))
    (seq 0 256) = true.
Proof. vm_compute. reflexivity. Qed.

Lemma decimal_octet (n : nat) :
  n <= 255 ->
  Re.octet (decimal n) = true /\ Py.contains "." (decimal n) = false.
Proof.
  intros H. pose proof decimals_checked as Hall.
  rewrite forallb_forall in Hall.
  assert (Hin : In n (seq 0 256)) by (apply in_seq; lia).
  apply Hall, andb_true_iff in Hin. destruct Hin as [H1 H2].
  apply negb_true_iff in H2. auto.
Qed.

(** X18.  The octet group of [regex_ip] accepts exactly the decimal
    notations of the numbers 0 to 255: no leading zero, no sign, no
    blank. *)
Theorem octet_accepts_decimal_bytes (s : string) :
  Re.octet s = true <-> exists n, n <= 255 /\ s = decimal n.
Proof.
  split.
  - intros H. apply octet_decimal in H. destruct H as [H1 H2]. eauto.
  - intros (n & Hn & ->). now apply decimal_octet.
Qed.

Lemma split_app_sep (x rest : string) :
  Py.contains "." x = false ->
  Py.split "." (x +:+ String "." rest) = x :: Py.split "." rest.
Proof.
  induction x as [|c x IH]; intros H.
  - rewrite append_nil_l. reflexivity.
  - change "." with (String "."%char EmptyString) in H.
    rewrite contains_char_cons in H.
    apply orb_false_iff in H. destruct H as [Hc Hx].
    rewrite append_cons. cbn [Py.split].
    rewrite Ascii.eqb_sym, Hc, (IH Hx). reflexivity.
Qed.

Lemma split_no_sep (x : string) :
  Py.contains "." x = false -> Py.split "." x = [x].
Proof.
  induction x as [|c x IH]; intros H; [reflexivity|].
  change "." with (String "."%char EmptyString) in H.
  rewrite contains_char_cons in H.
  apply orb_false_iff in H. destruct H as [Hc Hx].
  cbn [Py.split]. rewrite Ascii.eqb_sym, Hc, (IH Hx). reflexivity.
Qed.

Lemma dotted_quad_dotted (s : string) :
  Re.dotted_quad s = true
  <-> exists a b c d,
        a <= 255 /\ b <= 255 /\ c <= 255 /\ d <= 255 /\ s = dotted a b c d.
Proof.
  unfold Re.dotted_quad. split.
  - pose proof (join_split "." s) as Hj.
    destruct (Py.split "." s) as [|a [|b [|c [|d [|e l]]]]]; try discriminate.
    intros H.
    repeat (apply andb_true_iff in H; destruct H as [H ?]).
    apply octet_decimal in H, H0, H1, H2.
    exists (number a), (number b), (number c), (number d).
    unfold dotted. destruct H as [<- ?], H0 as [<- ?], H1 as [<- ?], H2 as [<- ?].
    repeat split; auto.
  - intros (a & b & c & d & Ha & Hb & Hc & Hd & ->). unfold dotted.
    apply decimal_octet in Ha, Hb, Hc, Hd.
    destruct Ha as [Ha Ha'], Hb as [Hb Hb'], Hc as [Hc Hc'], Hd as [Hd Hd'].
    change (decimal a +:+ "." +:+ decimal b +:+ "." +:+ decimal c +:+ "."
            +:+ decimal d)
      with (decimal a +:+ String "." (decimal b +:+ String "."
              (decimal c +:+ String "." (decimal d)))).
    rewrite !split_app_sep, split_no_sep by assumption.
    rewrite Ha, Hb, Hc, Hd. reflexivity.
Qed.

Lemma take_app_length (a b : string) :
  Py.take (String.length (a +:+ b) - String.length b) (a +:+ b) = a.
Proof.
  rewrite length_app_string.
  replace (String.length a + String.length b - String.length b)
    with (String.length a) by lia.
  induction a as [|x a IH]; [now destruct b|].
  rewrite append_cons. simpl. now rewrite IH.
Qed.

(** X19.  [re.match(regex_ip, host)] succeeds exactly on the dotted decimal
    notation of four numbers from 0 to 255, written without leading zeros,
    and on such a notation followed by one line feed. *)
Theorem match_ip_accepts_dotted_decimal (host : string) :
  Re.match_ip host = true
  <-> exists a b c d,
        a <= 255 /\ b <= 255 /\ c <= 255 /\ d <= 255
        /\ (host = dotted a b c d \/ host = dotted a b c d +:+ Py.LF).
Proof.
  unfold Re.match_ip. rewrite orb_true_iff, andb_true_iff, !dotted_quad_dotted.
  split.
  - intros [(a & b & c & d & H)|[E (a & b & c & d & Ha & Hb & Hc & Hd & Hq)]].
    + exists a, b, c, d. tauto.
    + apply String.eqb_eq in E. exists a, b, c, d. rewrite <- Hq.
      repeat split; auto.
  - intros (a & b & c & d & Ha & Hb & Hc & Hd & [->| ->]).
    + left. exists a, b, c, d. auto.
    + right.
      replace (String.length (dotted a b c d +:+ Py.LF) - 1)
        with (String.length (dotted a b c d +:+ Py.LF) - String.length Py.LF)
        by reflexivity.
      rewrite take_app_length. split; [apply String.eqb_refl|].
      exists a, b, c, d. auto.
Qed.

(** * Properties of [verify] *)

Lemma decimal_inj (a b : nat) : decimal a = decimal b -> a = b.
Proof.
  unfold decimal. intros H.
  apply (f_equal NilEmpty.uint_of_string) in H.
  rewrite !NilEmpty.usu in H. injection H as H.
  apply (f_equal Nat.of_uint) in H.
  now rewrite !Unsigned.of_to in H.
Qed.

Lemma decimal_digits (n : nat) : every Re.digit (decimal n) = true.
Proof.
  unfold decimal. generalize (Nat.to_uint n). intros d.
  induction d; simpl; auto.
Qed.

(** Two strings of digits, each followed by a character that is no digit:
    equal wholes have equal parts. *)
Lemma digits_prefix_inj (s1 s2 : string) (c1 c2 : ascii) (r1 r2 : string) :
  every Re.digit s1 = true -> every Re.digit s2 = true ->
  Re.digit c1 = false -> Re.digit c2 = false ->
  s1 +:+ String c1 r1 = s2 +:+ String c2 r2 ->
  s1 = s2 /\ r1 = r2.
Proof.
  revert s2. induction s1 as [|x s1 IH]; intros [|y s2] H1 H2 Hc1 Hc2 E.
  - rewrite !append_nil_l in E. injection E as _ E. auto.
  - rewrite append_nil_l, append_cons in E. injection E as E _. subst y.
    simpl in H2. rewrite Hc1 in H2. discriminate.
  - rewrite append_nil_l, append_cons in E. injection E as E _. subst x.
    simpl in H1. rewrite Hc2 in H1. discriminate.
  - rewrite !append_cons in E. injection E as -> E.
    simpl in H1, H2.
    apply andb_true_iff in H1. apply andb_true_iff in H2.
    destruct (IH s2) as [-> ->]; tauto.
Qed.

(** X20.  The message of [verify] tells what happened.  Two calls that
    return the same message return the same flag, and when the flag is
    [True] the client gave the same quota both times: the two numbers can
    be read back from the message.  The flag is [False] exactly with the
    message [TOKEN-FAILED: FAILED], which is returned for a
    [GithubException] of [rate_limiting] and for nothing else. *)
Theorem verify_message_determines_quota
    (g g' : Github) (ok ok' : bool) (msg : string) :
  verify g = inr (ok, msg) ->
  verify g' = inr (ok', msg) ->
  ok = ok'
  /\ (ok = true -> rate_limiting g = rate_limiting g')
  /\ (ok = false <-> msg = "TOKEN-FAILED: FAILED")
  /\ (ok = false <-> exists status data,
                       rate_limiting g = inl (GithubException status data)).
Proof.
  unfold verify.
  destruct (rate_limiting g) as [[status data|]|[a b]];
    destruct (rate_limiting g') as [[status' data'|]|[c d]];
    intros H H'; try discriminate;
    injection H as <- <-;
    pose proof (f_equal (fun x : Exn + bool * string =>
                           match x with inr (_, m) => m | inl _ => EmptyString end) H')
      as E;
    pose proof (f_equal (fun x : Exn + bool * string =>
                           match x with inr (o, _) => o | inl _ => true end) H')
      as Eok;
    cbn beta iota in E, Eok; subst ok'; clear H'.
  - split; [reflexivity|]. split; [discriminate|].
    split; [tauto|]. split; eauto.
  - exfalso. vm_compute in E. discriminate.
  - exfalso. vm_compute in E. discriminate.
  - split; [reflexivity|].
    assert (Hq : a = c /\ b = d).
    {
      change ("TOKEN-PASSED: (" +:+ decimal c +:+ ", " +:+ decimal d +:+ ")")
        with ("TOKEN-PASSED: ("
              +:+ (decimal c +:+ String "," (" " +:+ decimal d +:+ ")")))
        in E.
      change ("TOKEN-PASSED: (" +:+ decimal a +:+ ", " +:+ decimal b +:+ ")")
        with ("TOKEN-PASSED: ("
              +:+ (decimal a +:+ String "," (" " +:+ decimal b +:+ ")")))
        in E.
      apply (inj (append "TOKEN-PASSED: (")) in E.
      apply digits_prefix_inj in E;
        [|apply decimal_digits|apply decimal_digits|reflexivity|reflexivity].
      destruct E as [E1 E2].
      change (" " +:+ decimal d +:+ ")")
        with (String " " (decimal d +:+ String ")" EmptyString)) in E2.
      change (" " +:+ decimal b +:+ ")")
        with (String " " (decimal b +:+ String ")" EmptyString)) in E2.
      injection E2 as E2.
      apply digits_prefix_inj in E2;
        [|apply decimal_digits|apply decimal_digits|reflexivity|reflexivity].
      destruct E2 as [E2 _].
      split; apply decimal_inj; congruence. }
    destruct Hq as [-> ->].
    split; [reflexivity|]. split.
    + split; [discriminate|]. intros E'. vm_compute in E'. discriminate.
    + split; [discriminate|]. intros (st & dt & [=]).
Qed.

Example verify_example :
  verify (ex_github 0 (fun _ => inr []))
  = inr (true, "TOKEN-PASSED: (5000, 5000)").
Proof. reflexivity. Qed.

Example match_ip_leading_zero :
  Re.match_ip "10.0.0.8" = true /\ Re.match_ip "10.0.0.08" = false
  /\ Re.match_ip "256.0.0.1" = false.
Proof. vm_compute. auto. Qed.

(** * Concrete runs of the further properties *)

Lemma page_iteration_accounts_witness :
  let resource := {| totalCount := inr 5; get_page := ex_pages_four_dups |} in
  let run := page_iteration ex_public_mail_services [] [] ex_get_tld ex_iptype
               ex_requests_get ex_soup_title resource 5 0 ex_engine_seen [] in
  let self' := snd (fst run) in
  (forall k, result self' !! k = None \/ exclude_result self' !! k = None)
  /\ next_count self'
     = next_count ex_engine_seen + size (result self')
       + size (exclude_result self')
  /\ processed_count ex_engine_seen <= processed_count self'
  /\ (forall contents, get_page resource 0 = inr contents ->
        (next_count self' - next_count ex_engine_seen)
        + (processed_count self' - processed_count ex_engine_seen)
        <= List.length contents).
Proof.
  intros resource run self'.
  refine (page_iteration_accounts ex_public_mail_services [] [] ex_get_tld
            ex_iptype ex_requests_get ex_soup_title resource 5 0
            ex_engine_seen self' [] (snd run) (fst (fst run)) _).
  vm_compute. reflexivity.
Defined.

Lemma clone_once_per_recorded_hit_witness :
  let resource := {| totalCount := inr 1; get_page := ex_pages_one_hit |} in
  let run := page_iteration ex_public_mail_services [] [] ex_get_tld ex_iptype
               ex_requests_get ex_soup_title resource 1 0 ex_engine_seen [] in
  List.filter is_clone (snd run) = [EvClone "https://github.com/o/r" "n1"]
  /\ exists evs,
       snd run = [] ++ evs
       /\ List.length (List.filter is_clone evs)
          = size (result (snd (fst run))) + size (exclude_result (snd (fst run)))
       /\ List.length (List.filter is_skip_log evs)
          + processed_count ex_engine_seen
          = processed_count (snd (fst run)).
Proof.
  intros resource run. split; [vm_compute; reflexivity|].
  destruct (clone_once_per_recorded_hit ex_public_mail_services [] []
              ex_get_tld ex_iptype ex_requests_get ex_soup_title resource 1 0
              ex_engine_seen (snd (fst run)) [] (snd run) (fst (fst run)))
    as (evs & H1 & H2 & H3 & _).
  - vm_compute. reflexivity.
  - exists evs. auto.
Defined.

Lemma recorded_entries_witness :
  let resource := {| totalCount := inr 1; get_page := ex_pages_img |} in
  let run := page_iteration ex_public_mail_services [] [] ex_get_tld ex_iptype
               ex_requests_get ex_soup_title resource 1 0 ex_engine_seen [] in
  let r := scan_result (ex_hit "n1" "<img src=x> password=1")
             "<img src=x> password=1" [" src=x> password=1"] in
  result (snd (fst run)) !! 0 = Some r
  /\ exists contents,
       get_page resource 0 = inr contents
       /\ recorded_from [] 0 0 contents (hash_list ex_engine_seen) false 0 r.
Proof.
  intros resource run r.
  assert (Hr : result (snd (fst run)) !! 0 = Some r)
    by (vm_compute; reflexivity).
  split; [exact Hr|].
  destruct (recorded_entries ex_public_mail_services [] []
              ex_get_tld ex_iptype ex_requests_get ex_soup_title resource 1 0
              ex_engine_seen (snd (fst run)) [] (snd run) (fst (fst run)) 0 r)
    as [H _].
  - vm_compute. reflexivity.
  - exact (H Hr).
Defined.

Lemma non_mail_rule_makes_no_request_witness :
  mode ex_rule <> "mail"
  /\ exists evs,
       snd (ex_search (ex_github 200 ex_pages_first_only)) = [] ++ evs
       /\ List.filter is_http evs = [].
Proof.
  assert (H : mode ex_rule <> "mail") by discriminate.
  split; [exact H|].
  exact (non_mail_rule_makes_no_request ex_public_mail_services [] []
           ex_get_tld ex_iptype ex_requests_get ex_soup_title
           (ex_github 200 ex_pages_first_only) ex_seen ex_rule ex_engine [] H).
Defined.

Lemma search_when_every_page_times_out_witness :
  ex_search (ex_github 200 ex_pages_timeout)
  = (Return true ex_rule (SumCount 0),
     set_exclude_result ∅
       (set_result ∅
          (set_hash_list ex_seen
             (set_next_count 0
                (set_processed_count 0 (set_rule_object ex_rule ex_engine))))),
     [] ++ timeouts (seq 0 (if 200 <? per_page then 1 else default_pages))
        ++ [EvLog LogRuleDone]).
Proof.
  apply (search_when_every_page_times_out ex_public_mail_services [] []
           ex_get_tld ex_iptype ex_requests_get ex_soup_title
           (ex_github 200 ex_pages_timeout) ex_seen ex_rule ex_engine []
           (5000, 5000) 0
           {| totalCount := inr 200; get_page := ex_pages_timeout |} 200);
    reflexivity.
Defined.

Lemma search_outcome_shape_witness :
  let run := ex_search (ex_github 200 ex_pages_first_only) in
  fst (fst run) = Return true ex_rule (SumCount 0)
  /\ token (snd (fst run)) = token ex_engine
  /\ rule_object (snd (fst run)) = ex_rule
  /\ 0 = size (result (snd (fst run))).
Proof.
  intros run.
  assert (Hout : fst (fst run) = Return true ex_rule (SumCount 0))
    by (vm_compute; reflexivity).
  split; [exact Hout|].
  destruct (search_outcome_shape ex_public_mail_services [] []
              ex_get_tld ex_iptype ex_requests_get ex_soup_title
              (ex_github 200 ex_pages_first_only) ex_seen ex_rule
              ex_engine (snd (fst run)) [] (snd run) (fst (fst run)))
    as (H1 & H2 & H3 & _).
  - vm_compute. reflexivity.
  - destruct (H3 _ _ _ Hout) as (_ & _ & H4). auto.
Defined.

Lemma abort_means_nothing_recorded_witness :
  let run := ex_search (ex_github 5 ex_pages_four_dups) in
  In (EvLog (LogSkipRules 4 4)) (snd run)
  /\ fst (fst run) = Return true ex_rule (SumCount 0)
  /\ 4 = processed_count (snd (fst run)) /\ 3 < 4
  /\ 4 = List.length (List.filter is_skip_log (snd run))
  /\ List.filter is_clone (snd run) = []
  /\ (forall m r, In (EvProcess m r) (snd run) -> m = ∅).
Proof.
  intros run.
  assert (Hin : In (EvLog (LogSkipRules 4 4)) (snd run))
    by (vm_compute; do 6 right; left; reflexivity).
  split; [exact Hin|].
  refine (abort_means_nothing_recorded ex_public_mail_services [] []
            ex_get_tld ex_iptype ex_requests_get ex_soup_title
            (ex_github 5 ex_pages_four_dups) ex_seen ex_rule
            ex_engine (snd (fst run)) [] (snd run) (fst (fst run)) 4 4 _ Hin).
  vm_compute. reflexivity.
Defined.

Lemma search_ignores_earlier_state_witness :
  let g := ex_github 200 ex_pages_first_only in
  let run (self : Engine) :=
    search ex_public_mail_services [] [] ex_get_tld ex_iptype ex_requests_get
      ex_soup_title g ex_seen ex_rule self [] in
  token ex_engine_used = token ex_engine
  /\ fst (fst (run ex_engine_used)) = fst (fst (run ex_engine))
  /\ snd (run ex_engine_used) = snd (run ex_engine).
Proof.
  intros g run. split; [reflexivity|].
  exact (search_ignores_earlier_state ex_public_mail_services [] []
           ex_get_tld ex_iptype ex_requests_get ex_soup_title
           g ex_seen ex_rule ex_engine_used ex_engine [] eq_refl).
Defined.

Lemma search_counters_count_events_witness :
  let run := ex_search (ex_github 200 ex_pages_first_only) in
  List.filter is_clone (snd run) = [EvClone "https://github.com/o/r" "n1"]
  /\ exists evs,
       snd run = [] ++ evs
       /\ next_count (snd (fst run)) = List.length (List.filter is_clone evs)
       /\ processed_count (snd (fst run))
          = List.length (List.filter is_skip_log evs).
Proof.
  intros run. split; [vm_compute; reflexivity|].
  destruct (search_counters_count_events ex_public_mail_services [] []
              ex_get_tld ex_iptype ex_requests_get ex_soup_title
              (ex_github 200 ex_pages_first_only) ex_seen ex_rule
              ex_engine (snd (fst run)) [] (snd run) (fst (fst run)))
    as (evs & H1 & H2 & H3 & _).
  - vm_compute. reflexivity.
  - exists evs. auto.
Defined.

(** Page 0 holds one confirmed hit and page 3 two: three hits are cloned
    and flushed, the count returned is 2. *)
Lemma summary_counts_last_page_witness :
  let run := ex_search (ex_github 200 ex_pages_last_two) in
  fst (fst run) = Return true ex_rule (SumCount 2)
  /\ List.length (List.filter is_clone (snd run)) = 3
  /\ 2 = size (result (snd (fst run)))
  /\ exists resource before page after,
       snd run = [] ++ before ++ EvGetPage page :: after
       /\ Forall (fun e => is_get_page e = false) after
       /\ entries_of_page resource page (result (snd (fst run)))
       /\ 2 + List.length (List.filter is_review after)
          = List.length (List.filter is_clone after).
Proof.
  intros run.
  split; [vm_compute; reflexivity|].
  split; [vm_compute; reflexivity|].
  destruct (summary_counts_last_page ex_public_mail_services [] []
              ex_get_tld ex_iptype ex_requests_get ex_soup_title
              (ex_github 200 ex_pages_last_two) ex_seen ex_rule ex_rule
              ex_engine (snd (fst run)) [] (snd run) 2)
    as (Hn & resource & before & page & after & _ & H1 & H2 & H3 & H4 & _).
  - vm_compute. reflexivity.
  - split; [exact Hn|]. exists resource, before, page, after. auto.
Defined.

Lemma verify_message_determines_quota_witness :
  let g := ex_github 0 (fun _ => inr []) in
  let g' := ex_github 200 ex_pages_first_only in
  verify g = inr (true, "TOKEN-PASSED: (5000, 5000)")
  /\ verify g' = inr (true, "TOKEN-PASSED: (5000, 5000)")
  /\ rate_limiting g = rate_limiting g'.
Proof.
  intros g g'. split; [reflexivity|]. split; [reflexivity|].
  destruct (verify_message_determines_quota g g' true true
              "TOKEN-PASSED: (5000, 5000)" eq_refl eq_refl) as (_ & H & _).
  exact (H eq_refl).
Defined.
